(** * WinPR file functions on POSIX hosts

    A shallow embedding of [winpr/libwinpr/file/generic.c]: the attribute
    translation ([FindDataFromStat]), the directory search triad
    ([FindFirstFileA], [FindNextFileA], [FindClose]), the handle creator
    registry behind [CreateFileA], the operation-table dispatch of
    [ReadFile] and [WriteFile], and [MoveFileExA].

    Pointers are modelled by an explicit heap of typed blocks; a C
    behaviour the language leaves undefined (a dangling or wild pointer,
    a block used at another type) is the outcome [Fault]. *)

From Stdlib Require Import ZArith String Ascii Bool Lia List.
From stdpp Require Import base gmap strings list option.

Open Scope Z_scope.

(** ** Basic types and constants *)

Definition BOOL := bool.
Definition TRUE : BOOL := true.
Definition FALSE : BOOL := false.

(** [DWORD] and [UINT64] values are integers kept in range by the
    conversions below. *)
Definition DWORD := Z.

Definition to_DWORD (z : Z) : DWORD := z mod 2 ^ 32.
Definition to_UINT64 (z : Z) : Z := z mod 2 ^ 64.

(** Modelled from the spec: the attribute bits of [winpr/file.h], which is
    not part of the sources at hand; the values are the ones of the
    emulated API. *)
Definition FILE_ATTRIBUTE_READONLY : DWORD := 0x1.
Definition FILE_ATTRIBUTE_HIDDEN : DWORD := 0x2.
Definition FILE_ATTRIBUTE_DIRECTORY : DWORD := 0x10.
Definition FILE_ATTRIBUTE_ARCHIVE : DWORD := 0x20.

(** Modelled from the spec: the flag of [winpr/file.h] that asks
    [MoveFileExA] to replace an existing destination. *)
Definition MOVEFILE_REPLACE_EXISTING : DWORD := 0x1.

(** Modelled from the spec: the error codes of [winpr/error.h] used by the
    functions below. *)
Definition ERROR_ACCESS_DENIED : DWORD := 5.
Definition ERROR_NOT_ENOUGH_MEMORY : DWORD := 8.
Definition ERROR_NO_MORE_FILES : DWORD := 18.
Definition ERROR_BAD_ARGUMENTS : DWORD := 160.
Definition ERROR_ALREADY_EXISTS : DWORD := 183.
Definition ERROR_DLL_INIT_FAILED : DWORD := 1114.

(** Modelled from the spec: [MAX_PATH], the bound of the name field of a
    find record. *)
Definition MAX_PATH : nat := 260.

(** The mode bits of [<sys/stat.h>] the file looks at (octal 170000,
    040000, 010000 and 0200). *)
Definition S_IFMT : Z := 0xF000.
Definition S_IFDIR : Z := 0x4000.
Definition S_IFIFO : Z := 0x1000.
Definition S_IWUSR : Z := 0x80.

Definition S_ISDIR (m : Z) : bool := Z.land m S_IFMT =? S_IFDIR.
Definition S_ISFIFO (m : Z) : bool := Z.land m S_IFMT =? S_IFIFO.

(** The fields of [struct stat] that [FindDataFromStat] reads. *)
Record struct_stat := mk_stat {
  st_mode : Z;
  st_size : Z;
  st_ctime : Z;
  st_mtime : Z;
  st_atime : Z
}.

(** The result of [stat(2)]: the filled structure, or [errno]. *)
Inductive stat_result :=
  | StatOk (s : struct_stat)
  | StatErr (errno : Z).

(** ** C strings *)

(** A [char*] that points to a string is modelled by the characters before
    the terminator. *)

Definition strlen (s : string) : nat := String.length s.

(** [strrchr s c]: the suffix of [s] that starts at the last [c]. *)
Fixpoint strrchr (s : string) (c : ascii) : option string :=
  match s with
  | EmptyString => None
  | String x s' =>
      match strrchr s' c with
      | Some t => Some t
      | None => if Ascii.eqb x c then Some s else None
      end
  end.

(** [ptr + 1] for a pointer into a string. *)
Definition str_next (s : string) : string :=
  match s with
  | EmptyString => EmptyString
  | String _ r => r
  end.

(** [strndup s n] and the effect of [strncpy dst s n] on a zeroed [dst]:
    the first [n] characters. *)
Fixpoint str_take (n : nat) (s : string) : string :=
  match n, s with
  | O, _ => EmptyString
  | _, EmptyString => EmptyString
  | S n', String c r => String c (str_take n' r)
  end.

Definition char_at (s : string) (i : nat) : option ascii := String.get i s.

Definition code (c : ascii) : Z := Z.of_nat (nat_of_ascii c).

(** [strncmp a b n]: zero iff the strings agree on their first [n]
    characters, terminators included. *)
Fixpoint strncmp (a b : string) (n : nat) : Z :=
  match n with
  | O => 0
  | S n' =>
      match a, b with
      | EmptyString, EmptyString => 0
      | EmptyString, String d _ => 0 - code d
      | String c _, EmptyString => code c
      | String c a', String d b' =>
          if Ascii.eqb c d then strncmp a' b' n' else code c - code d
      end
  end.

Definition last_char (s : string) : option ascii :=
  match strlen s with
  | O => None
  | S k => char_at s k
  end.

(** ** Find records *)

Record FILETIME := mk_filetime {
  dwLowDateTime : DWORD;
  dwHighDateTime : DWORD
}.

Record WIN32_FIND_DATAA := mk_find_data {
  dwFileAttributes : DWORD;
  ftCreationTime : FILETIME;
  ftLastAccessTime : FILETIME;
  ftLastWriteTime : FILETIME;
  nFileSizeHigh : DWORD;
  nFileSizeLow : DWORD;
  dwReserved0 : DWORD;
  dwReserved1 : DWORD;
  cFileName : string;
  cAlternateFileName : string
}.

(** [const WIN32_FIND_DATAA empty = { 0 }]. *)
Definition empty_find_data : WIN32_FIND_DATAA :=
  mk_find_data 0 (mk_filetime 0 0) (mk_filetime 0 0) (mk_filetime 0 0)
    0 0 0 0 EmptyString EmptyString.

Definition set_cFileName (r : WIN32_FIND_DATAA) (n : string) : WIN32_FIND_DATAA :=
  mk_find_data (dwFileAttributes r) (ftCreationTime r) (ftLastAccessTime r)
    (ftLastWriteTime r) (nFileSizeHigh r) (nFileSizeLow r) (dwReserved0 r)
    (dwReserved1 r) n (cAlternateFileName r).

(** Splitting of a 64-bit tick count into the two halves of a [FILETIME]. *)
Definition filetime_of (ft : Z) : FILETIME :=
  mk_filetime (to_DWORD (Z.land ft 0xFFFFFFFF)) (to_DWORD (Z.shiftr ft 32)).

(** ** Attribute translation *)

Section AttributeTranslator.

(** [STAT_TIME_TO_FILETIME] is a macro of [file.h], not among the sources;
    it is a parameter of the translation. *)
Variable STAT_TIME_TO_FILETIME : Z -> Z.

(** The hidden test of [FindDataFromStat] on the name after the last
    separator. *)
Definition hidden_name (name : string) : bool :=
  (1 <? strlen name)%nat
  && match char_at name 0 with Some c => Ascii.eqb c "." | None => false end
  && match char_at name 1 with Some c => negb (Ascii.eqb c ".") | None => true end.

Definition FindDataFromStat_attributes (path : string) (fileStat : struct_stat) : DWORD :=
  let a0 : DWORD := 0 in
  let a1 := if S_ISDIR (st_mode fileStat) then Z.lor a0 FILE_ATTRIBUTE_DIRECTORY else a0 in
  let a2 := if a1 =? 0 then FILE_ATTRIBUTE_ARCHIVE else a1 in
  let a3 :=
    match strrchr path "/" with
    | Some lastSep =>
        let name := str_next lastSep in
        if hidden_name name then Z.lor a2 FILE_ATTRIBUTE_HIDDEN else a2
    | None => a2
    end in
  if Z.land (st_mode fileStat) S_IWUSR =? 0
  then Z.lor a3 FILE_ATTRIBUTE_READONLY
  else a3.

(** [FindDataFromStat]: the record after the call, and the returned
    [BOOL]. The build without [_DARWIN_FEATURE_64_BIT_INODE] is the one
    modelled: the creation time comes from [st_ctime]. *)
Definition FindDataFromStat (path : string) (fileStat : struct_stat)
    (r : WIN32_FIND_DATAA) : BOOL * WIN32_FIND_DATAA :=
  (TRUE,
   mk_find_data
     (FindDataFromStat_attributes path fileStat)
     (filetime_of (to_UINT64 (STAT_TIME_TO_FILETIME (st_ctime fileStat))))
     (filetime_of (to_UINT64 (STAT_TIME_TO_FILETIME (st_atime fileStat))))
     (filetime_of (to_UINT64 (STAT_TIME_TO_FILETIME (st_mtime fileStat))))
     (to_DWORD (Z.shiftr (to_UINT64 (st_size fileStat)) 32))
     (to_DWORD (Z.land (st_size fileStat) 0xFFFFFFFF))
     (dwReserved0 r) (dwReserved1 r) (cFileName r) (cAlternateFileName r)).

End AttributeTranslator.

(** An attribute bit is set. *)
Definition has_attr (a flag : DWORD) : bool := negb (Z.land a flag =? 0).

(** ** Memory, directory streams and the last error *)

(** A pointer or [HANDLE] value: the null pointer, the sentinel
    [(HANDLE)-1], or the address of a block. *)
Inductive pointer :=
  | NULL
  | INVALID_HANDLE_VALUE
  | Addr (a : positive).

Definition is_null (p : pointer) : bool :=
  match p with NULL => true | _ => false end.

Definition is_invalid_handle_value (p : pointer) : bool :=
  match p with INVALID_HANDLE_VALUE => true | _ => false end.

(** [WIN32_FILE_SEARCH]; [pDir] is [None] for a null [DIR*], else the
    identifier of a directory stream. *)
Record WIN32_FILE_SEARCH := mk_search {
  magic : string;
  lpPath : pointer;
  lpPattern : pointer;
  pDir : option positive
}.

Definition file_search_magic : string := "file_srch_magic".

(** [sizeof(file_search_magic)]: fifteen characters and the terminator. *)
Definition sizeof_file_search_magic : nat := 16.

(** Wide strings are lists of 16-bit code units. *)
Definition wstring := list Z.

Record WIN32_FIND_DATAW := mk_find_data_w {
  w_dwFileAttributes : DWORD;
  w_ftCreationTime : FILETIME;
  w_ftLastAccessTime : FILETIME;
  w_ftLastWriteTime : FILETIME;
  w_nFileSizeHigh : DWORD;
  w_nFileSizeLow : DWORD;
  w_dwReserved0 : DWORD;
  w_dwReserved1 : DWORD;
  w_cFileName : wstring;
  w_cAlternateFileName : wstring
}.

(** What an allocated block holds. *)
Inductive block :=
  | BString (s : string)
  | BSearch (fs : WIN32_FILE_SEARCH)
  | BFindDataA (r : WIN32_FIND_DATAA)
  | BFindDataW (r : WIN32_FIND_DATAW).

(** Modelled from the spec: the layout of the find records of
    [winpr/file.h], which is not among the sources. Both records begin
    with the attributes, the creation time and the access time, a time
    being its low half followed by its high half, and a 32-bit field is
    stored with its least significant byte first. *)
Definition DWORD_bytes (d : DWORD) : list Z :=
  [d mod 256; (d / 256) mod 256; (d / 65536) mod 256; (d / 16777216) mod 256].

(** The characters a string function reads from a sequence of bytes: the
    ones before the first zero byte. *)
Fixpoint chars_of_bytes (bytes : list Z) : string :=
  match bytes with
  | [] => EmptyString
  | b :: rest =>
      if b =? 0 then EmptyString
      else String (ascii_of_nat (Z.to_nat b)) (chars_of_bytes rest)
  end.

(** The first sixteen bytes of a find record, read as characters. *)
Definition find_data_leading_bytes (attributes : DWORD) (creation access : FILETIME)
    : string :=
  chars_of_bytes
    (DWORD_bytes attributes ++ DWORD_bytes (dwLowDateTime creation)
     ++ DWORD_bytes (dwHighDateTime creation) ++ DWORD_bytes (dwLowDateTime access)).

(** The leading bytes of a block, read as characters: the characters of
    a buffer, the tag field of a search object, the first fields of a
    find record. *)
Definition leading_bytes (b : block) : string :=
  match b with
  | BString s => s
  | BSearch fs => magic fs
  | BFindDataA r =>
      find_data_leading_bytes (dwFileAttributes r) (ftCreationTime r)
        (ftLastAccessTime r)
  | BFindDataW r =>
      find_data_leading_bytes (w_dwFileAttributes r) (w_ftCreationTime r)
        (w_ftLastAccessTime r)
  end.

(** The state the search functions run in: the live blocks, the open
    directory streams with the names they have not returned yet, the last
    error, and the outcome of the allocation requests to come ([true]: the
    request fails; past the end of the list every request succeeds). *)
Record State := mk_state {
  heap : gmap positive block;
  dirs : gmap positive (list string);
  last_error : DWORD;
  oom : list bool
}.

Definition set_heap (h : gmap positive block) (st : State) : State :=
  mk_state h (dirs st) (last_error st) (oom st).
Definition set_dirs (d : gmap positive (list string)) (st : State) : State :=
  mk_state (heap st) d (last_error st) (oom st).
Definition set_last_error (e : DWORD) (st : State) : State :=
  mk_state (heap st) (dirs st) e (oom st).
Definition set_oom (o : list bool) (st : State) : State :=
  mk_state (heap st) (dirs st) (last_error st) o.

(** The outcome of a run: a value and a state, or undefined behaviour. *)
Inductive outcome (A : Type) :=
  | Ok (a : A) (st : State)
  | Fault.
Arguments Ok {A} a st.
Arguments Fault {A}.

Definition M (A : Type) : Type := State -> outcome A.

Definition ret {A} (a : A) : M A := fun st => Ok a st.
Definition bind {A B} (m : M A) (k : A -> M B) : M B :=
  fun st => match m st with Ok a st' => k a st' | Fault => Fault end.
Definition fault {A} : M A := fun _ => Fault.

#[export] Instance M_ret : MRet M := @ret.
#[export] Instance M_bind : MBind M := fun A B k m => bind m k.

Definition get_state : M State := fun st => Ok st st.

Definition SetLastError (e : DWORD) : M unit :=
  fun st => Ok tt (set_last_error e st).

(** [malloc], [calloc], [strndup] and [_strdup]: a fresh block with the
    given content, or the null pointer. *)
Definition alloc (b : block) : M pointer :=
  fun st =>
    match oom st with
    | true :: rest => Ok NULL (set_oom rest st)
    | o =>
        let a := fresh (dom (heap st)) in
        Ok (Addr a) (set_oom (tail o) (set_heap (<[a := b]> (heap st)) st))
    end.

Definition load (p : pointer) : M block :=
  fun st =>
    match p with
    | Addr a => match heap st !! a with Some b => Ok b st | None => Fault end
    | _ => Fault
    end.

Definition store (p : pointer) (b : block) : M unit :=
  fun st =>
    match p with
    | Addr a =>
        match heap st !! a with
        | Some _ => Ok tt (set_heap (<[a := b]> (heap st)) st)
        | None => Fault
        end
    | _ => Fault
    end.

(** [free]: nothing for the null pointer, undefined for a pointer that is
    not the address of a live block. *)
Definition free (p : pointer) : M unit :=
  fun st =>
    match p with
    | NULL => Ok tt st
    | Addr a =>
        match heap st !! a with
        | Some _ => Ok tt (set_heap (delete a (heap st)) st)
        | None => Fault
        end
    | INVALID_HANDLE_VALUE => Fault
    end.

Definition load_string (p : pointer) : M string :=
  b ← load p; match b with BString s => ret s | _ => fault end.

Definition load_search (p : pointer) : M WIN32_FILE_SEARCH :=
  b ← load p; match b with BSearch fs => ret fs | _ => fault end.

Definition load_find_data (p : pointer) : M WIN32_FIND_DATAA :=
  b ← load p; match b with BFindDataA r => ret r | _ => fault end.

Definition store_find_data (p : pointer) (r : WIN32_FIND_DATAA) : M unit :=
  _ ← load_find_data p; store p (BFindDataA r).

Definition load_find_data_w (p : pointer) : M WIN32_FIND_DATAW :=
  b ← load p; match b with BFindDataW r => ret r | _ => fault end.

(** [readdir]: the next name of the stream, or null at its end. *)
Definition readdir (d : option positive) : M (option string) :=
  fun st =>
    match d with
    | None => Fault
    | Some i =>
        match dirs st !! i with
        | None => Fault
        | Some [] => Ok None st
        | Some (n :: rest) => Ok (Some n) (set_dirs (<[i := rest]> (dirs st)) st)
        end
    end.

Definition closedir (i : positive) : M unit :=
  fun st =>
    match dirs st !! i with
    | None => Fault
    | Some _ => Ok tt (set_dirs (delete i (dirs st)) st)
    end.

(** The names a stream has not returned yet. *)
Definition entries_left (d : option positive) (st : State) : list string :=
  match d with
  | Some i => default [] (dirs st !! i)
  | None => []
  end.

(** ** The platform *)

(** The system calls and the functions of other files that the search
    functions call; none of them is among the sources. [stat] and
    [opendir_fs] describe the file system, which stays as it is while a
    function runs; [rename_fs] gives the outcome of
    [rename(2)], [None] for success and [errno] otherwise. *)
Record Platform := mk_platform {
  stat : string -> stat_result;
  opendir_fs : string -> option (list string);
  rename_fs : string -> string -> option Z;
  FilePatternMatchA : string -> string -> bool;
  map_posix_err : Z -> DWORD;
  STAT_TIME_TO_FILETIME : Z -> Z;
  ConvertWCharToUtf8Alloc : wstring -> option string;
  ConvertUtf8NToWChar : string -> nat -> nat -> option wstring
}.

(** Modelled from the spec: [PathGetSeparatorA (PATH_STYLE_NATIVE)] of
    [winpr/path.h], the native separator of the POSIX host. *)
Definition PathGetSeparatorA_native : ascii := "/"%char.

(** ** The directory search *)

Section DirectoryEnumerator.

Variable env : Platform.

Definition opendir (path : string) : M (option positive) :=
  fun st =>
    match opendir_fs env path with
    | None => Ok None st
    | Some names =>
        let i := fresh (dom (dirs st)) in
        Ok (Some i) (set_dirs (<[i := names]> (dirs st)) st)
    end.

(** [is_valid_file_search_handle]. The tag is read through the pointer,
    whatever the live object it points to: the comparison is made with
    the leading bytes of that object. *)
Definition is_valid_file_search_handle (handle : pointer) : M BOOL :=
  match handle with
  | NULL => ret FALSE
  | INVALID_HANDLE_VALUE => ret FALSE
  | Addr _ =>
      b ← load handle;
      ret (strncmp file_search_magic (leading_bytes b) sizeof_file_search_magic =? 0)
  end.

(** [FindClose], as compiled outside the static analyser. *)
Definition FindClose (hFindFile : pointer) : M BOOL :=
  if is_null hFindFile then ret FALSE
  else
    valid ← is_valid_file_search_handle hFindFile;
    if negb valid then ret FALSE
    else
      pFileSearch ← load_search hFindFile;
      free (lpPath pFileSearch);;
      free (lpPattern pFileSearch);;
      match pDir pFileSearch with
      | Some d => closedir d
      | None => ret tt
      end;;
      free hFindFile;;
      ret TRUE.

Definition set_lpPath (p : pointer) (fs : WIN32_FILE_SEARCH) :=
  mk_search (magic fs) p (lpPattern fs) (pDir fs).
Definition set_lpPattern (p : pointer) (fs : WIN32_FILE_SEARCH) :=
  mk_search (magic fs) (lpPath fs) p (pDir fs).
Definition set_pDir (d : option positive) (fs : WIN32_FILE_SEARCH) :=
  mk_search (magic fs) (lpPath fs) (lpPattern fs) d.
Definition set_magic (m : string) (fs : WIN32_FILE_SEARCH) :=
  mk_search m (lpPath fs) (lpPattern fs) (pDir fs).

(** [pFileSearch->field = v]. *)
Definition update_search (p : pointer)
    (f : WIN32_FILE_SEARCH -> WIN32_FILE_SEARCH) : M unit :=
  fs ← load_search p; store p (BSearch (f fs)).

(** The retry of [file_search_new] when the directory part does not
    open: the whole name, if it is a directory, with the pattern ["*"]. *)
Definition file_search_new_fallback (pFileSearch : pointer) (name : string) : M unit :=
  match stat env name with
  | StatOk fileStat =>
      if S_ISDIR (st_mode fileStat) then
        d ← opendir name;
        update_search pFileSearch (set_pDir d);;
        match d with
        | Some i =>
            fs ← load_search pFileSearch;
            free (lpPath fs);;
            free (lpPattern fs);;
            p1 ← alloc (BString name);
            update_search pFileSearch (set_lpPath p1);;
            p2 ← alloc (BString "*");
            update_search pFileSearch (set_lpPattern p2);;
            if is_null p1 || is_null p2 then
              closedir i;;
              update_search pFileSearch (set_pDir None)
            else ret tt
        | None => ret tt
        end
      else ret tt
  | StatErr _ => ret tt
  end.

Definition file_search_new (name : string) (namelen : nat)
    (pattern : string) (patternlen : nat) : M pointer :=
  pFileSearch ← alloc (BSearch (mk_search EmptyString NULL NULL None));
  if is_null pFileSearch then ret NULL
  else
    update_search pFileSearch (set_magic file_search_magic);;
    p1 ← alloc (BString (str_take namelen name));
    update_search pFileSearch (set_lpPath p1);;
    p2 ← alloc (BString (str_take patternlen pattern));
    update_search pFileSearch (set_lpPattern p2);;
    if is_null p1 || is_null p2 then
      FindClose pFileSearch;; ret NULL
    else
      path ← load_string p1;
      d ← opendir path;
      update_search pFileSearch (set_pDir d);;
      match d with
      | None => file_search_new_fallback pFileSearch name
      | Some _ => ret tt
      end;;
      fs ← load_search pFileSearch;
      match pDir fs with
      | None => FindClose pFileSearch;; ret NULL
      | Some _ => ret pFileSearch
      end.

(** The full path [FindNextFileA] builds for an entry: the search path,
    a separator unless the path ends with one, and the name. *)
Definition fullpath_of (path : string) (last : ascii) (name : string) : string :=
  (path ++ (if Ascii.eqb last "/" then EmptyString else "/") ++ name)%string.

(** The [while] loop of [FindNextFileA]; [fuel] bounds the number of
    [readdir] calls and is one more than the names left in the stream. *)
Fixpoint FindNextFileA_loop (fuel : nat) (hFindFile lpFindFileData : pointer)
    : M BOOL :=
  match fuel with
  | O => fault
  | S fuel' =>
      pFileSearch ← load_search hFindFile;
      pDirent ← readdir (pDir pFileSearch);
      match pDirent with
      | None => SetLastError ERROR_NO_MORE_FILES;; ret FALSE
      | Some d_name =>
          pattern ← load_string (lpPattern pFileSearch);
          if FilePatternMatchA env d_name pattern then
            r ← load_find_data lpFindFileData;
            store lpFindFileData
              (BFindDataA (set_cFileName r (str_take MAX_PATH d_name)));;
            let namelen := strlen (str_take MAX_PATH d_name) in
            path ← load_string (lpPath pFileSearch);
            fullpath ← alloc (BString EmptyString);
            if is_null fullpath then
              SetLastError ERROR_NOT_ENOUGH_MEMORY;; ret FALSE
            else
              match last_char path with
              | None => fault
              | Some c =>
                  let full := fullpath_of path c (str_take namelen d_name) in
                  store fullpath (BString full);;
                  match stat env full with
                  | StatErr errno =>
                      free fullpath;;
                      SetLastError (map_posix_err env errno);;
                      FindNextFileA_loop fuel' hFindFile lpFindFileData
                  | StatOk fileStat =>
                      if S_ISFIFO (st_mode fileStat) then
                        free fullpath;;
                        FindNextFileA_loop fuel' hFindFile lpFindFileData
                      else
                        r' ← load_find_data lpFindFileData;
                        let res :=
                          FindDataFromStat (STAT_TIME_TO_FILETIME env) full fileStat r' in
                        store lpFindFileData (BFindDataA (snd res));;
                        free fullpath;;
                        ret (fst res)
                  end
              end
          else FindNextFileA_loop fuel' hFindFile lpFindFileData
      end
  end.

Definition FindNextFileA (hFindFile lpFindFileData : pointer) : M BOOL :=
  if is_null lpFindFileData then ret FALSE
  else
    store_find_data lpFindFileData empty_find_data;;
    valid ← is_valid_file_search_handle hFindFile;
    if negb valid then ret FALSE
    else
      pFileSearch ← load_search hFindFile;
      st ← get_state;
      FindNextFileA_loop
        (S (length (entries_left (pDir pFileSearch) st)))
        hFindFile lpFindFileData.

(** [FindFirstFileA]; the file name is passed by value, [None] for a
    null [lpFileName]. *)
Definition FindFirstFileA (lpFileName : option string)
    (lpFindFileData : pointer) : M pointer :=
  match lpFileName with
  | None => SetLastError ERROR_BAD_ARGUMENTS;; ret INVALID_HANDLE_VALUE
  | Some name =>
      if is_null lpFindFileData then
        SetLastError ERROR_BAD_ARGUMENTS;; ret INVALID_HANDLE_VALUE
      else
        store_find_data lpFindFileData empty_find_data;;
        let flen := strlen name in
        match strrchr name PathGetSeparatorA_native with
        | None => FindClose NULL;; ret INVALID_HANDLE_VALUE
        | Some ptr =>
            let patternlen := strlen (str_next ptr) in
            if (patternlen =? 0)%nat then
              FindClose NULL;; ret INVALID_HANDLE_VALUE
            else
              pFileSearch ←
                file_search_new name (flen - patternlen)%nat (str_next ptr) patternlen;
              if is_null pFileSearch then
                SetLastError ERROR_NOT_ENOUGH_MEMORY;; ret INVALID_HANDLE_VALUE
              else
                found ← FindNextFileA pFileSearch lpFindFileData;
                if (found : BOOL) then ret pFileSearch
                else FindClose pFileSearch;; ret INVALID_HANDLE_VALUE
        end
  end.

(** [ConvertFindDataAToW]; a conversion that fails is taken to leave its
    destination as it was. *)
Definition ConvertFindDataAToW (lpFindFileDataA lpFindFileDataW : pointer)
    : M BOOL :=
  if is_null lpFindFileDataA || is_null lpFindFileDataW then ret FALSE
  else
    a ← load_find_data lpFindFileDataA;
    w ← load_find_data_w lpFindFileDataW;
    let w1 :=
      mk_find_data_w (dwFileAttributes a) (ftCreationTime a)
        (ftLastAccessTime a) (ftLastWriteTime a) (nFileSizeHigh a)
        (nFileSizeLow a) (dwReserved0 a) (dwReserved1 a)
        (w_cFileName w) (w_cAlternateFileName w) in
    store lpFindFileDataW (BFindDataW w1);;
    match ConvertUtf8NToWChar env (cFileName a) MAX_PATH MAX_PATH with
    | None => ret FALSE
    | Some wname =>
        let w2 :=
          mk_find_data_w (w_dwFileAttributes w1) (w_ftCreationTime w1)
            (w_ftLastAccessTime w1) (w_ftLastWriteTime w1) (w_nFileSizeHigh w1)
            (w_nFileSizeLow w1) (w_dwReserved0 w1) (w_dwReserved1 w1)
            wname (w_cAlternateFileName w1) in
        store lpFindFileDataW (BFindDataW w2);;
        match ConvertUtf8NToWChar env (cAlternateFileName a) 14 14 with
        | None => ret FALSE
        | Some walt =>
            store lpFindFileDataW
              (BFindDataW
                 (mk_find_data_w (w_dwFileAttributes w2) (w_ftCreationTime w2)
                    (w_ftLastAccessTime w2) (w_ftLastWriteTime w2)
                    (w_nFileSizeHigh w2) (w_nFileSizeLow w2) (w_dwReserved0 w2)
                    (w_dwReserved1 w2) (w_cFileName w2) walt));;
            ret TRUE
        end
    end.

(** [FindFirstFileW]; the converted name is passed by value, so its
    allocation and release do not show in the heap. *)
Definition FindFirstFileW (lpFileName : option wstring)
    (lpFindFileData : pointer) : M pointer :=
  match lpFileName with
  | None => ret INVALID_HANDLE_VALUE
  | Some wname =>
      fd ← alloc (BFindDataA empty_find_data);
      if is_null fd then
        SetLastError ERROR_NOT_ENOUGH_MEMORY;; ret INVALID_HANDLE_VALUE
      else
        match ConvertWCharToUtf8Alloc env wname with
        | None =>
            SetLastError ERROR_NOT_ENOUGH_MEMORY;;
            free fd;;
            ret INVALID_HANDLE_VALUE
        | Some utfFileName =>
            h ← FindFirstFileA (Some utfFileName) fd;
            if negb (is_invalid_handle_value h) then
              converted ← ConvertFindDataAToW fd lpFindFileData;
              if negb converted then
                SetLastError ERROR_NOT_ENOUGH_MEMORY;;
                FindClose h;;
                free fd;;
                ret INVALID_HANDLE_VALUE
              else free fd;; ret h
            else free fd;; ret h
        end
  end.

(** The tail of [MoveFileExA]: the native rename and the mapping of its
    error. *)
Definition MoveFileExA_rename (lpExistingFileName lpNewFileName : string)
    : M BOOL :=
  match rename_fs env lpExistingFileName lpNewFileName with
  | Some errno => SetLastError (map_posix_err env errno);; ret FALSE
  | None => ret TRUE
  end.

(** [MoveFileExA]; [stat] returns zero exactly when it yields [StatOk]. *)
Definition MoveFileExA (lpExistingFileName lpNewFileName : string)
    (dwFlags : DWORD) : M BOOL :=
  let st_ret := stat env lpNewFileName in
  if Z.land dwFlags MOVEFILE_REPLACE_EXISTING =? 0 then
    match st_ret with
    | StatOk _ => SetLastError ERROR_ALREADY_EXISTS;; ret FALSE
    | StatErr _ => MoveFileExA_rename lpExistingFileName lpNewFileName
    end
  else
    match st_ret with
    | StatOk st =>
        if Z.land (st_mode st) S_IWUSR =? 0 then
          SetLastError ERROR_ACCESS_DENIED;; ret FALSE
        else MoveFileExA_rename lpExistingFileName lpNewFileName
    | StatErr _ => MoveFileExA_rename lpExistingFileName lpNewFileName
    end.

End DirectoryEnumerator.

(** ** The handle creator registry *)

Section HandleCreatorRegistry.

(** The state the creators' open functions act on. *)
Variable World : Type.

(** The arguments of [CreateFileA] after the file name. *)
Record create_args := mk_create_args {
  dwDesiredAccess : DWORD;
  dwShareMode : DWORD;
  lpSecurityAttributes : pointer;
  dwCreationDisposition : DWORD;
  dwFlagsAndAttributes : DWORD;
  hTemplateFile : pointer
}.

(** [HANDLE_CREATOR]: the claim predicate and the open function. *)
Record HANDLE_CREATOR := mk_creator {
  IsHandled : string -> bool;
  creator_CreateFileA : string -> create_args -> World -> pointer * World
}.

(** The creators of the other files, a null pointer being [None], the
    outcome of [ArrayList_New] and the value [pthread_once] returns. *)
Record RegistryEnv := mk_registry_env {
  GetNamedPipeClientHandleCreator : option HANDLE_CREATOR;
  GetCommHandleCreator : option HANDLE_CREATOR;
  GetFileHandleCreator : option HANDLE_CREATOR;
  ArrayList_New_succeeds : bool;
  pthread_once_rc : Z
}.

(** The two statics of the file, the last error and the creators' world.
    [HandleCreators] is [None] while the pointer is null. *)
Record Process := mk_process {
  HandleCreatorsInitialized : bool;
  HandleCreators : option (list (option HANDLE_CREATOR));
  process_last_error : DWORD;
  world : World
}.

Variable renv : RegistryEnv.

(** [ArrayList_GetItem]: null when the index is out of range. *)
Definition ArrayList_GetItem (l : list (option HANDLE_CREATOR)) (i : nat)
    : option HANDLE_CREATOR :=
  match l !! i with
  | Some item => item
  | None => None
  end.

Definition ArrayList_Count (l : list (option HANDLE_CREATOR)) : nat := length l.

Definition ArrayList_Append (l : list (option HANDLE_CREATOR))
    (obj : option HANDLE_CREATOR) : list (option HANDLE_CREATOR) :=
  l ++ [obj].

(** [HandleCreatorsInit]: the new value of [HandleCreators], or [None]
    when the assertion on entry fails. *)
Definition HandleCreatorsInit (current : option (list (option HANDLE_CREATOR)))
    : option (option (list (option HANDLE_CREATOR))) :=
  match current with
  | Some _ => None
  | None =>
      if ArrayList_New_succeeds renv then
        let l0 := ArrayList_Append [] (GetNamedPipeClientHandleCreator renv) in
        let serial := GetCommHandleCreator renv in
        let l1 := match serial with
                  | Some _ => ArrayList_Append l0 serial
                  | None => l0
                  end in
        Some (Some (ArrayList_Append l1 (GetFileHandleCreator renv)))
      else Some None
  end.

(** [pthread_once (&HandleCreatorsInitialized, HandleCreatorsInit)] in a
    single thread: the routine runs if it has not run yet; a non-zero
    result is taken to leave the statics as they were. *)
Definition pthread_once_HandleCreatorsInit (p : Process) : option (Z * Process) :=
  if pthread_once_rc renv =? 0 then
    if HandleCreatorsInitialized p then Some (0, p)
    else
      match HandleCreatorsInit (HandleCreators p) with
      | None => None
      | Some hc =>
          Some (0, mk_process true hc (process_last_error p) (world p))
      end
  else Some (pthread_once_rc renv, p).

(** The [for] loop of [CreateFileA] from index [i] on, [n] iterations
    being left; the index runs up to [ArrayList_Count] included. *)
Fixpoint CreateFileA_loop (n i : nat) (l : list (option HANDLE_CREATOR))
    (lpFileName : string) (args : create_args) (w : World) : pointer * World :=
  match n with
  | O => (INVALID_HANDLE_VALUE, w)
  | S n' =>
      match ArrayList_GetItem l i with
      | Some creator =>
          if IsHandled creator lpFileName
          then creator_CreateFileA creator lpFileName args w
          else CreateFileA_loop n' (S i) l lpFileName args w
      | None => CreateFileA_loop n' (S i) l lpFileName args w
      end
  end.

Definition set_process_last_error (e : DWORD) (p : Process) : Process :=
  mk_process (HandleCreatorsInitialized p) (HandleCreators p) e (world p).
Definition set_world (w : World) (p : Process) : Process :=
  mk_process (HandleCreatorsInitialized p) (HandleCreators p)
    (process_last_error p) w.

(** [CreateFileA]: the handle and the process afterwards; [None] when
    the assertion of [HandleCreatorsInit] fails. *)
Definition CreateFileA (lpFileName : option string) (args : create_args)
    (p : Process) : option (pointer * Process) :=
  match lpFileName with
  | None => Some (INVALID_HANDLE_VALUE, p)
  | Some name =>
      match pthread_once_HandleCreatorsInit p with
      | None => None
      | Some (rc, p1) =>
          if negb (rc =? 0) then
            Some (INVALID_HANDLE_VALUE, set_process_last_error ERROR_DLL_INIT_FAILED p1)
          else
            match HandleCreators p1 with
            | None =>
                Some (INVALID_HANDLE_VALUE,
                      set_process_last_error ERROR_DLL_INIT_FAILED p1)
            | Some l =>
                let res :=
                  CreateFileA_loop (S (ArrayList_Count l)) 0 l name args (world p1) in
                Some (fst res, set_world (snd res) p1)
            end
      end
  end.

(** The first creator of a list that claims a name. *)
Fixpoint first_claiming (l : list (option HANDLE_CREATOR)) (name : string)
    : option HANDLE_CREATOR :=
  match l with
  | [] => None
  | Some c :: l' => if IsHandled c name then Some c else first_claiming l' name
  | None :: l' => first_claiming l' name
  end.

End HandleCreatorRegistry.

Arguments mk_creator {World} _ _.
Arguments IsHandled {World} _ _.
Arguments creator_CreateFileA {World} _ _ _ _.
Arguments mk_registry_env {World} _ _ _ _ _.
Arguments mk_process {World} _ _ _ _.
Arguments HandleCreatorsInitialized {World} _.
Arguments HandleCreators {World} _.
Arguments process_last_error {World} _.
Arguments world {World} _.
Arguments CreateFileA {World} _ _ _ _.
Arguments CreateFileA_loop {World} _ _ _ _ _ _.
Arguments HandleCreatorsInit {World} _ _.
Arguments pthread_once_HandleCreatorsInit {World} _ _.
Arguments first_claiming {World} _ _.
Arguments ArrayList_GetItem {World} _ _.
Arguments ArrayList_Count {World} _.
Arguments set_world {World} _ _.
Arguments set_process_last_error {World} _ _.

(** ** The operation-table dispatch *)

Section HandleDispatcher.

(** The state the operations of a handle act on. *)
Variable World : Type.

(** An entry of the operation table for [ReadFile] or [WriteFile]: the
    handle, the buffer, the byte count, the transferred-count pointer and
    the overlapped pointer. *)
Definition io_operation : Type :=
  pointer -> pointer -> DWORD -> pointer -> pointer -> World -> BOOL * World.

Record HANDLE_OPS := mk_ops {
  ops_ReadFile : option io_operation;
  ops_WriteFile : option io_operation
}.

Record WINPR_HANDLE := mk_handle {
  handle_Type : Z;
  ops : HANDLE_OPS
}.

(** The handle objects of the process, and [winpr_Handle_GetInfo] of
    [handle.h], which is not among the sources. *)
Variable objects : positive -> option WINPR_HANDLE.
Variable winpr_Handle_GetInfo : pointer -> bool.

Definition handle_object (hFile : pointer) : option WINPR_HANDLE :=
  match hFile with
  | Addr a => objects a
  | _ => None
  end.

(** [ReadFile]; [None] is the use of a handle that is no object. The
    log line of the last branch is not modelled. *)
Definition ReadFile (hFile lpBuffer : pointer) (nNumberOfBytesToRead : DWORD)
    (lpNumberOfBytesRead lpOverlapped : pointer) (w : World)
    : option (BOOL * World) :=
  if is_invalid_handle_value hFile then Some (FALSE, w)
  else if is_null lpNumberOfBytesRead && is_null lpOverlapped then Some (FALSE, w)
  else if negb (winpr_Handle_GetInfo hFile) then Some (FALSE, w)
  else
    match handle_object hFile with
    | None => None
    | Some handle =>
        match ops_ReadFile (ops handle) with
        | Some f =>
            Some (f hFile lpBuffer nNumberOfBytesToRead lpNumberOfBytesRead
                    lpOverlapped w)
        | None => Some (FALSE, w)
        end
    end.

(** [WriteFile]. *)
Definition WriteFile (hFile lpBuffer : pointer) (nNumberOfBytesToWrite : DWORD)
    (lpNumberOfBytesWritten lpOverlapped : pointer) (w : World)
    : option (BOOL * World) :=
  if is_invalid_handle_value hFile then Some (FALSE, w)
  else if negb (winpr_Handle_GetInfo hFile) then Some (FALSE, w)
  else
    match handle_object hFile with
    | None => None
    | Some handle =>
        match ops_WriteFile (ops handle) with
        | Some f =>
            Some (f hFile lpBuffer nNumberOfBytesToWrite lpNumberOfBytesWritten
                    lpOverlapped w)
        | None => Some (FALSE, w)
        end
    end.

End HandleDispatcher.

Arguments mk_ops {World} _ _.
Arguments mk_handle {World} _ _.
Arguments ops {World} _.
Arguments ops_ReadFile {World} _.
Arguments ops_WriteFile {World} _.
Arguments ReadFile {World} _ _ _ _ _ _ _ _.
Arguments WriteFile {World} _ _ _ _ _ _ _ _.

(** ** Notions used by the statements *)

(** A character occurs in a string. *)
Fixpoint has_char (c : ascii) (s : string) : bool :=
  match s with
  | EmptyString => false
  | String x s' => Ascii.eqb x c || has_char c s'
  end.

(** The name after the last separator of a path, the whole path when it
    has none. *)
Definition base_name (path : string) : string :=
  match strrchr path "/" with
  | Some t => str_next t
  | None => path
  end.

(** The specification's reading of a hidden name: it begins with a dot
    that is not followed by a second one. *)
Definition begins_with_single_dot (name : string) : bool :=
  match name with
  | String c r =>
      Ascii.eqb c "."
      && match r with
         | String d _ => negb (Ascii.eqb d ".")
         | EmptyString => true
         end
  | EmptyString => false
  end.

(** The specification's rule for the attribute mask [a] of an entry: the
    four equivalences as its text gives them, the archive bit standing
    for "no other bit applies". *)
Definition spec_attribute_rule (path : string) (fileStat : struct_stat)
    (a : DWORD) : Prop :=
  (has_attr a FILE_ATTRIBUTE_DIRECTORY = true <-> S_ISDIR (st_mode fileStat) = true)
  /\ (has_attr a FILE_ATTRIBUTE_READONLY = true
      <-> Z.land (st_mode fileStat) S_IWUSR = 0)
  /\ (has_attr a FILE_ATTRIBUTE_HIDDEN = true
      <-> begins_with_single_dot (base_name path) = true
          /\ base_name path <> ".."%string)
  /\ (has_attr a FILE_ATTRIBUTE_ARCHIVE = true
      <-> has_attr a FILE_ATTRIBUTE_DIRECTORY = false
          /\ has_attr a FILE_ATTRIBUTE_READONLY = false
          /\ has_attr a FILE_ATTRIBUTE_HIDDEN = false).

(** The list [HandleCreatorsInit] builds: the named pipe creator, the
    serial creator when there is one, the file creator. *)
Definition registered_creators {World} (renv : RegistryEnv World)
    : list (option (HANDLE_CREATOR World)) :=
  [GetNamedPipeClientHandleCreator World renv]
  ++ match GetCommHandleCreator World renv with
     | Some c => [Some c]
     | None => []
     end
  ++ [GetFileHandleCreator World renv].

(** The registry holds the list [l] at the next resolution: it has been
    initialised with it, or it has not been initialised yet and its
    initialisation is going to build it. *)
Definition registry_holds {World} (renv : RegistryEnv World) (p : Process World)
    (l : list (option (HANDLE_CREATOR World))) : Prop :=
  (HandleCreatorsInitialized p = true /\ HandleCreators p = Some l)
  \/ (HandleCreatorsInitialized p = false /\ HandleCreators p = None
      /\ ArrayList_New_succeeds World renv = true
      /\ l = registered_creators renv).

(** The destination of a move exists: [stat] succeeds on it. *)
Definition destination_exists (env : Platform) (name : string) : Prop :=
  exists s, stat env name = StatOk s.

(** *** Directory entries as [FindNextFileA] treats them *)

(** The path [FindNextFileA] passes to [stat] for an entry of a search
    over [path]. *)
Definition entry_fullpath (path name : string) : string :=
  match last_char path with
  | Some c => fullpath_of path c (str_take MAX_PATH name)
  | None => str_take MAX_PATH name
  end.

(** What becomes of an entry: its name does not match the pattern, its
    [stat] fails, it is a FIFO, or it is reported. *)
Inductive entry_fate :=
  | NotMatched
  | StatFailed (errno : Z)
  | IsFifo
  | Reported (s : struct_stat).

Definition entry_fate_of (env : Platform) (path pattern name : string) : entry_fate :=
  if FilePatternMatchA env name pattern then
    match stat env (entry_fullpath path name) with
    | StatErr errno => StatFailed errno
    | StatOk s => if S_ISFIFO (st_mode s) then IsFifo else Reported s
    end
  else NotMatched.

Definition skipped (f : entry_fate) : Prop :=
  match f with
  | Reported _ => False
  | _ => True
  end.

(** The record reported for an entry with the [stat] result [s]. *)
Definition record_of (env : Platform) (path name : string) (s : struct_stat)
    : WIN32_FIND_DATAA :=
  snd (FindDataFromStat (STAT_TIME_TO_FILETIME env) (entry_fullpath path name) s
         (set_cFileName empty_find_data (str_take MAX_PATH name))).

(** The last error after the entries [names] have been passed over: each
    failing [stat] of a matching name records its mapped error. *)
Definition error_after (env : Platform) (path pattern : string)
    (names : list string) (err : DWORD) : DWORD :=
  fold_left
    (fun e name =>
       match entry_fate_of env path pattern name with
       | StatFailed errno => map_posix_err env errno
       | _ => e
       end)
    names err.

(** The name field after the entries [names] have been passed over: the
    name of the last one that matched the pattern. *)
Definition name_after (env : Platform) (path pattern : string)
    (names : list string) (n : string) : string :=
  fold_left
    (fun cur name =>
       match entry_fate_of env path pattern name with
       | NotMatched => cur
       | _ => str_take MAX_PATH name
       end)
    names n.

(** The next allocation request fails. *)
Definition alloc_fails (o : list bool) : bool :=
  match o with
  | true :: _ => true
  | _ => false
  end.

(** A live search object at [h]: tag, path and pattern strings of its own,
    and an open stream with the names [es] left. *)
Definition search_object (st : State) (h : positive) (path pattern : string)
    (d : positive) (es : list string) : Prop :=
  exists p1 p2,
    heap st !! h
    = Some (BSearch (mk_search file_search_magic (Addr p1) (Addr p2) (Some d)))
    /\ heap st !! p1 = Some (BString path)
    /\ heap st !! p2 = Some (BString pattern)
    /\ p1 <> p2
    /\ dirs st !! d = Some es.

(** A live find record at [rec]. *)
Definition find_record (st : State) (rec : positive) : Prop :=
  exists r, heap st !! rec = Some (BFindDataA r).

(** [n] calls of [FindNextFileA] in a row, with the values they return. *)
Fixpoint FindNextFileA_repeat (env : Platform) (n : nat)
    (hFindFile lpFindFileData : pointer) : M (list BOOL) :=
  match n with
  | O => ret []
  | S n' =>
      b ← FindNextFileA env hFindFile lpFindFileData;
      bs ← FindNextFileA_repeat env n' hFindFile lpFindFileData;
      ret (b :: bs)
  end.

(** *** Releasing *)

(** The heap after [free q]. *)
Definition release (q : pointer) (hp : gmap positive block) : gmap positive block :=
  match q with
  | Addr a => delete a hp
  | _ => hp
  end.

(** [free q] is defined: [q] is null or the address of a live block. *)
Definition releasable (q : pointer) (hp : gmap positive block) : Prop :=
  match q with
  | NULL => True
  | Addr a => is_Some (hp !! a)
  | INVALID_HANDLE_VALUE => False
  end.

(** The blocks [base] around a search object at [p] are the heap [hp] and
    the two strings [q1] and [q2] the object owns: releasing the strings
    is defined and gives [hp] back. *)
Definition owns_strings (hp base : gmap positive block) (p : positive)
    (q1 q2 : pointer) : Prop :=
  base !! p = None
  /\ releasable q1 base
  /\ releasable q2 (release q1 base)
  /\ release q2 (release q1 base) = hp.

(** The stream table after the [closedir] of [FindClose]. *)
Definition close_stream (d : option positive) (ds : gmap positive (list string))
    : gmap positive (list string) :=
  match d with
  | Some i => delete i ds
  | None => ds
  end.

(** The directory [path] and the pattern [pat] that [FindFirstFileA]
    searches for a file name: the part up to the last separator and the
    part after it or, when the first does not open, the whole name and
    ["*"]. *)
Definition search_of (env : Platform) (name path pat : string) : Prop :=
  exists t,
    strrchr name PathGetSeparatorA_native = Some t
    /\ (path = str_take (strlen name - strlen (str_next t)) name
        /\ pat = str_next t
        \/ path = name /\ pat = "*"%string
           /\ opendir_fs env (str_take (strlen name - strlen (str_next t)) name)
              = None).

(** The specification's statement on a failing [FindFirstFileA]: the
    caller's record, at [rec], is all zero when the sentinel comes back. *)
Definition zeroed_on_failure (env : Platform) (lpFileName : option string)
    (rec : positive) (st : State) : Prop :=
  forall st',
    FindFirstFileA env lpFileName (Addr rec) st = Ok INVALID_HANDLE_VALUE st' ->
    heap st' !! rec = Some (BFindDataA empty_find_data).

(** ** A small host, for running the functions *)

(** Modelled from the spec: [FilePatternMatchA] of [pattern.c], which is
    not among the sources: [*] stands for zero or more characters, [?] for
    exactly one, and the whole name has to match. *)
Fixpoint wildcard_match (pattern : string) : string -> bool :=
  match pattern with
  | EmptyString => fun name => match name with EmptyString => true | _ => false end
  | String p pattern' =>
      if Ascii.eqb p "*" then
        fix star (name : string) : bool :=
          wildcard_match pattern' name
          || match name with
             | EmptyString => false
             | String _ name' => star name'
             end
      else if Ascii.eqb p "?" then
        fun name =>
          match name with
          | EmptyString => false
          | String _ name' => wildcard_match pattern' name'
          end
      else
        fun name =>
          match name with
          | EmptyString => false
          | String c name' => Ascii.eqb p c && wildcard_match pattern' name'
          end
  end.

Definition demo_reg : struct_stat := mk_stat 0x81A4 5 100 200 300.
Definition demo_readonly : struct_stat := mk_stat 0x8124 5 100 200 300.
Definition demo_dir : struct_stat := mk_stat 0x41ED 4096 100 200 300.
Definition demo_fifo : struct_stat := mk_stat 0x11A4 0 100 200 300.

(** A directory [/d] with two regular files, a hidden file, a FIFO, a
    subdirectory and a name whose [stat] fails with [ENOENT]. *)
Definition demo_stat (path : string) : stat_result :=
  if String.eqb path "/d" then StatOk demo_dir
  else if String.eqb path "/d/." then StatOk demo_dir
  else if String.eqb path "/d/a.txt" then StatOk demo_reg
  else if String.eqb path "/d/b.log" then StatOk demo_readonly
  else if String.eqb path "/d/.env" then StatOk demo_reg
  else if String.eqb path "/d/pipe" then StatOk demo_fifo
  else if String.eqb path "/d/sub" then StatOk demo_dir
  else StatErr 2.

Definition demo_opendir (path : string) : option (list string) :=
  if String.eqb path "/d/" || String.eqb path "/d"
  then Some ["."; "gone"; "pipe"; "a.txt"; "b.log"; ".env"; "sub"]%string
  else None.

Definition demo_platform : Platform :=
  mk_platform demo_stat demo_opendir
    (fun old new => match demo_stat old with StatOk _ => None | StatErr e => Some e end)
    (fun name pattern => wildcard_match pattern name)
    (fun errno => errno)
    (fun t => (t + 11644473600) * 10000000)
    (fun w => Some (string_of_list_ascii (map (fun z => ascii_of_nat (Z.to_nat z)) w)))
    (fun s _ _ => Some (map (fun c => Z.of_nat (nat_of_ascii c)) (list_ascii_of_string s))).

(** A state whose only block is the caller's find record, at address 1,
    holding leftovers of an earlier use. *)
Definition stale_find_data : WIN32_FIND_DATAA :=
  mk_find_data 7 (mk_filetime 1 2) (mk_filetime 3 4) (mk_filetime 5 6)
    7 8 9 10 "old" "alt".

Definition demo_state : State :=
  mk_state {[ 1%positive := BFindDataA stale_find_data ]} ∅ 0 [].


(** Two creators over a world that counts the opens: the first claims the
    names that begin with [p], the second every name. *)
Definition demo_pipe_creator : HANDLE_CREATOR nat :=
  mk_creator (fun name => match name with String "p" _ => true | _ => false end)
    (fun _ _ w => (Addr 10, S w)).

Definition demo_file_creator : HANDLE_CREATOR nat :=
  mk_creator (fun _ => true) (fun _ _ w => (Addr 20, S w)).

Definition demo_registry_env : RegistryEnv nat :=
  mk_registry_env (Some demo_pipe_creator) None (Some demo_file_creator) true 0.

Definition demo_process : Process nat := mk_process false None 0 0%nat.

Definition demo_create_args : create_args := mk_create_args 0 0 NULL 0 0 NULL.

(** A handle whose table has no read operation and a write operation that
    counts its calls. *)
Definition counting_write : io_operation nat :=
  fun _ _ _ _ _ w => (TRUE, S w).

Definition demo_handle : WINPR_HANDLE nat :=
  mk_handle 1 (mk_ops None (Some counting_write)).

Definition demo_objects (a : positive) : option (WINPR_HANDLE nat) :=
  if (a =? 1)%positive then Some demo_handle else None.

(** Modelled from the spec: [winpr_Handle_GetInfo] of [handle.h], which
    rejects the null and the sentinel handle and resolves any other. *)
Definition demo_Handle_GetInfo (h : pointer) : bool :=
  match h with
  | Addr _ => true
  | _ => false
  end.

(** A state with a valid search handle at address 2, over [/d/] with the
    pattern [*], whose stream has four names left, and the same state with
    the stream at its end. *)
Definition demo_search_heap : gmap positive block :=
  <[ 2%positive := BSearch (mk_search file_search_magic (Addr 3) (Addr 4) (Some 1%positive)) ]>
    (<[ 3%positive := BString "/d/" ]>
       (<[ 4%positive := BString "*" ]>
          {[ 1%positive := BFindDataA stale_find_data ]})).

Definition demo_listing_state : State :=
  mk_state demo_search_heap
    {[ 1%positive := ["gone"; "pipe"; "a.txt"; "b.log"]%string ]} 0 [].

Definition demo_exhausted_state : State :=
  mk_state demo_search_heap {[ 1%positive := [] ]} 0 [].

(** Opening a search and closing its handle once, and twice. *)
Definition open_and_close (env : Platform) (name : string) (rec : pointer)
    : M (pointer * BOOL) :=
  h ← FindFirstFileA env (Some name) rec;
  b1 ← FindClose h;
  ret (h, b1).

Definition open_and_close_twice (env : Platform) (name : string) (rec : pointer)
    : M (pointer * BOOL * BOOL) :=
  h ← FindFirstFileA env (Some name) rec;
  b1 ← FindClose h;
  b2 ← FindClose h;
  ret (h, b1, b2).

(** A wide find record with leftovers of an earlier use, alone in the
    heap, and the wide form of a narrow string. *)
Definition stale_find_data_w : WIN32_FIND_DATAW :=
  mk_find_data_w 7 (mk_filetime 1 2) (mk_filetime 3 4) (mk_filetime 5 6)
    7 8 9 10 [111; 108; 100] [97].

Definition demo_state_w : State :=
  mk_state {[ 1%positive := BFindDataW stale_find_data_w ]} ∅ 0 [].

Definition wide_of_string (s : string) : wstring :=
  map (fun c => Z.of_nat (nat_of_ascii c)) (list_ascii_of_string s).

(** ** Tactics for running the functions *)

(** One step of symbolic execution: the monadic operations are unfolded
    down to the lookups in the heap and in the stream table. *)
Ltac run_step :=
  cbv [mbind M_bind bind ret mret M_ret fault load_search load load_string
       load_find_data store store_find_data free alloc readdir SetLastError
       get_state heap dirs last_error oom set_heap set_dirs set_last_error
       set_oom pDir lpPath lpPattern magic leading_bytes is_null fst snd negb tail
       is_invalid_handle_value orb andb alloc_fails].

Ltac run_step_in H :=
  cbv [mbind M_bind bind ret mret M_ret fault load_search load load_string
       load_find_data store store_find_data free alloc readdir SetLastError
       get_state heap dirs last_error oom set_heap set_dirs set_last_error
       set_oom pDir lpPath lpPattern magic leading_bytes is_null fst snd negb tail
       is_invalid_handle_value orb andb alloc_fails] in H.

(** The sequencing of two operations, and the fields of a search object. *)
Ltac bind_step := cbv [mbind M_bind bind ret mret M_ret]; cbv beta iota.

Ltac fields :=
  cbv [set_magic set_lpPath set_lpPattern set_pDir magic lpPath lpPattern pDir
       is_null orb].

(** ** Further functions of the file *)

(** Modelled from the spec: [INVALID_FILE_ATTRIBUTES] of [winpr/file.h],
    the value [(DWORD)-1] that stands for "no attributes". *)
Definition INVALID_FILE_ATTRIBUTES : DWORD := 0xFFFFFFFF.

(** A variable of automatic storage that holds [b]: a block of its own
    while [body] runs, gone when it returns; it does not go through the
    allocator. *)
Definition with_local {A : Type} (b : block) (body : pointer -> M A) : M A :=
  fun st =>
    let a := fresh (dom (heap st)) in
    match body (Addr a) (set_heap (<[a := b]> (heap st)) st) with
    | Ok x st' => Ok x (set_heap (delete a (heap st')) st')
    | Fault => Fault
    end.

(** [WIN32_FILE_ATTRIBUTE_DATA]. *)
Record WIN32_FILE_ATTRIBUTE_DATA := mk_attribute_data {
  fad_dwFileAttributes : DWORD;
  fad_ftCreationTime : FILETIME;
  fad_ftLastAccessTime : FILETIME;
  fad_ftLastWriteTime : FILETIME;
  fad_nFileSizeHigh : DWORD;
  fad_nFileSizeLow : DWORD
}.

Section AttributeQueries.

Variable env : Platform.

(** [GetFileAttributesA]. *)
Definition GetFileAttributesA (lpFileName : option string) : M DWORD :=
  with_local (BFindDataA empty_find_data) (fun findFileData =>
    hFind ← FindFirstFileA env lpFileName findFileData;
    if is_invalid_handle_value hFind then ret INVALID_FILE_ATTRIBUTES
    else
      FindClose hFind;;
      r ← load_find_data findFileData;
      ret (dwFileAttributes r)).

(** [GetFileAttributesExA]; [has_info] tells whether [lpFileInformation]
    is non-null, and the structure returned is what has been written
    through it. *)
Definition GetFileAttributesExA (lpFileName : option string) (has_info : bool)
    : M (BOOL * option WIN32_FILE_ATTRIBUTE_DATA) :=
  with_local (BFindDataA empty_find_data) (fun findFileData =>
    if negb has_info then ret (FALSE, None)
    else
      hFind ← FindFirstFileA env lpFileName findFileData;
      if is_invalid_handle_value hFind then ret (FALSE, None)
      else
        FindClose hFind;;
        r ← load_find_data findFileData;
        ret (TRUE,
             Some (mk_attribute_data (dwFileAttributes r) (ftCreationTime r)
                     (ftLastAccessTime r) (ftLastWriteTime r)
                     (nFileSizeHigh r) (nFileSizeLow r)))).

(** [FindNextFileW]. *)
Definition FindNextFileW (hFindFile lpFindFileData : pointer) : M BOOL :=
  fd ← alloc (BFindDataA empty_find_data);
  if is_null fd then SetLastError ERROR_NOT_ENOUGH_MEMORY;; ret FALSE
  else
    found ← FindNextFileA env hFindFile fd;
    if (found : BOOL) then
      converted ← ConvertFindDataAToW env fd lpFindFileData;
      if negb converted then
        SetLastError ERROR_NOT_ENOUGH_MEMORY;;
        free fd;;
        ret FALSE
      else free fd;; ret TRUE
    else free fd;; ret FALSE.

(** [MoveFileA]. *)
Definition MoveFileA (lpExistingFileName lpNewFileName : string) : M BOOL :=
  MoveFileExA env lpExistingFileName lpNewFileName 0.

End AttributeQueries.

(** The calls of [FindNextFileA] a caller makes to list a directory: one
    after the other until [FALSE] comes back, at most [n] of them, with
    the records reported. *)
Fixpoint FindNextFileA_all (env : Platform) (n : nat)
    (hFindFile lpFindFileData : pointer) : M (list WIN32_FIND_DATAA) :=
  match n with
  | O => ret []
  | S n' =>
      found ← FindNextFileA env hFindFile lpFindFileData;
      if (found : BOOL) then
        r ← load_find_data lpFindFileData;
        rs ← FindNextFileA_all env n' hFindFile lpFindFileData;
        ret (r :: rs)
      else ret []
  end.

(** The records of the entries of [names] that are reported, in order. *)
Definition reported_records (env : Platform) (path pattern : string)
    (names : list string) : list WIN32_FIND_DATAA :=
  flat_map
    (fun name =>
       match entry_fate_of env path pattern name with
       | Reported s => [record_of env path name s]
       | _ => []
       end)
    names.

(** ** File modes *)

(** Further mode bits of [<sys/stat.h>] (octal 4000, 2000, 1000, 400, 100,
    40, 20, 10, 4, 2 and 1). *)
Definition S_ISUID : Z := 0x800.
Definition S_ISGID : Z := 0x400.
Definition S_ISVTX : Z := 0x200.
Definition S_IRUSR : Z := 0x100.
Definition S_IXUSR : Z := 0x40.
Definition S_IRGRP : Z := 0x20.
Definition S_IWGRP : Z := 0x10.
Definition S_IXGRP : Z := 0x8.
Definition S_IROTH : Z := 0x4.
Definition S_IWOTH : Z := 0x2.
Definition S_IXOTH : Z := 0x1.

(** The files with their [st_mode], and the open descriptors with the
    file each refers to. *)
Record Files := mk_files {
  file_mode : gmap string Z;
  descriptors : gmap positive string
}.

(** What [chmod] and [fchmod] make of the [st_mode] [old] when called with
    [mode]: the twelve permission bits are those of [mode], the file type
    stays. *)
Definition chmod_bits (old mode : Z) : Z :=
  Z.lor (Z.land old (Z.lnot 0xFFF)) (Z.land mode 0xFFF).

(** [(mode_t)(~(S_IWUSR | S_IWGRP | S_IWOTH))], [mode_t] having 32 bits. *)
Definition no_write_mask : Z :=
  to_DWORD (Z.lnot (Z.lor (Z.lor S_IWUSR S_IWGRP) S_IWOTH)).

Section FileModes.

(** The answers of the system: whether a file may be opened for reading,
    whether [fstat] succeeds on it, and whether its mode may be changed. *)
Variable may_open : string -> bool.
Variable fstat_succeeds : string -> bool.
Variable may_chmod : string -> bool.

(** [open (path, O_RDONLY)]; [None] is a negative result. *)
Definition open_rdonly (path : string) (fs : Files) : option positive * Files :=
  match file_mode fs !! path with
  | Some _ =>
      if may_open path then
        let fd := fresh (dom (descriptors fs)) in
        (Some fd, mk_files (file_mode fs) (<[fd := path]> (descriptors fs)))
      else (None, fs)
  | None => (None, fs)
  end.

(** [fstat (fd, &st)]: the [st_mode] read, [None] for a non-zero result. *)
Definition fstat (fd : positive) (fs : Files) : option Z :=
  match descriptors fs !! fd with
  | Some path => if fstat_succeeds path then file_mode fs !! path else None
  | None => None
  end.

(** [chmod (path, mode)]: zero or -1. *)
Definition chmod (path : string) (mode : Z) (fs : Files) : Z * Files :=
  match file_mode fs !! path with
  | Some old =>
      if may_chmod path then
        (0, mk_files (<[path := chmod_bits old mode]> (file_mode fs)) (descriptors fs))
      else (-1, fs)
  | None => (-1, fs)
  end.

(** [fchmod (fd, mode)]. *)
Definition fchmod (fd : positive) (mode : Z) (fs : Files) : Z * Files :=
  match descriptors fs !! fd with
  | Some path => chmod path mode fs
  | None => (-1, fs)
  end.

(** [close (fd)]. *)
Definition close (fd : positive) (fs : Files) : Files :=
  mk_files (file_mode fs) (delete fd (descriptors fs)).

(** [SetFileAttributesA], built with [WINPR_HAVE_FCNTL_H]; the warning
    logged for attribute bits other than read-only and normal is not
    modelled. *)
Definition SetFileAttributesA (lpFileName : string) (dwFileAttributes : DWORD)
    (fs : Files) : BOOL * Files :=
  match open_rdonly lpFileName fs with
  | (None, fs1) => (FALSE, fs1)
  | (Some fd, fs1) =>
      match fstat fd fs1 with
      | None => (FALSE, close fd fs1)
      | Some st_mode =>
          let st_mode' :=
            if negb (Z.land dwFileAttributes FILE_ATTRIBUTE_READONLY =? 0)
            then Z.land st_mode no_write_mask
            else Z.lor st_mode S_IWUSR in
          match fchmod fd st_mode' fs1 with
          | (rc, fs2) =>
              if negb (rc =? 0) then (FALSE, close fd fs2)
              else (TRUE, close fd fs2)
          end
      end
  end.

(** The mode [UnixChangeFileMode] builds from its flags. *)
Definition UnixChangeFileMode_mode (flags : Z) : Z :=
  let fl := 0 in
  let fl := Z.lor fl (if negb (Z.land flags 0x4000 =? 0) then S_ISUID else 0) in
  let fl := Z.lor fl (if negb (Z.land flags 0x2000 =? 0) then S_ISGID else 0) in
  let fl := Z.lor fl (if negb (Z.land flags 0x1000 =? 0) then S_ISVTX else 0) in
  let fl := Z.lor fl (if negb (Z.land flags 0x0400 =? 0) then S_IRUSR else 0) in
  let fl := Z.lor fl (if negb (Z.land flags 0x0200 =? 0) then S_IWUSR else 0) in
  let fl := Z.lor fl (if negb (Z.land flags 0x0100 =? 0) then S_IXUSR else 0) in
  let fl := Z.lor fl (if negb (Z.land flags 0x0040 =? 0) then S_IRGRP else 0) in
  let fl := Z.lor fl (if negb (Z.land flags 0x0020 =? 0) then S_IWGRP else 0) in
  let fl := Z.lor fl (if negb (Z.land flags 0x0010 =? 0) then S_IXGRP else 0) in
  let fl := Z.lor fl (if negb (Z.land flags 0x0004 =? 0) then S_IROTH else 0) in
  let fl := Z.lor fl (if negb (Z.land flags 0x0002 =? 0) then S_IWOTH else 0) in
  let fl := Z.lor fl (if negb (Z.land flags 0x0001 =? 0) then S_IXOTH else 0) in
  fl.

(** [UnixChangeFileMode], outside [_WIN32]; [None] is a null [filename]. *)
Definition UnixChangeFileMode (filename : option string) (flags : Z) (fs : Files)
    : Z * Files :=
  match filename with
  | None => (-1, fs)
  | Some name => chmod name (UnixChangeFileMode_mode flags) fs
  end.

End FileModes.

(** The mode written with the octal digits [s], [u], [g] and [o], and the
    flags written with the same digits in hexadecimal. *)
Definition octal_mode (s u g o : Z) : Z := s * 512 + u * 64 + g * 8 + o.
Definition hex_flags (s u g o : Z) : Z := s * 0x1000 + u * 0x100 + g * 0x10 + o.

(** A host in which every file may be opened, read and changed. *)
Definition permissive (_ : string) : bool := true.

Definition demo_files : Files :=
  mk_files (<["/d/a.txt"%string := 0x81B6]> (<["/d/sub"%string := 0x41ED]> ∅)) ∅.

(** [hi] and [lo] are the two 32-bit halves of the 64-bit value of [v]. *)
Definition halves_of (hi lo v : Z) : Prop :=
  hi * 2 ^ 32 + lo = v mod 2 ^ 64 /\ 0 <= lo < 2 ^ 32 /\ 0 <= hi < 2 ^ 32.

Definition filetime_halves_of (ft : FILETIME) (v : Z) : Prop :=
  halves_of (dwHighDateTime ft) (dwLowDateTime ft) v.

(** A host in which the list of creators cannot be allocated. *)
Definition demo_registry_env_no_list : RegistryEnv nat :=
  mk_registry_env (Some demo_pipe_creator) None (Some demo_file_creator) false 0.

(** Listing a directory as a caller does: [FindFirstFileA], the calls of
    [FindNextFileA] until [FALSE] comes back (at most [n]), [FindClose]. *)
Definition list_directory (env : Platform) (name : string) (rec : pointer)
    (n : nat) : M (list WIN32_FIND_DATAA) :=
  h ← FindFirstFileA env (Some name) rec;
  if is_invalid_handle_value h then ret []
  else
    r ← load_find_data rec;
    rs ← FindNextFileA_all env n h rec;
    FindClose h;;
    ret (r :: rs).

(** The state [FindFirstFileA] leaves: with the sentinel, the heap and
    the streams before the call but for the record; with a handle, a new
    search object with its two strings and its stream, and the record of
    an entry that is reported. *)
Definition opened_search (env : Platform) (name : string) (rec : positive)
    (hp : gmap positive block) (ds : gmap positive (list string))
    (h : pointer) (st' : State) : Prop :=
  exists p p1 p2 d path pat es left e s,
    h = Addr p
    /\ hp !! p = None /\ hp !! p1 = None /\ hp !! p2 = None
    /\ p1 <> p /\ p2 <> p /\ p1 <> p2 /\ ds !! d = None
    /\ search_of env name path pat
    /\ opendir_fs env path = Some es /\ e ∈ es
    /\ entry_fate_of env path pat e = Reported s
    /\ heap st'
       = <[rec := BFindDataA (record_of env path e s)]>
           (<[p := BSearch (mk_search file_search_magic (Addr p1) (Addr p2) (Some d))]>
              (<[p2 := BString pat]> (<[p1 := BString path]> hp)))
    /\ dirs st' = <[d := left]> ds.

(** The listing state with a wide find record of the caller at address 5. *)
Definition demo_listing_state_w : State :=
  mk_state (<[ 5%positive := BFindDataW stale_find_data_w ]> demo_search_heap)
    {[ 1%positive := ["gone"; "pipe"; "a.txt"; "b.log"]%string ]} 0 [].

(** ** Wide entry points that convert the name and call the narrow one *)

(** [GetFileAttributesW]; the converted name is passed by value. *)
Definition GetFileAttributesW (env : Platform) (lpFileName : option wstring)
    : M DWORD :=
  match lpFileName with
  | None => ret 0
  | Some wname =>
      match ConvertWCharToUtf8Alloc env wname with
      | None => SetLastError ERROR_NOT_ENOUGH_MEMORY;; ret 0
      | Some lpCFileName => GetFileAttributesA env (Some lpCFileName)
      end
  end.

(** [CreateFileW]. *)
Definition CreateFileW {World : Type} (renv : RegistryEnv World) (env : Platform)
    (lpFileName : option wstring) (args : create_args) (p : Process World)
    : option (pointer * Process World) :=
  match lpFileName with
  | None => Some (NULL, p)
  | Some wname =>
      match ConvertWCharToUtf8Alloc env wname with
      | None => Some (NULL, set_process_last_error ERROR_NOT_ENOUGH_MEMORY p)
      | Some lpFileNameA => CreateFileA renv (Some lpFileNameA) args p
      end
  end.

(** ** The formats of the OSS audio input device *)

(** The fields of [AUDIO_FORMAT]. *)
Record AUDIO_FORMAT := mk_audio_format {
  wFormatTag : Z;
  nChannels : Z;
  nSamplesPerSec : Z;
  nAvgBytesPerSec : Z;
  nBlockAlign : Z;
  wBitsPerSample : Z;
  cbSize : Z
}.

Section AudinOss.

(** [WAVE_FORMAT_PCM] and the sample formats [AFMT_S8] and [AFMT_S16_LE]
    of [<sys/soundcard.h>] are not among the sources; they are parameters
    here. *)
Variables WAVE_FORMAT_PCM AFMT_S8 AFMT_S16_LE : Z.

(** [audin_oss_get_format]. *)
Definition audin_oss_get_format (format : AUDIO_FORMAT) : Z :=
  if wFormatTag format =? WAVE_FORMAT_PCM then
    if wBitsPerSample format =? 8 then AFMT_S8
    else if wBitsPerSample format =? 16 then AFMT_S16_LE
    else 0
  else 0.

(** [audin_oss_format_supported]; [device] tells whether the device
    pointer is non-null, and a null format is [None]. *)
Definition audin_oss_format_supported (device : bool) (format : option AUDIO_FORMAT)
    : BOOL :=
  match format with
  | None => FALSE
  | Some f =>
      if negb device then FALSE
      else if wFormatTag f =? WAVE_FORMAT_PCM then
        if negb (cbSize f =? 0) || (48000 <? nSamplesPerSec f)
           || (negb (wBitsPerSample f =? 8) && negb (wBitsPerSample f =? 16))
           || (negb (nChannels f =? 1) && negb (nChannels f =? 2))
        then FALSE
        else TRUE
      else FALSE
  end.

End AudinOss.

(** The size of the capture buffer [audin_oss_thread_func] computes, in
    the 64-bit arithmetic of [1ull] and with a [size_t] of 64 bits. *)
Definition audin_oss_buffer_size (FramesPerPacket : Z) (format : AUDIO_FORMAT) : Z :=
  to_UINT64 (1 * FramesPerPacket * nChannels format * (wBitsPerSample format / 8)).

(** [ConvertWCharToUtf8Alloc] with its result in the heap: null when the
    conversion or the allocation fails. *)
Definition ConvertWCharToUtf8Alloc_block (env : Platform) (wstr : wstring)
    : M pointer :=
  match ConvertWCharToUtf8Alloc env wstr with
  | None => ret NULL
  | Some s => alloc (BString s)
  end.

(** [MoveFileExW]. *)
Definition MoveFileExW (env : Platform) (lpExistingFileName lpNewFileName : option wstring)
    (dwFlags : DWORD) : M BOOL :=
  match lpExistingFileName, lpNewFileName with
  | Some wexisting, Some wnew =>
      lpCExistingFileName ← ConvertWCharToUtf8Alloc_block env wexisting;
      lpCNewFileName ← ConvertWCharToUtf8Alloc_block env wnew;
      if is_null lpCExistingFileName || is_null lpCNewFileName then
        SetLastError ERROR_NOT_ENOUGH_MEMORY;;
        free lpCNewFileName;;
        free lpCExistingFileName;;
        ret FALSE
      else
        existing ← load_string lpCExistingFileName;
        new ← load_string lpCNewFileName;
        r ← MoveFileExA env existing new dwFlags;
        free lpCNewFileName;;
        free lpCExistingFileName;;
        ret r
  | _, _ => ret FALSE
  end.

(** * Properties *)

(** ** Strings *)

Lemma strrchr_None (s : string) (c : ascii) :
  strrchr s c = None <-> has_char c s = false.
Proof.
  induction s as [|x s IH]; simpl; [tauto|].
  destruct (strrchr s c) eqn:E.
  - split; [discriminate|]. intros H. apply orb_false_iff in H as [_ H].
    apply IH in H. discriminate.
  - assert (Hs : has_char c s = false) by (apply IH; reflexivity).
    rewrite Hs, orb_false_r. destruct (Ascii.eqb x c); split; congruence.
Qed.

Lemma has_char_app (c : ascii) (pre rest : string) :
  has_char c (pre ++ String c rest) = true.
Proof.
  induction pre as [|z pre IH]; simpl.
  - rewrite Ascii.eqb_refl. reflexivity.
  - rewrite IH. apply orb_true_r.
Qed.

Lemma strrchr_Some (s : string) (c : ascii) (t : string) :
  strrchr s c = Some t <->
  exists pre rest, s = (pre ++ String c rest)%string
                   /\ t = String c rest /\ has_char c rest = false.
Proof.
  revert t. induction s as [|x s IH]; intros t; simpl.
  - split; [discriminate|]. intros (pre & rest & H & _). destruct pre; discriminate.
  - destruct (strrchr s c) as [u|] eqn:E.
    + split.
      * intros [= <-].
        destruct (proj1 (IH u) eq_refl) as (pre & rest & -> & -> & Hr).
        exists (String x pre), rest. auto.
      * intros (pre' & rest' & H & -> & Hr'). f_equal.
        destruct pre' as [|y pre']; simpl in H; inversion H; subst.
        -- apply strrchr_None in Hr'. congruence.
        -- assert (Hu : Some u = Some (String c rest')).
           { apply IH. eauto. }
           congruence.
    + apply strrchr_None in E.
      assert (Hno : forall pre rest, s <> (pre ++ String c rest)%string).
      { intros pre rest ->. rewrite has_char_app in E. discriminate. }
      destruct (Ascii.eqb x c) eqn:Ex.
      * apply Ascii.eqb_eq in Ex as ->. split.
        -- intros [= <-]. exists EmptyString, s. auto.
        -- intros (pre & rest & H & -> & Hr). f_equal.
           destruct pre as [|y pre]; simpl in H; inversion H; subst.
           ++ reflexivity.
           ++ exfalso. eapply Hno; eauto.
      * split; [discriminate|].
        intros (pre & rest & H & -> & Hr).
        destruct pre as [|y pre]; simpl in H; inversion H; subst.
        -- rewrite Ascii.eqb_refl in Ex. discriminate.
        -- exfalso. eapply Hno; eauto.
Qed.

(** ** Attribute translation *)

Lemma hidden_name_spec (name : string) :
  hidden_name name = true <->
  exists c rest, name = String "." (String c rest) /\ c <> "."%char.
Proof.
  unfold hidden_name, char_at, strlen.
  destruct name as [|a [|b rest]]; simpl.
  - split; [discriminate|]. intros (c & r & H & _). discriminate.
  - split; [discriminate|]. intros (c & r & H & _). discriminate.
  - destruct (Ascii.eqb a ".") eqn:Ea; simpl.
    + apply Ascii.eqb_eq in Ea as ->.
      destruct (Ascii.eqb b ".") eqn:Eb; simpl.
      * apply Ascii.eqb_eq in Eb as ->. split; [discriminate|].
        intros (c & r & H & Hc). inversion H; subst. congruence.
      * apply Ascii.eqb_neq in Eb. split; [|reflexivity].
        intros _. exists b, rest. auto.
    + apply Ascii.eqb_neq in Ea. split; [discriminate|].
      intros (c & r & H & _). inversion H; subst. congruence.
Qed.

Lemma attributes_value (path : string) (fileStat : struct_stat) :
  FindDataFromStat_attributes path fileStat =
  Z.lor
    (Z.lor (if S_ISDIR (st_mode fileStat)
            then FILE_ATTRIBUTE_DIRECTORY else FILE_ATTRIBUTE_ARCHIVE)
           (if match strrchr path "/" with
               | Some t => hidden_name (str_next t)
               | None => false
               end
            then FILE_ATTRIBUTE_HIDDEN else 0))
    (if Z.land (st_mode fileStat) S_IWUSR =? 0 then FILE_ATTRIBUTE_READONLY else 0).
Proof.
  unfold FindDataFromStat_attributes.
  destruct (S_ISDIR (st_mode fileStat)); simpl;
    destruct (strrchr path "/") as [t|]; try destruct (hidden_name (str_next t));
    destruct (Z.land (st_mode fileStat) S_IWUSR =? 0); reflexivity.
Qed.

(** C1, as the code has it: the mask written by [FindDataFromStat] has the
    directory bit exactly for a directory mode, the read-only bit exactly
    when the owner-write bit is clear, the hidden bit exactly when the
    path has a separator and the name after the last one has at least two
    characters, the first a dot and the second not, and the archive bit
    exactly when the mode is not a directory. *)
Theorem FindDataFromStat_attribute_bits
    (f : Z -> Z) (path : string) (fileStat : struct_stat) (r : WIN32_FIND_DATAA) :
  let a := dwFileAttributes (snd (FindDataFromStat f path fileStat r)) in
  has_attr a FILE_ATTRIBUTE_DIRECTORY = S_ISDIR (st_mode fileStat)
  /\ has_attr a FILE_ATTRIBUTE_READONLY = (Z.land (st_mode fileStat) S_IWUSR =? 0)
  /\ (has_attr a FILE_ATTRIBUTE_HIDDEN = true <->
      exists dir c rest,
        path = (dir ++ "/" ++ String "." (String c rest))%string
        /\ c <> "."%char /\ has_char "/" (String c rest) = false)
  /\ has_attr a FILE_ATTRIBUTE_ARCHIVE = negb (S_ISDIR (st_mode fileStat)).
Proof.
  simpl. rewrite attributes_value.
  set (d := S_ISDIR (st_mode fileStat)).
  set (w := Z.land (st_mode fileStat) S_IWUSR =? 0).
  set (h := match strrchr path "/" with
            | Some t => hidden_name (str_next t)
            | None => false
            end).
  assert (Hh : h = true <->
               exists dir c rest,
                 path = (dir ++ "/" ++ String "." (String c rest))%string
                 /\ c <> "."%char /\ has_char "/" (String c rest) = false).
  { subst h. destruct (strrchr path "/") as [t|] eqn:E.
    - apply strrchr_Some in E as (pre & rest & -> & -> & Hr). simpl.
      rewrite hidden_name_spec. split.
      + intros (c & rest' & -> & Hc). exists pre, c, rest'.
        repeat split; auto.
      + intros (dir & c & rest' & H & Hc & Hs).
        assert (Hs' : has_char "/" (String "." (String c rest')) = false)
          by (simpl in *; exact Hs).
        assert (E1 : strrchr (pre ++ String "/" rest) "/" = Some (String "/" rest))
          by (apply strrchr_Some; eauto).
        assert (E2 : strrchr (pre ++ String "/" rest) "/"
                     = Some (String "/" (String "." (String c rest'))))
          by (apply strrchr_Some; exists dir; eauto).
        rewrite E1 in E2. inversion E2. eauto.
    - apply strrchr_None in E. split; [discriminate|].
      intros (dir & c & rest & -> & _).
      pose proof (has_char_app "/" dir (String "." (String c rest))) as Hc.
      change (has_char "/" (dir ++ String "/" (String "." (String c rest))) = false) in E.
      congruence. }
  repeat split.
  - destruct d, h, w; reflexivity.
  - destruct d, h, w; reflexivity.
  - intros H. apply Hh. destruct d, h, w; try reflexivity; discriminate.
  - intros H. apply Hh in H. rewrite H. destruct d, w; reflexivity.
  - destruct d, h, w; reflexivity.
Qed.

(** C1, as the specification words it, fails: a regular, writable file
    named [.env] gets the archive bit together with the hidden bit. *)
Lemma spec_attribute_rule_fails_on_hidden_file :
  ~ spec_attribute_rule "/d/.env" demo_reg
      (FindDataFromStat_attributes "/d/.env" demo_reg).
Proof.
  intros (_ & _ & _ & [H _]).
  assert (E : FindDataFromStat_attributes "/d/.env" demo_reg = 34) by reflexivity.
  rewrite E in H. destruct (H eq_refl) as (_ & _ & Hh). discriminate.
Qed.

(** ** Operation-table dispatch *)

(** [ReadFile] with neither a transferred-count pointer nor an overlapped
    pointer returns [FALSE] whatever the table of the handle holds, the
    world being left as it was. *)
Lemma ReadFile_rejects_null_outputs {World : Type}
    (objects : positive -> option (WINPR_HANDLE World))
    (getinfo : pointer -> bool) (hFile lpBuffer : pointer) (n : DWORD) (w : World) :
  ReadFile objects getinfo hFile lpBuffer n NULL NULL w = Some (FALSE, w).
Proof.
  unfold ReadFile. destruct (is_invalid_handle_value hFile); reflexivity.
Qed.

(** C2 at the failing input: [WriteFile] has no such guard; with a null
    transferred-count pointer and a null overlapped pointer it calls the
    write operation of the handle and returns what the operation returns. *)
Theorem WriteFile_forwards_null_outputs :
  WriteFile demo_objects demo_Handle_GetInfo (Addr 1) NULL 0 NULL NULL 0%nat
  = Some (TRUE, 1%nat).
Proof. reflexivity. Qed.

(** ** The creator registry *)

Lemma CreateFileA_loop_first_claiming {World : Type}
    (l done : list (option (HANDLE_CREATOR World))) (name : string)
    (args : create_args) (w : World) :
  CreateFileA_loop (S (length l)) (length done) (done ++ l) name args w
  = match first_claiming l name with
    | Some c => creator_CreateFileA c name args w
    | None => (INVALID_HANDLE_VALUE, w)
    end.
Proof.
  revert done. induction l as [|x l IH]; intros done.
  - simpl. unfold ArrayList_GetItem.
    rewrite lookup_ge_None_2 by (rewrite length_app; simpl; lia). reflexivity.
  - cbn [length CreateFileA_loop first_claiming]. unfold ArrayList_GetItem at 1.
    rewrite lookup_app_r by lia. replace (length done - length done)%nat with 0%nat by lia.
    cbn [lookup list_lookup].
    specialize (IH (done ++ [x])). rewrite length_app in IH. cbn [length] in IH.
    rewrite <- app_assoc in IH. cbn [app] in IH.
    replace (length done + 1)%nat with (S (length done)) in IH by lia.
    destruct x as [c|]; [destruct (IsHandled c name)|]; auto.
Qed.

Lemma first_claiming_decompose {World : Type}
    (pre post : list (option (HANDLE_CREATOR World))) (c : HANDLE_CREATOR World)
    (name : string) :
  (forall c', Some c' ∈ pre -> IsHandled c' name = false) ->
  IsHandled c name = true ->
  first_claiming (pre ++ Some c :: post) name = Some c.
Proof.
  intros Hpre Hc. induction pre as [|x pre IH]; simpl.
  - rewrite Hc. reflexivity.
  - assert (IH' : first_claiming (pre ++ Some c :: post) name = Some c).
    { apply IH. intros c' Hin. apply Hpre. right. exact Hin. }
    destruct x as [c0|]; [|exact IH'].
    rewrite (Hpre c0) by left. exact IH'.
Qed.

Lemma first_claiming_none {World : Type}
    (l : list (option (HANDLE_CREATOR World))) (name : string) :
  (forall c, Some c ∈ l -> IsHandled c name = false) ->
  first_claiming l name = None.
Proof.
  intros H. induction l as [|x l IH]; simpl; [reflexivity|].
  assert (IH' : first_claiming l name = None).
  { apply IH. intros c Hin. apply H. right. exact Hin. }
  destruct x as [c0|]; [|exact IH'].
  rewrite (H c0) by left. exact IH'.
Qed.

(** C6: with the registry holding the list [l] ([registered_creators], in
    registration order, at the first call), [CreateFileA] on a path
    returns what the open function of the first creator of [l] whose
    predicate accepts the path returns, and the sentinel when no creator
    accepts it; the registry holds [l] afterwards, so a repeated call
    resolves to the same creator. *)
Theorem CreateFileA_first_match {World : Type} (renv : RegistryEnv World)
    (name : string) (args : create_args) (p : Process World)
    (l : list (option (HANDLE_CREATOR World))) :
  pthread_once_rc World renv = 0 ->
  registry_holds renv p l ->
  exists h w',
    CreateFileA renv (Some name) args p
    = Some (h, mk_process true (Some l) (process_last_error p) w')
    /\ registry_holds renv (mk_process true (Some l) (process_last_error p) w') l
    /\ (forall pre c post,
          l = pre ++ Some c :: post ->
          (forall c', Some c' ∈ pre -> IsHandled c' name = false) ->
          IsHandled c name = true ->
          (h, w') = creator_CreateFileA c name args (world p))
    /\ ((forall c, Some c ∈ l -> IsHandled c name = false) ->
        h = INVALID_HANDLE_VALUE /\ w' = world p).
Proof.
  intros Hrc Hreg.
  pose proof (CreateFileA_loop_first_claiming l [] name args (world p)) as Hloop.
  cbn [length app] in Hloop.
  set (res := match first_claiming l name with
              | Some c => creator_CreateFileA c name args (world p)
              | None => (INVALID_HANDLE_VALUE, world p)
              end) in *.
  exists (fst res), (snd res).
  assert (Hrun : CreateFileA renv (Some name) args p
                 = Some (fst res, mk_process true (Some l) (process_last_error p) (snd res))).
  { unfold CreateFileA, pthread_once_HandleCreatorsInit. rewrite Hrc. cbn [Z.eqb].
    destruct p as [init hc e w]. cbn [world] in *.
    destruct Hreg as [[Hi Hl]|(Hi & Hl & Hnew & ->)]; cbn in Hi, Hl; subst.
    - cbn [HandleCreatorsInitialized HandleCreators negb Z.eqb world
             process_last_error set_world].
      unfold ArrayList_Count. rewrite Hloop. reflexivity.
    - cbn [HandleCreatorsInitialized HandleCreators negb Z.eqb world
             process_last_error set_world].
      unfold HandleCreatorsInit. rewrite Hnew.
      cbn [HandleCreatorsInitialized HandleCreators negb Z.eqb world
             process_last_error set_world].
      assert (El : ArrayList_Append World
                     match GetCommHandleCreator World renv with
                     | Some _ =>
                         ArrayList_Append World
                           (ArrayList_Append World [] (GetNamedPipeClientHandleCreator World renv))
                           (GetCommHandleCreator World renv)
                     | None =>
                         ArrayList_Append World [] (GetNamedPipeClientHandleCreator World renv)
                     end (GetFileHandleCreator World renv)
                   = registered_creators renv).
      { unfold registered_creators, ArrayList_Append.
        destruct (GetCommHandleCreator World renv); reflexivity. }
      rewrite El. unfold ArrayList_Count. rewrite Hloop. reflexivity. }
  split; [exact Hrun|]. split; [left; auto|]. split.
  - intros pre c post -> Hpre Hc. subst res.
    rewrite (first_claiming_decompose pre post c name Hpre Hc).
    destruct (creator_CreateFileA c name args (world p)); reflexivity.
  - intros Hnone. subst res. rewrite (first_claiming_none l name Hnone). auto.
Qed.

Lemma CreateFileA_first_match_demo :
  exists h w',
    CreateFileA demo_registry_env (Some "pipe"%string) demo_create_args demo_process
    = Some (h, mk_process true (Some (registered_creators demo_registry_env)) 0 w')
    /\ registry_holds demo_registry_env
         (mk_process true (Some (registered_creators demo_registry_env)) 0 w')
         (registered_creators demo_registry_env)
    /\ (forall pre c post,
          registered_creators demo_registry_env = pre ++ Some c :: post ->
          (forall c', Some c' ∈ pre -> IsHandled c' "pipe"%string = false) ->
          IsHandled c "pipe"%string = true ->
          (h, w') = creator_CreateFileA c "pipe"%string demo_create_args 0%nat)
    /\ ((forall c, Some c ∈ registered_creators demo_registry_env ->
                   IsHandled c "pipe"%string = false) ->
        h = INVALID_HANDLE_VALUE /\ w' = 0%nat).
Proof.
  apply (CreateFileA_first_match demo_registry_env "pipe" demo_create_args
           demo_process (registered_creators demo_registry_env)).
  - reflexivity.
  - right. repeat split; reflexivity.
Defined.

(** ** Moving a file *)

(** C7: without the replace flag an existing destination fails the move
    with [ERROR_ALREADY_EXISTS]; with the flag a destination that exists
    and has the owner-write bit clear fails it with [ERROR_ACCESS_DENIED];
    in every other case the native rename is run and the move succeeds
    exactly when the rename does, the mapped native error being recorded
    when it does not. *)
Theorem MoveFileExA_rules (env : Platform) (existing new : string)
    (flags : DWORD) (st : State) :
  (Z.land flags MOVEFILE_REPLACE_EXISTING = 0 ->
   destination_exists env new ->
   MoveFileExA env existing new flags st
   = Ok FALSE (set_last_error ERROR_ALREADY_EXISTS st))
  /\ (Z.land flags MOVEFILE_REPLACE_EXISTING <> 0 ->
      forall s, stat env new = StatOk s ->
      Z.land (st_mode s) S_IWUSR = 0 ->
      MoveFileExA env existing new flags st
      = Ok FALSE (set_last_error ERROR_ACCESS_DENIED st))
  /\ ((Z.land flags MOVEFILE_REPLACE_EXISTING = 0 /\ ~ destination_exists env new
       \/ Z.land flags MOVEFILE_REPLACE_EXISTING <> 0
          /\ forall s, stat env new = StatOk s -> Z.land (st_mode s) S_IWUSR <> 0) ->
      MoveFileExA env existing new flags st
      = match rename_fs env existing new with
        | None => Ok TRUE st
        | Some errno => Ok FALSE (set_last_error (map_posix_err env errno) st)
        end).
Proof.
  unfold MoveFileExA, MoveFileExA_rename, destination_exists.
  repeat split.
  - intros Hf [s Hs]. rewrite Hf, Hs. reflexivity.
  - intros Hf s Hs Hw. apply Z.eqb_neq in Hf. rewrite Hf, Hs, Hw. reflexivity.
  - intros [[Hf Hne]|[Hf Hw]].
    + rewrite Hf. cbn [Z.eqb].
      destruct (stat env new) as [s|e] eqn:Hs; [exfalso; eauto|].
      destruct (rename_fs env existing new); reflexivity.
    + apply Z.eqb_neq in Hf. rewrite Hf.
      destruct (stat env new) as [s|e] eqn:Hs.
      * specialize (Hw s eq_refl). apply Z.eqb_neq in Hw. rewrite Hw.
        destruct (rename_fs env existing new); reflexivity.
      * destruct (rename_fs env existing new); reflexivity.
Qed.

(** ** Running the search functions *)

Lemma str_take_strlen (n : nat) (s : string) :
  str_take (strlen (str_take n s)) s = str_take n s.
Proof.
  revert s. induction n as [|n IH]; intros [|c s]; simpl; try reflexivity.
  unfold strlen in IH. rewrite IH. reflexivity.
Qed.

Lemma fresh_heap_None (hp : gmap positive block) :
  hp !! fresh (dom hp) = None.
Proof. apply not_elem_of_dom, is_fresh. Qed.

Lemma set_cFileName_twice (r : WIN32_FIND_DATAA) (n m : string) :
  set_cFileName (set_cFileName r n) m = set_cFileName r m.
Proof. reflexivity. Qed.

Lemma set_cFileName_same (r : WIN32_FIND_DATAA) :
  set_cFileName r (cFileName r) = r.
Proof. destruct r; reflexivity. Qed.

Section LoopStep.
Variable env : Platform.
Variables (h rec p1 p2 d : positive) (path pattern : string).

Lemma FindNextFileA_loop_end (fuel : nat) (hp : gmap positive block)
    (ds : gmap positive (list string)) (err : DWORD) (o : list bool) (e1 e2 : pointer) :
  hp !! h = Some (BSearch (mk_search file_search_magic e1 e2 (Some d))) ->
  ds !! d = Some [] ->
  FindNextFileA_loop env (S fuel) (Addr h) (Addr rec) (mk_state hp ds err o)
  = Ok FALSE (mk_state hp ds ERROR_NO_MORE_FILES o).
Proof.
  intros Hh Hd. cbn [FindNextFileA_loop]. run_step. rewrite Hh. run_step.
  rewrite Hd. reflexivity.
Qed.

(** One iteration of the loop on a stream that has a name left. *)
Lemma FindNextFileA_loop_step (fuel : nat) (hp : gmap positive block)
    (ds : gmap positive (list string)) (err : DWORD) (o : list bool)
    (r : WIN32_FIND_DATAA) (c : ascii) (name : string) (es : list string) :
  last_char path = Some c ->
  hp !! h = Some (BSearch (mk_search file_search_magic (Addr p1) (Addr p2) (Some d))) ->
  hp !! p1 = Some (BString path) ->
  hp !! p2 = Some (BString pattern) ->
  hp !! rec = Some (BFindDataA r) ->
  ds !! d = Some (name :: es) ->
  FindNextFileA_loop env (S fuel) (Addr h) (Addr rec) (mk_state hp ds err o)
  = let hp1 := <[rec := BFindDataA (set_cFileName r (str_take MAX_PATH name))]> hp in
    let ds1 := <[d := es]> ds in
    match entry_fate_of env path pattern name with
    | NotMatched =>
        FindNextFileA_loop env fuel (Addr h) (Addr rec) (mk_state hp ds1 err o)
    | fate =>
        if alloc_fails o then
          Ok FALSE (mk_state hp1 ds1 ERROR_NOT_ENOUGH_MEMORY (tail o))
        else
          match fate with
          | StatFailed errno =>
              FindNextFileA_loop env fuel (Addr h) (Addr rec)
                (mk_state hp1 ds1 (map_posix_err env errno) (tail o))
          | Reported s =>
              Ok TRUE
                (mk_state
                   (<[rec := BFindDataA
                               (snd (FindDataFromStat (STAT_TIME_TO_FILETIME env)
                                       (entry_fullpath path name) s
                                       (set_cFileName r (str_take MAX_PATH name))))]> hp)
                   ds1 err (tail o))
          | _ =>
              FindNextFileA_loop env fuel (Addr h) (Addr rec)
                (mk_state hp1 ds1 err (tail o))
          end
    end.
Proof.
  intros Hc Hh H1 H2 Hr Hd.
  assert (Hrh : rec <> h) by congruence.
  assert (Hr1 : rec <> p1) by congruence.
  assert (Hr2 : rec <> p2) by congruence.
  cbn [FindNextFileA_loop]. run_step. rewrite Hh. run_step. rewrite Hd. run_step.
  rewrite H2. run_step.
  unfold entry_fate_of, entry_fullpath. rewrite Hc.
  destruct (FilePatternMatchA env name pattern); [|reflexivity].
  run_step. rewrite Hr. run_step. rewrite Hr. run_step.
  rewrite (lookup_insert_ne _ _ _ _ Hr1), H1. run_step.
  set (hp1 := <[rec := BFindDataA (set_cFileName r (str_take MAX_PATH name))]> hp).
  assert (Hfail : forall o', o = true :: o' ->
            (if alloc_fails o then @Ok BOOL FALSE (mk_state hp1 (<[d := es]> ds)
                                      ERROR_NOT_ENOUGH_MEMORY (tail o))
             else Fault)
            = Ok FALSE (mk_state hp1 (<[d := es]> ds) ERROR_NOT_ENOUGH_MEMORY o')).
  { intros o' ->. reflexivity. }
  destruct o as [|[|] o'].
  2:{ destruct (stat env (fullpath_of path c (str_take MAX_PATH name))) as [s|errno];
        [destruct (S_ISFIFO (st_mode s))|]; reflexivity. }
  all: set (a := fresh (dom hp1)).
  all: assert (Ha : hp1 !! a = None) by apply fresh_heap_None.
  all: assert (Har : a <> rec)
    by (intros E; rewrite E in Ha; subst hp1; rewrite lookup_insert_eq in Ha;
        discriminate).
  all: rewrite Hc; run_step; rewrite lookup_insert_eq; run_step.
  all: rewrite str_take_strlen.
  all: assert (Hdel : forall b1 b2, delete a (<[a := b1]> (<[a := b2]> hp1)) = hp1)
    by (intros b1 b2; rewrite delete_insert_eq, delete_insert_eq;
        apply delete_id, Ha).
  all: destruct (stat env (fullpath_of path c (str_take MAX_PATH name))) as [s|errno];
    [destruct (S_ISFIFO (st_mode s))|].
  all: run_step; rewrite ?lookup_insert_eq; run_step; rewrite ?Hdel; try reflexivity.
  all: rewrite !(lookup_insert_ne _ a rec) by exact Har.
  all: subst hp1; rewrite lookup_insert_eq; run_step.
  all: rewrite !(lookup_insert_ne _ a rec) by exact Har.
  all: rewrite lookup_insert_eq; run_step.
  all: rewrite lookup_insert_ne by congruence; rewrite lookup_insert_eq; run_step.
  all: f_equal; f_equal.
  all: rewrite lookup_insert_ne in Ha by congruence.
  all: rewrite insert_insert_eq, (insert_insert_ne _ rec a) by congruence.
  all: rewrite delete_insert_eq, insert_insert_eq.
  all: apply delete_id; rewrite lookup_insert_ne by congruence; exact Ha.
Qed.

(** The loop passes over a prefix of entries none of which is reported,
    while no allocation fails. *)
Lemma FindNextFileA_loop_skip (c : ascii) (pre rest : list string) :
  last_char path = Some c ->
  Forall (fun name => skipped (entry_fate_of env path pattern name)) pre ->
  forall (fuel : nat) (hp : gmap positive block) (ds : gmap positive (list string))
         (err : DWORD) (r : WIN32_FIND_DATAA),
  hp !! h = Some (BSearch (mk_search file_search_magic (Addr p1) (Addr p2) (Some d))) ->
  hp !! p1 = Some (BString path) ->
  hp !! p2 = Some (BString pattern) ->
  hp !! rec = Some (BFindDataA r) ->
  ds !! d = Some (pre ++ rest) ->
  FindNextFileA_loop env (length pre + fuel) (Addr h) (Addr rec) (mk_state hp ds err [])
  = FindNextFileA_loop env fuel (Addr h) (Addr rec)
      (mk_state
         (<[rec := BFindDataA
                     (set_cFileName r (name_after env path pattern pre (cFileName r)))]> hp)
         (<[d := rest]> ds)
         (error_after env path pattern pre err) []).
Proof.
  intros Hc Hpre. induction Hpre as [|name pre Hn Hpre IH];
    intros fuel hp ds err r Hh H1 H2 Hr Hd.
  - cbn [length Nat.add name_after error_after fold_left].
    rewrite set_cFileName_same, (insert_id hp), (insert_id ds) by assumption.
    reflexivity.
  - assert (Hrh : rec <> h) by congruence.
    assert (Hr1 : rec <> p1) by congruence.
    assert (Hr2 : rec <> p2) by congruence.
    cbn [length Nat.add].
    rewrite (FindNextFileA_loop_step _ hp ds err [] r c name (pre ++ rest)
               Hc Hh H1 H2 Hr Hd).
    cbn zeta. unfold name_after, error_after. cbn [fold_left alloc_fails tail].
    destruct (entry_fate_of env path pattern name) as [|errno| |s] eqn:Hf;
      [| | |destruct Hn].
    + rewrite (IH fuel hp (<[d := pre ++ rest]> ds) err r Hh H1 H2 Hr
                 (lookup_insert_eq _ _ _)).
      rewrite insert_insert_eq. reflexivity.
    + rewrite (IH fuel _ (<[d := pre ++ rest]> ds) (map_posix_err env errno)
                 (set_cFileName r (str_take MAX_PATH name)));
        rewrite ?lookup_insert_eq, ?lookup_insert_ne by congruence; auto.
      rewrite !insert_insert_eq. reflexivity.
    + rewrite (IH fuel _ (<[d := pre ++ rest]> ds) err
                 (set_cFileName r (str_take MAX_PATH name)));
        rewrite ?lookup_insert_eq, ?lookup_insert_ne by congruence; auto.
      rewrite !insert_insert_eq. reflexivity.
Qed.
End LoopStep.

Lemma last_char_nonempty (path : string) :
  path <> EmptyString -> exists c, last_char path = Some c.
Proof.
  intros Hne. unfold last_char, char_at, strlen.
  destruct path as [|a path]; [congruence|]. cbn [String.length].
  clear Hne. revert a. induction path as [|b path IH]; intros a.
  - exists a. reflexivity.
  - destruct (IH b) as [c Hc]. exists c. exact Hc.
Qed.

Lemma magic_matches :
  (strncmp file_search_magic file_search_magic sizeof_file_search_magic =? 0) = true.
Proof. reflexivity. Qed.

(** [FindNextFileA] on a live search object: the record is zeroed, then
    the loop runs with fuel for every name left and the end of the stream. *)
Lemma FindNextFileA_enter (env : Platform) (h rec d : positive) (e1 e2 : pointer)
    (hp : gmap positive block) (ds : gmap positive (list string)) (err : DWORD)
    (o : list bool) (r : WIN32_FIND_DATAA) (es : list string) :
  hp !! h = Some (BSearch (mk_search file_search_magic e1 e2 (Some d))) ->
  hp !! rec = Some (BFindDataA r) ->
  ds !! d = Some es ->
  FindNextFileA env (Addr h) (Addr rec) (mk_state hp ds err o)
  = FindNextFileA_loop env (S (length es)) (Addr h) (Addr rec)
      (mk_state (<[rec := BFindDataA empty_find_data]> hp) ds err o).
Proof.
  intros Hh Hr Hd. assert (Hne : rec <> h) by congruence.
  unfold FindNextFileA, is_valid_file_search_handle. run_step.
  rewrite Hr. run_step. rewrite Hr. run_step.
  rewrite (lookup_insert_ne _ _ _ _ Hne), Hh. run_step.
  rewrite magic_matches. run_step.
  rewrite (lookup_insert_ne _ _ _ _ Hne), Hh.
  unfold entries_left. run_step. rewrite Hd. reflexivity.
Qed.

Lemma entry_fate_reported (env : Platform) (path pattern name : string)
    (s : struct_stat) :
  entry_fate_of env path pattern name = Reported s ->
  FilePatternMatchA env name pattern = true
  /\ stat env (entry_fullpath path name) = StatOk s
  /\ S_ISFIFO (st_mode s) = false.
Proof.
  unfold entry_fate_of.
  destruct (FilePatternMatchA env name pattern); [|discriminate].
  destruct (stat env (entry_fullpath path name)) as [s'|e]; [|discriminate].
  destruct (S_ISFIFO (st_mode s')) eqn:Hf; [discriminate|].
  intros [= <-]. auto.
Qed.

(** ** Enumeration *)

(** C5: on a valid search handle whose stream is exhausted,
    [FindNextFileA] returns [FALSE] with [ERROR_NO_MORE_FILES] and leaves a
    state that any number of further calls return [FALSE] in and leave
    exactly as it is: nothing is allocated or released, the stream stays
    at its end, the caller's record is zero and the last error stays
    [ERROR_NO_MORE_FILES]. *)
Theorem FindNextFileA_exhausted_idempotent (env : Platform) (st : State)
    (h rec d : positive) (path pattern : string) :
  search_object st h path pattern d [] ->
  find_record st rec ->
  let st' :=
    mk_state (<[rec := BFindDataA empty_find_data]> (heap st)) (dirs st)
      ERROR_NO_MORE_FILES (oom st) in
  FindNextFileA env (Addr h) (Addr rec) st = Ok FALSE st'
  /\ search_object st' h path pattern d []
  /\ forall n,
       FindNextFileA_repeat env n (Addr h) (Addr rec) st'
       = Ok (replicate n FALSE) st'.
Proof.
  intros (p1 & p2 & Hh & H1 & H2 & Hp & Hd) [r Hr].
  destruct st as [hp ds err o]. cbn [heap dirs last_error oom] in *.
  assert (Hrh : rec <> h) by congruence.
  assert (Hr1 : rec <> p1) by congruence.
  assert (Hr2 : rec <> p2) by congruence.
  assert (Hcall : forall hp' err' r',
             hp' !! h = Some (BSearch (mk_search file_search_magic (Addr p1) (Addr p2) (Some d))) ->
             hp' !! rec = Some (BFindDataA r') ->
             FindNextFileA env (Addr h) (Addr rec) (mk_state hp' ds err' o)
             = Ok FALSE (mk_state (<[rec := BFindDataA empty_find_data]> hp') ds
                           ERROR_NO_MORE_FILES o)).
  { intros hp' err' r' Hh' Hr'.
    rewrite (FindNextFileA_enter env h rec d _ _ hp' ds err' o r' [] Hh' Hr' Hd).
    apply (FindNextFileA_loop_end env h rec d 0 _ ds err' o (Addr p1) (Addr p2));
      [|exact Hd].
    rewrite lookup_insert_ne by congruence. exact Hh'. }
  split; [apply (Hcall hp err r Hh Hr)|]. split.
  - exists p1, p2. cbn [heap dirs].
    rewrite !lookup_insert_ne by congruence. auto.
  - induction n as [|n IH]; [reflexivity|].
    cbn [FindNextFileA_repeat replicate]. run_step.
    rewrite (Hcall _ ERROR_NO_MORE_FILES empty_find_data).
    + rewrite insert_insert_eq.
      cbv [mbind M_bind bind] in IH. rewrite IH. reflexivity.
    + rewrite lookup_insert_ne by congruence. exact Hh.
    + apply lookup_insert_eq.
Qed.

(** ** Closing a search handle *)

Lemma free_run (q : pointer) (hp : gmap positive block)
    (ds : gmap positive (list string)) (err : DWORD) (o : list bool) :
  releasable q hp ->
  free q (mk_state hp ds err o) = Ok tt (mk_state (release q hp) ds err o).
Proof.
  destruct q as [| |a]; cbn [releasable release]; [reflexivity|tauto|].
  intros [b Hb]. run_step. rewrite Hb. reflexivity.
Qed.

(** [FindClose] on a live object that carries the tag: the two strings,
    the stream if there is one, and the object are released. *)
Lemma FindClose_run (h : positive) (q1 q2 : pointer) (dopt : option positive)
    (hp : gmap positive block) (ds : gmap positive (list string))
    (err : DWORD) (o : list bool) :
  hp !! h = Some (BSearch (mk_search file_search_magic q1 q2 dopt)) ->
  releasable q1 hp ->
  releasable q2 (release q1 hp) ->
  releasable (Addr h) (release q2 (release q1 hp)) ->
  match dopt with Some d => is_Some (ds !! d) | None => True end ->
  FindClose (Addr h) (mk_state hp ds err o)
  = Ok TRUE
      (mk_state (delete h (release q2 (release q1 hp))) (close_stream dopt ds) err o).
Proof.
  intros Hh R1 R2 R3 Hd.
  unfold FindClose, is_valid_file_search_handle. run_step. rewrite Hh. run_step.
  rewrite magic_matches. run_step. rewrite Hh. run_step.
  pose proof (free_run q1 hp ds err o R1) as F1. run_step_in F1. rewrite F1.
  pose proof (free_run q2 (release q1 hp) ds err o R2) as F2. run_step_in F2. rewrite F2.
  destruct dopt as [d|]; cbn [close_stream].
  - destruct Hd as [es Hd]. unfold closedir. run_step. rewrite Hd.
    destruct R3 as [b Hb]. rewrite Hb. reflexivity.
  - destruct R3 as [b Hb]. rewrite Hb. reflexivity.
Qed.

Lemma FindClose_wrong_tag (a : positive) (b : block) (st : State) :
  heap st !! a = Some b ->
  strncmp file_search_magic (leading_bytes b) sizeof_file_search_magic <> 0 ->
  FindClose (Addr a) st = Ok FALSE st.
Proof.
  intros Hb Htag. destruct st as [hp ds err o]. cbn [heap] in Hb.
  unfold FindClose, is_valid_file_search_handle.
  cbv [mbind M_bind bind ret mret M_ret load heap is_null negb].
  rewrite Hb. apply Z.eqb_neq in Htag. rewrite Htag. reflexivity.
Qed.

(** A find record whose first byte is not the first character of the tag
    does not compare equal to the tag. *)
Lemma find_data_is_no_tag (attributes : DWORD) (creation access : FILETIME) :
  attributes mod 256 <> code "f" ->
  strncmp file_search_magic (find_data_leading_bytes attributes creation access)
    sizeof_file_search_magic <> 0.
Proof.
  intros Hf. unfold find_data_leading_bytes, DWORD_bytes.
  cbn [app chars_of_bytes].
  assert (Hr : 0 <= attributes mod 256 < 256) by (apply Z.mod_pos_bound; lia).
  set (b0 := attributes mod 256) in *.
  destruct (Z.eqb_spec b0 0) as [E|E]; [discriminate|].
  unfold file_search_magic, sizeof_file_search_magic. cbn [strncmp].
  assert (Hc : code (ascii_of_nat (Z.to_nat b0)) = b0).
  { unfold code. rewrite nat_ascii_embedding by lia. lia. }
  destruct (Ascii.eqb "f" (ascii_of_nat (Z.to_nat b0))) eqn:Eq.
  - apply Ascii.eqb_eq in Eq. rewrite <- Eq in Hc. congruence.
  - rewrite Hc. lia.
Qed.

(** C8, as the code has it: [FindClose] returns [FALSE] and releases
    nothing for the null handle, for the sentinel, and for a pointer to a
    live object, whatever it is (a character buffer, a search object, a
    find record), whose leading bytes do not compare equal to the tag,
    as is the case of every find record whose attributes do not have the
    first character of the tag as their lowest byte;
    on a valid search handle it releases the path string, the pattern
    string, the directory stream and the object, each of them live before
    and gone after, and returns [TRUE]. *)
Theorem FindClose_rules (st : State) :
  FindClose NULL st = Ok FALSE st
  /\ FindClose INVALID_HANDLE_VALUE st = Ok FALSE st
  /\ (forall a s,
        heap st !! a = Some (BString s) ->
        strncmp file_search_magic s sizeof_file_search_magic <> 0 ->
        FindClose (Addr a) st = Ok FALSE st)
  /\ (forall a fs,
        heap st !! a = Some (BSearch fs) ->
        strncmp file_search_magic (magic fs) sizeof_file_search_magic <> 0 ->
        FindClose (Addr a) st = Ok FALSE st)
  /\ (forall a b,
        heap st !! a = Some b ->
        strncmp file_search_magic (leading_bytes b) sizeof_file_search_magic <> 0 ->
        FindClose (Addr a) st = Ok FALSE st)
  /\ (forall a b,
        heap st !! a = Some b ->
        (exists r, b = BFindDataA r /\ dwFileAttributes r mod 256 <> code "f")
        \/ (exists r, b = BFindDataW r /\ w_dwFileAttributes r mod 256 <> code "f") ->
        FindClose (Addr a) st = Ok FALSE st)
  /\ (forall h p1 p2 d path pattern es,
        heap st !! h
        = Some (BSearch (mk_search file_search_magic (Addr p1) (Addr p2) (Some d))) ->
        heap st !! p1 = Some (BString path) ->
        heap st !! p2 = Some (BString pattern) ->
        p1 <> p2 ->
        dirs st !! d = Some es ->
        exists st',
          FindClose (Addr h) st = Ok TRUE st'
          /\ heap st' = delete h (delete p2 (delete p1 (heap st)))
          /\ dirs st' = delete d (dirs st)
          /\ last_error st' = last_error st
          /\ heap st' !! h = None /\ heap st' !! p1 = None /\ heap st' !! p2 = None
          /\ dirs st' !! d = None).
Proof.
  split; [reflexivity|]. split; [reflexivity|]. split; [|split; [|split; [|split]]].
  - intros a s Hb Htag. apply (FindClose_wrong_tag a (BString s) st Hb Htag).
  - intros a fs Hb Htag. apply (FindClose_wrong_tag a (BSearch fs) st Hb Htag).
  - intros a b Hb Htag. apply (FindClose_wrong_tag a b st Hb Htag).
  - intros a b Hb [(r & -> & Hf)|(r & -> & Hf)];
      apply (FindClose_wrong_tag a _ st Hb); cbn [leading_bytes];
      apply find_data_is_no_tag, Hf.
  - intros h p1 p2 d path pattern es Hh H1 H2 Hne Hd.
    destruct st as [hp ds err o]. cbn [heap dirs last_error] in *.
    assert (Hh1 : h <> p1) by congruence.
    assert (Hh2 : h <> p2) by congruence.
    eexists. split.
    + apply FindClose_run; [exact Hh| | | |]; cbn [releasable release].
      * eauto.
      * rewrite lookup_delete_ne by congruence. eauto.
      * rewrite !lookup_delete_ne by congruence. eauto.
      * eauto.
    + cbn [heap dirs last_error release close_stream].
      repeat split; try reflexivity.
      * apply lookup_delete_eq.
      * rewrite lookup_delete_ne, lookup_delete_ne by congruence. apply lookup_delete_eq.
      * rewrite lookup_delete_ne by congruence. apply lookup_delete_eq.
      * apply lookup_delete_eq.
Qed.

(** C8 as stated fails on a handle that has been closed: the first close
    succeeds and frees the object without clearing its tag; the second
    close reads the tag through the dangling pointer, which is undefined
    and so not a rejection. *)
Lemma FindClose_twice_not_rejected :
  (exists st, open_and_close demo_platform "/d/*.txt" (Addr 1) demo_state
              = Ok (Addr 2, TRUE) st)
  /\ open_and_close_twice demo_platform "/d/*.txt" (Addr 1) demo_state = Fault.
Proof. split; [eexists|]; vm_compute; reflexivity. Qed.

(** ** Building a search object *)

(** The object under construction is kept on top of the heap term:
    [<[p := BSearch fs]> base], with [base] the blocks around it. *)

Lemma update_search_run (p : positive) (fs : WIN32_FILE_SEARCH)
    (f : WIN32_FILE_SEARCH -> WIN32_FILE_SEARCH) (base : gmap positive block)
    (ds : gmap positive (list string)) (err : DWORD) (o : list bool) :
  update_search (Addr p) f (mk_state (<[p := BSearch fs]> base) ds err o)
  = Ok tt (mk_state (<[p := BSearch (f fs)]> base) ds err o).
Proof.
  unfold update_search. run_step. rewrite lookup_insert_eq. run_step.
  rewrite lookup_insert_eq, insert_insert_eq. reflexivity.
Qed.

Lemma load_search_run (p : positive) (fs : WIN32_FILE_SEARCH)
    (base : gmap positive block) (ds : gmap positive (list string))
    (err : DWORD) (o : list bool) :
  load_search (Addr p) (mk_state (<[p := BSearch fs]> base) ds err o)
  = Ok fs (mk_state (<[p := BSearch fs]> base) ds err o).
Proof. run_step. rewrite lookup_insert_eq. reflexivity. Qed.

Lemma alloc_run (b : block) (hp : gmap positive block)
    (ds : gmap positive (list string)) (err : DWORD) (o : list bool) :
  alloc b (mk_state hp ds err o)
  = if alloc_fails o then Ok NULL (mk_state hp ds err (tail o))
    else Ok (Addr (fresh (dom hp)))
           (mk_state (<[fresh (dom hp) := b]> hp) ds err (tail o)).
Proof. destruct o as [|[|] o]; reflexivity. Qed.

Lemma fresh_under (p : positive) (x : block) (base : gmap positive block) :
  fresh (dom (<[p := x]> base)) <> p
  /\ base !! fresh (dom (<[p := x]> base)) = None.
Proof.
  pose proof (fresh_heap_None (<[p := x]> base)) as H.
  apply lookup_insert_None in H as [H1 H2]. auto.
Qed.

Lemma free_under (p a : positive) (x : block) (base : gmap positive block)
    (ds : gmap positive (list string)) (err : DWORD) (o : list bool) :
  a <> p -> is_Some (base !! a) ->
  free (Addr a) (mk_state (<[p := x]> base) ds err o)
  = Ok tt (mk_state (<[p := x]> (delete a base)) ds err o).
Proof.
  intros Hne [b Hb]. run_step. rewrite lookup_insert_ne by congruence.
  rewrite Hb. rewrite delete_insert_ne by congruence. reflexivity.
Qed.

Lemma opendir_run (env : Platform) (path : string) (hp : gmap positive block)
    (ds : gmap positive (list string)) (err : DWORD) (o : list bool) :
  opendir env path (mk_state hp ds err o)
  = match opendir_fs env path with
    | None => Ok None (mk_state hp ds err o)
    | Some names =>
        Ok (Some (fresh (dom ds)))
          (mk_state hp (<[fresh (dom ds) := names]> ds) err o)
    end.
Proof. unfold opendir. destruct (opendir_fs env path); reflexivity. Qed.

Lemma fresh_dirs_None (ds : gmap positive (list string)) :
  ds !! fresh (dom ds) = None.
Proof. apply not_elem_of_dom, is_fresh. Qed.

(** [FindClose] on the object under construction: what it owns is
    released from the blocks around it. *)
Lemma FindClose_under (p : positive) (q1 q2 : pointer) (dopt : option positive)
    (base : gmap positive block) (ds : gmap positive (list string))
    (err : DWORD) (o : list bool) :
  base !! p = None ->
  releasable q1 base ->
  releasable q2 (release q1 base) ->
  match dopt with Some d => is_Some (ds !! d) | None => True end ->
  FindClose (Addr p)
    (mk_state (<[p := BSearch (mk_search file_search_magic q1 q2 dopt)]> base) ds err o)
  = Ok TRUE (mk_state (release q2 (release q1 base)) (close_stream dopt ds) err o).
Proof.
  intros Hp R1 R2 Hd.
  assert (N1 : forall a, q1 = Addr a -> a <> p).
  { intros a -> E. subst a. cbn in R1. rewrite Hp in R1. destruct R1; discriminate. }
  assert (N2 : forall a, q2 = Addr a -> a <> p).
  { intros a -> E. subst a. destruct q1 as [| |a1]; cbn in R2, R1; try tauto.
    - rewrite Hp in R2. destruct R2; discriminate.
    - destruct R2 as [b Hb]. apply lookup_delete_Some in Hb as [_ Hb]. congruence. }
  assert (E1 : release q1 (<[p := BSearch (mk_search file_search_magic q1 q2 dopt)]> base)
               = <[p := BSearch (mk_search file_search_magic q1 q2 dopt)]> (release q1 base)).
  { destruct q1 as [| |a1]; cbn [release]; try reflexivity.
    apply delete_insert_ne. intros E. apply (N1 a1); auto. }
  assert (E2 : forall m, release q2 (<[p := BSearch (mk_search file_search_magic q1 q2 dopt)]> m)
               = <[p := BSearch (mk_search file_search_magic q1 q2 dopt)]> (release q2 m)).
  { intros m. destruct q2 as [| |a2]; cbn [release]; try reflexivity.
    apply delete_insert_ne. intros E. apply (N2 a2); auto. }
  rewrite (FindClose_run p q1 q2 dopt).
  - rewrite E1, E2, delete_insert_eq.
    rewrite delete_id; [reflexivity|].
    destruct q2 as [| |a2]; cbn [release];
      [| |rewrite lookup_delete_ne by (intros E; apply (N2 a2); auto)];
      (destruct q1 as [| |a1]; cbn [release];
       [| |rewrite lookup_delete_ne by (intros E; apply (N1 a1); auto)]; exact Hp).
  - apply lookup_insert_eq.
  - destruct q1 as [| |a1]; cbn [releasable] in *; auto.
    rewrite lookup_insert_ne by (intros E; apply (N1 a1); auto). exact R1.
  - rewrite E1. destruct q2 as [| |a2]; cbn [releasable] in *; auto.
    rewrite lookup_insert_ne by (intros E; apply (N2 a2); auto). exact R2.
  - rewrite E1, E2. cbn [releasable]. rewrite lookup_insert_eq. eauto.
  - exact Hd.
Qed.

(** An allocation beside the object under construction. *)
Lemma alloc_under (p : positive) (x b : block) (base : gmap positive block)
    (ds : gmap positive (list string)) (err : DWORD) (o : list bool) :
  exists q,
    alloc b (mk_state (<[p := x]> base) ds err o)
    = Ok q (mk_state
              (<[p := x]> match q with Addr a => <[a := b]> base | _ => base end)
              ds err (tail o))
    /\ match q with
       | NULL => o <> []
       | Addr a => a <> p /\ base !! a = None
       | INVALID_HANDLE_VALUE => False
       end.
Proof.
  rewrite alloc_run. destruct (alloc_fails o) eqn:A.
  - exists NULL. split; [reflexivity|]. intros ->. discriminate.
  - destruct (fresh_under p x base) as [N1 N2].
    exists (Addr (fresh (dom (<[p := x]> base)))). split; [|auto].
    rewrite insert_insert_ne by congruence. reflexivity.
Qed.

Lemma owns_two_strings (hp : gmap positive block) (p p1 p2 : positive)
    (b1 b2 : block) :
  hp !! p = None -> hp !! p1 = None -> hp !! p2 = None ->
  p1 <> p -> p2 <> p -> p1 <> p2 ->
  owns_strings hp (<[p2 := b2]> (<[p1 := b1]> hp)) p (Addr p1) (Addr p2).
Proof.
  intros Hp H1 H2 N1 N2 N12. unfold owns_strings. cbn [releasable release].
  split; [rewrite !lookup_insert_ne by congruence; exact Hp|].
  split; [rewrite lookup_insert_ne, lookup_insert_eq by congruence; eauto|].
  split.
  - rewrite lookup_delete_ne, lookup_insert_eq by congruence. eauto.
  - rewrite (delete_insert_ne _ p1 p2) by congruence.
    rewrite (delete_insert_eq _ p1), (delete_id hp p1) by exact H1.
    rewrite delete_insert_eq. apply delete_id, H2.
Qed.

Lemma owns_after_alloc (hp : gmap positive block) (p : positive)
    (q1 q2 : pointer) (b1 b2 : block) :
  hp !! p = None ->
  match q1 with
  | NULL => True
  | Addr a => a <> p /\ hp !! a = None
  | INVALID_HANDLE_VALUE => False
  end ->
  match q2 with
  | NULL => True
  | Addr a =>
      a <> p /\ match q1 with Addr a1 => <[a1 := b1]> hp | _ => hp end !! a = None
  | INVALID_HANDLE_VALUE => False
  end ->
  owns_strings hp
    match q2 with
    | Addr a => <[a := b2]> match q1 with Addr a1 => <[a1 := b1]> hp | _ => hp end
    | _ => match q1 with Addr a1 => <[a1 := b1]> hp | _ => hp end
    end p q1 q2.
Proof.
  intros Hp F1 F2.
  destruct q1 as [| |p1]; [|tauto|]; (destruct q2 as [| |p2]; [|tauto|]).
  - unfold owns_strings. cbn [releasable release]. auto.
  - destruct F2 as [N2 H2]. unfold owns_strings. cbn [releasable release].
    split; [rewrite lookup_insert_ne by congruence; exact Hp|].
    split; [exact I|]. split; [rewrite lookup_insert_eq; eauto|].
    rewrite delete_insert_eq. apply delete_id, H2.
  - destruct F1 as [N1 H1]. unfold owns_strings. cbn [releasable release].
    split; [rewrite lookup_insert_ne by congruence; exact Hp|].
    split; [rewrite lookup_insert_eq; eauto|]. split; [exact I|].
    rewrite delete_insert_eq. apply delete_id, H1.
  - destruct F1 as [N1 H1]. destruct F2 as [N2 H2].
    apply lookup_insert_None in H2 as [H2 N12].
    apply owns_two_strings; auto.
Qed.

(** What [file_search_new] leaves when it gives up or goes on: an object
    without a stream that owns [q1] and [q2], or an object with the stream
    of the whole name and the strings [name] and ["*"]. *)
Lemma file_search_new_fallback_run (env : Platform) (name path pat : string)
    (p p1 p2 : positive) (hp : gmap positive block)
    (ds : gmap positive (list string)) (err : DWORD) (o : list bool) :
  hp !! p = None -> hp !! p1 = None -> hp !! p2 = None ->
  p1 <> p -> p2 <> p -> p1 <> p2 ->
  exists st',
    file_search_new_fallback env (Addr p) name
      (mk_state
         (<[p := BSearch (mk_search file_search_magic (Addr p1) (Addr p2) None)]>
            (<[p2 := BString pat]> (<[p1 := BString path]> hp)))
         ds err o)
    = Ok tt st'
    /\ last_error st' = err
    /\ (o = [] -> oom st' = [])
    /\ ((exists q1 q2 base,
           heap st' = <[p := BSearch (mk_search file_search_magic q1 q2 None)]> base
           /\ dirs st' = ds
           /\ owns_strings hp base p q1 q2)
        \/ (exists q1 q2 d es,
              heap st'
              = <[p := BSearch (mk_search file_search_magic (Addr q1) (Addr q2) (Some d))]>
                  (<[q2 := BString "*"]> (<[q1 := BString name]> hp))
              /\ dirs st' = <[d := es]> ds
              /\ ds !! d = None
              /\ hp !! q1 = None /\ hp !! q2 = None
              /\ q1 <> p /\ q2 <> p /\ q1 <> q2
              /\ opendir_fs env name = Some es)).
Proof.
  intros Hp H1 H2 N1 N2 N12.
  pose proof (owns_two_strings hp p p1 p2 (BString path) (BString pat)
                Hp H1 H2 N1 N2 N12) as Hown.
  assert (Hsame : forall o',
             (o = [] -> o' = []) ->
             exists st',
               Ok tt
                 (mk_state
                    (<[p := BSearch (mk_search file_search_magic (Addr p1) (Addr p2) None)]>
                       (<[p2 := BString pat]> (<[p1 := BString path]> hp))) ds err o')
               = Ok tt st'
               /\ last_error st' = err
               /\ (o = [] -> oom st' = [])
               /\ ((exists q1 q2 base,
                      heap st' = <[p := BSearch (mk_search file_search_magic q1 q2 None)]> base
                      /\ dirs st' = ds
                      /\ owns_strings hp base p q1 q2)
                   \/ (exists q1 q2 d es,
                         heap st'
                         = <[p := BSearch (mk_search file_search_magic (Addr q1) (Addr q2) (Some d))]>
                             (<[q2 := BString "*"]> (<[q1 := BString name]> hp))
                         /\ dirs st' = <[d := es]> ds
                         /\ ds !! d = None
                         /\ hp !! q1 = None /\ hp !! q2 = None
                         /\ q1 <> p /\ q2 <> p /\ q1 <> q2
                         /\ opendir_fs env name = Some es))).
  { intros o' Ho. eexists. split; [reflexivity|]. cbn [last_error heap dirs oom].
    split; [reflexivity|]. split; [exact Ho|]. left.
    exists (Addr p1), (Addr p2), (<[p2 := BString pat]> (<[p1 := BString path]> hp)).
    split; [reflexivity|]. split; [reflexivity|exact Hown]. }
  unfold file_search_new_fallback.
  destruct (stat env name) as [s|e]; [|apply Hsame; auto].
  destruct (S_ISDIR (st_mode s)); [|apply Hsame; auto].
  bind_step. rewrite opendir_run.
  destruct (opendir_fs env name) as [es|] eqn:Hop.
  2:{ rewrite update_search_run. fields. apply Hsame; auto. }
  set (d := fresh (dom ds)).
  assert (Hd : ds !! d = None) by apply fresh_dirs_None.
  rewrite update_search_run. fields. rewrite load_search_run. fields.
  rewrite free_under; [|congruence|rewrite lookup_insert_ne, lookup_insert_eq by congruence; eauto].
  rewrite free_under; [|congruence|rewrite lookup_delete_ne, lookup_insert_eq by congruence; eauto].
  assert (Hbase : delete p2 (delete p1 (<[p2 := BString pat]> (<[p1 := BString path]> hp))) = hp).
  { destruct Hown as (_ & _ & _ & E). exact E. }
  rewrite Hbase.
  destruct (alloc_under p (BSearch (mk_search file_search_magic (Addr p1) (Addr p2) (Some d)))
              (BString name) hp (<[d := es]> ds) err o) as (q1 & E1 & F1).
  rewrite E1. rewrite update_search_run. fields.
  set (base1 := match q1 with Addr a => <[a := BString name]> hp | _ => hp end) in *.
  destruct (alloc_under p (BSearch (mk_search file_search_magic q1 (Addr p2) (Some d)))
              (BString "*") base1 (<[d := es]> ds) err (tail o)) as (q2 & E2 & F2).
  rewrite E2. rewrite update_search_run. fields.
  set (base2 := match q2 with Addr a => <[a := BString "*"]> base1 | _ => base1 end) in *.
  assert (Hown2 : owns_strings hp base2 p q1 q2).
  { subst base2 base1. apply owns_after_alloc; auto.
    - destruct q1; auto.
    - destruct q2; auto. }
  assert (Ho2 : o = [] -> tail (tail o) = []) by (intros ->; reflexivity).
  destruct q1 as [| |a1]; [|destruct F1|].
  - (* the copy of the name failed *)
    destruct q2 as [| |a2]; [|destruct F2|]; cbv beta iota;
      unfold closedir; run_step; rewrite lookup_insert_eq; cbv beta iota;
      rewrite update_search_run; fields;
      (eexists; split; [reflexivity|]); cbn [last_error heap dirs oom];
      (split; [reflexivity|]); (split; [exact Ho2|]);
      left; do 3 eexists; (split; [reflexivity|]);
      (split; [rewrite delete_insert_eq; apply delete_id, Hd|]); exact Hown2.
  - destruct q2 as [| |a2]; [|destruct F2|]; cbv beta iota.
    + unfold closedir. run_step. rewrite lookup_insert_eq. cbv beta iota.
      rewrite update_search_run. fields.
      eexists. split; [reflexivity|]. cbn [last_error heap dirs oom].
      split; [reflexivity|]. split; [exact Ho2|].
      left. do 3 eexists. split; [reflexivity|].
      split; [rewrite delete_insert_eq; apply delete_id, Hd|]. exact Hown2.
    + eexists. split; [reflexivity|]. cbn [last_error heap dirs oom].
      split; [reflexivity|]. split; [exact Ho2|].
      right. exists a1, a2, d, es. subst base2 base1.
      destruct F1 as [Na1 Ha1]. destruct F2 as [Na2 Ha2].
      apply lookup_insert_None in Ha2 as [Ha2 Na12].
      repeat split; auto.
Qed.

(** [FindClose] on an object that owns its strings gives the heap back. *)
Lemma FindClose_gives_back (p : positive) (q1 q2 : pointer) (dopt : option positive)
    (hp base : gmap positive block) (ds : gmap positive (list string))
    (err : DWORD) (o : list bool) :
  owns_strings hp base p q1 q2 ->
  match dopt with Some d => is_Some (ds !! d) | None => True end ->
  FindClose (Addr p)
    (mk_state (<[p := BSearch (mk_search file_search_magic q1 q2 dopt)]> base) ds err o)
  = Ok TRUE (mk_state hp (close_stream dopt ds) err o).
Proof.
  intros (Hp & R1 & R2 & E) Hd.
  rewrite (FindClose_under p q1 q2 dopt base ds err o Hp R1 R2 Hd), E. reflexivity.
Qed.

Lemma load_string_run (a : positive) (s : string) (hp : gmap positive block)
    (ds : gmap positive (list string)) (err : DWORD) (o : list bool) :
  hp !! a = Some (BString s) ->
  load_string (Addr a) (mk_state hp ds err o) = Ok s (mk_state hp ds err o).
Proof. intros H. run_step. rewrite H. reflexivity. Qed.

(** [file_search_new] always returns: either null, every block it
    allocated and every stream it opened being released again, or a search
    object with a path string, a pattern string and an open stream of its
    own, for the directory part of the name or, when that does not open,
    for the whole name with the pattern ["*"]. *)
Lemma file_search_new_run (env : Platform) (name : string) (namelen : nat)
    (pattern : string) (patternlen : nat) (hp : gmap positive block)
    (ds : gmap positive (list string)) (err : DWORD) (o : list bool) :
  exists res st',
    file_search_new env name namelen pattern patternlen (mk_state hp ds err o)
    = Ok res st'
    /\ last_error st' = err
    /\ (o = [] -> oom st' = [])
    /\ ((res = NULL /\ heap st' = hp /\ dirs st' = ds
         /\ (o <> [] \/ opendir_fs env (str_take namelen name) = None))
        \/ (exists p p1 p2 d path pat es,
              res = Addr p
              /\ hp !! p = None /\ hp !! p1 = None /\ hp !! p2 = None
              /\ p1 <> p /\ p2 <> p /\ p1 <> p2 /\ ds !! d = None
              /\ heap st'
                 = <[p := BSearch (mk_search file_search_magic (Addr p1) (Addr p2) (Some d))]>
                     (<[p2 := BString pat]> (<[p1 := BString path]> hp))
              /\ dirs st' = <[d := es]> ds
              /\ opendir_fs env path = Some es
              /\ (path = str_take namelen name /\ pat = str_take patternlen pattern
                  \/ path = name /\ pat = "*"%string
                     /\ opendir_fs env (str_take namelen name) = None))).
Proof.
  unfold file_search_new. bind_step. rewrite alloc_run.
  destruct (alloc_fails o) eqn:A0.
  { do 2 eexists. split; [reflexivity|]. cbn [last_error heap dirs oom].
    split; [reflexivity|]. split; [intros ->; discriminate|].
    left. repeat split. left. intros ->. discriminate. }
  cbv beta iota. fields.
  set (p := fresh (dom hp)).
  assert (Hp : hp !! p = None) by apply fresh_heap_None.
  rewrite update_search_run. fields.
  destruct (alloc_under p (BSearch (mk_search file_search_magic NULL NULL None))
              (BString (str_take namelen name)) hp ds err (tail o)) as (q1 & E1 & F1).
  rewrite E1. rewrite update_search_run. fields.
  set (base1 := match q1 with
                | Addr a => <[a := BString (str_take namelen name)]> hp
                | _ => hp
                end) in *.
  destruct (alloc_under p (BSearch (mk_search file_search_magic q1 NULL None))
              (BString (str_take patternlen pattern)) base1 ds err (tail (tail o)))
    as (q2 & E2 & F2).
  rewrite E2. rewrite update_search_run. fields.
  set (base2 := match q2 with
                | Addr a => <[a := BString (str_take patternlen pattern)]> base1
                | _ => base1
                end) in *.
  assert (Hown2 : owns_strings hp base2 p q1 q2).
  { subst base2 base1. apply owns_after_alloc; auto.
    - destruct q1; auto.
    - destruct q2; auto. }
  assert (Ho3 : o = [] -> tail (tail (tail o)) = []) by (intros ->; reflexivity).
  assert (Hgive : forall q1' q2' base' o',
             owns_strings hp base' p q1' q2' ->
             (o = [] -> o' = []) ->
             (o <> [] \/ opendir_fs env (str_take namelen name) = None) ->
             exists res st',
               match FindClose (Addr p)
                       (mk_state (<[p := BSearch (mk_search file_search_magic q1' q2' None)]> base')
                          ds err o') with
               | Ok _ st'4 => Ok NULL st'4
               | Fault => Fault
               end = Ok res st'
               /\ last_error st' = err
               /\ (o = [] -> oom st' = [])
               /\ ((res = NULL /\ heap st' = hp /\ dirs st' = ds
                    /\ (o <> [] \/ opendir_fs env (str_take namelen name) = None))
                   \/ (exists p p1 p2 d path pat es,
                         res = Addr p
                         /\ hp !! p = None /\ hp !! p1 = None /\ hp !! p2 = None
                         /\ p1 <> p /\ p2 <> p /\ p1 <> p2 /\ ds !! d = None
                         /\ heap st'
                            = <[p := BSearch (mk_search file_search_magic (Addr p1) (Addr p2) (Some d))]>
                                (<[p2 := BString pat]> (<[p1 := BString path]> hp))
                         /\ dirs st' = <[d := es]> ds
                         /\ opendir_fs env path = Some es
                         /\ (path = str_take namelen name /\ pat = str_take patternlen pattern
                             \/ path = name /\ pat = "*"%string
                                /\ opendir_fs env (str_take namelen name) = None)))).
  { intros q1' q2' base' o' Hown Ho Hwhy.
    rewrite (FindClose_gives_back p q1' q2' None hp base' ds err o' Hown I).
    do 2 eexists. split; [reflexivity|]. cbn [last_error heap dirs oom close_stream].
    split; [reflexivity|]. split; [exact Ho|]. left. auto. }
  destruct q1 as [| |p1]; [|destruct F1|].
  { cbv beta iota. apply Hgive; auto.
    left. intros ->. apply F1. reflexivity. }
  destruct q2 as [| |p2]; [|destruct F2|].
  { cbv beta iota. apply Hgive; auto.
    left. intros ->. apply F2. reflexivity. }
  cbv beta iota. subst base2 base1.
  destruct F1 as [N1 H1]. destruct F2 as [N2 H2].
  apply lookup_insert_None in H2 as [H2 N12].
  rewrite (load_string_run p1 (str_take namelen name))
    by (rewrite lookup_insert_ne, lookup_insert_ne, lookup_insert_eq by congruence;
        reflexivity).
  rewrite opendir_run.
  destruct (opendir_fs env (str_take namelen name)) as [es|] eqn:Hop.
  - set (d := fresh (dom ds)).
    assert (Hd : ds !! d = None) by apply fresh_dirs_None.
    rewrite update_search_run. fields. rewrite load_search_run. fields.
    do 2 eexists. split; [reflexivity|]. cbn [last_error heap dirs oom].
    split; [reflexivity|]. split; [exact Ho3|]. right.
    exists p, p1, p2, d, (str_take namelen name), (str_take patternlen pattern), es.
    repeat split; auto.
  - rewrite update_search_run. fields.
    destruct (file_search_new_fallback_run env name (str_take namelen name)
                (str_take patternlen pattern) p p1 p2 hp ds err (tail (tail (tail o)))
                Hp H1 H2 N1 N2 N12) as (st1 & Ef & Herr & Hoom & Hcases).
    rewrite Ef. destruct st1 as [hp1 ds1 err1 o1]. cbn [last_error heap dirs oom] in *.
    subst err1.
    assert (Ho1 : o = [] -> o1 = []) by (intros ->; apply Hoom; reflexivity).
    destruct Hcases as [(q1 & q2 & base & -> & -> & Hown)
                       |(q1 & q2 & d & es & -> & -> & Hd & Hq1 & Hq2 & Nq1 & Nq2 & Nq & Hop2)].
    + rewrite load_search_run. fields. apply Hgive; auto.
    + rewrite load_search_run. fields.
      do 2 eexists. split; [reflexivity|]. cbn [last_error heap dirs oom].
      split; [reflexivity|]. split; [exact Ho1|]. right.
      exists p, q1, q2, d, name, "*"%string, es.
      repeat split; auto.
Qed.

(** ** The first entry *)

Section LoopTotal.
Variable env : Platform.
Variables (h rec p1 p2 d : positive) (path pattern : string) (c : ascii).
Hypothesis Hc : last_char path = Some c.

(** Whatever the allocator does, the loop returns; when it returns
    [FALSE] the record is as it was except for the name field, which
    then holds the name of an entry that matched the pattern. *)
Lemma FindNextFileA_loop_total (es : list string) :
  forall (hp : gmap positive block) (ds : gmap positive (list string))
         (err : DWORD) (o : list bool) (r : WIN32_FIND_DATAA),
  hp !! h = Some (BSearch (mk_search file_search_magic (Addr p1) (Addr p2) (Some d))) ->
  hp !! p1 = Some (BString path) ->
  hp !! p2 = Some (BString pattern) ->
  hp !! rec = Some (BFindDataA r) ->
  ds !! d = Some es ->
  exists b r' left err' o',
    FindNextFileA_loop env (S (length es)) (Addr h) (Addr rec) (mk_state hp ds err o)
    = Ok b (mk_state (<[rec := BFindDataA r']> hp) (<[d := left]> ds) err' o')
    /\ (b = FALSE ->
        r' = r
        \/ exists e, e ∈ es /\ FilePatternMatchA env e pattern = true
                     /\ r' = set_cFileName r (str_take MAX_PATH e))
    /\ (b = TRUE ->
        exists e s, e ∈ es /\ entry_fate_of env path pattern e = Reported s
                    /\ r' = snd (FindDataFromStat (STAT_TIME_TO_FILETIME env)
                                   (entry_fullpath path e) s
                                   (set_cFileName r (str_take MAX_PATH e)))).
Proof.
  induction es as [|name es IH]; intros hp ds err o r Hh H1 H2 Hr Hd.
  - cbn [length].
    rewrite (FindNextFileA_loop_end env h rec d 0 hp ds err o (Addr p1) (Addr p2) Hh Hd).
    exists FALSE, r, [], ERROR_NO_MORE_FILES, o.
    rewrite (insert_id hp), (insert_id ds) by assumption.
    split; [reflexivity|]. split; [auto|discriminate].
  - assert (Hrh : rec <> h) by congruence.
    assert (Hr1 : rec <> p1) by congruence.
    assert (Hr2 : rec <> p2) by congruence.
    cbn [length].
    rewrite (FindNextFileA_loop_step env h rec p1 p2 d path pattern _ hp ds err o r c
               name es Hc Hh H1 H2 Hr Hd).
    cbn zeta.
    assert (Hm : entry_fate_of env path pattern name <> NotMatched ->
                 FilePatternMatchA env name pattern = true).
    { unfold entry_fate_of. destruct (FilePatternMatchA env name pattern); congruence. }
    set (hp1 := <[rec := BFindDataA (set_cFileName r (str_take MAX_PATH name))]> hp).
    assert (Hnext : forall err1 o1,
               exists b r' left err' o',
                 FindNextFileA_loop env (S (length es)) (Addr h) (Addr rec)
                   (mk_state hp1 (<[d := es]> ds) err1 o1)
                 = Ok b (mk_state (<[rec := BFindDataA r']> hp) (<[d := left]> ds) err' o')
                 /\ (b = FALSE ->
                     r' = set_cFileName r (str_take MAX_PATH name)
                     \/ exists e, e ∈ es /\ FilePatternMatchA env e pattern = true
                                  /\ r' = set_cFileName r (str_take MAX_PATH e))
                 /\ (b = TRUE ->
                     exists e s, e ∈ es /\ entry_fate_of env path pattern e = Reported s
                                 /\ r' = snd (FindDataFromStat (STAT_TIME_TO_FILETIME env)
                                                (entry_fullpath path e) s
                                                (set_cFileName r (str_take MAX_PATH e))))).
    { intros err1 o1.
      destruct (IH hp1 (<[d := es]> ds) err1 o1 (set_cFileName r (str_take MAX_PATH name)))
        as (b & r' & left & err' & o' & E & Hb & Ht);
        subst hp1; rewrite ?lookup_insert_eq, ?lookup_insert_ne by congruence; auto.
      exists b, r', left, err', o'. rewrite E, !insert_insert_eq. split; [reflexivity|].
      split.
      - intros Hf. destruct (Hb Hf) as [->|(e & He & Hme & ->)]; [auto|].
        right. exists e. rewrite set_cFileName_twice. auto.
      - intros Hf. destruct (Ht Hf) as (e & s & He & Hfe & ->).
        exists e, s. rewrite set_cFileName_twice. auto. }
    destruct (entry_fate_of env path pattern name) as [|errno| |s] eqn:Hf.
    + destruct (IH hp (<[d := es]> ds) err o r Hh H1 H2 Hr (lookup_insert_eq _ _ _))
        as (b & r' & left & err' & o' & E & Hb & Ht).
      exists b, r', left, err', o'. rewrite E, insert_insert_eq. split; [reflexivity|].
      split.
      * intros Hfb. destruct (Hb Hfb) as [->|(e & He & Hme & ->)]; [auto|].
        right. exists e. split; [right; exact He|auto].
      * intros Hfb. destruct (Ht Hfb) as (e & s & He & Hfe & ->).
        exists e, s. split; [right; exact He|auto].
    + destruct (alloc_fails o).
      * exists FALSE, (set_cFileName r (str_take MAX_PATH name)), es,
          ERROR_NOT_ENOUGH_MEMORY, (tail o).
        split; [reflexivity|]. split; [|discriminate]. intros _. right. exists name.
        split; [left|]. split; [apply Hm; congruence|reflexivity].
      * destruct (Hnext (map_posix_err env errno) (tail o))
          as (b & r' & left & err' & o' & E & Hb & Ht).
        exists b, r', left, err', o'. split; [exact E|]. split.
        -- intros Hfb. destruct (Hb Hfb) as [->|(e & He & Hme & ->)].
           ++ right. exists name. split; [left|].
              split; [apply Hm; congruence|reflexivity].
           ++ right. exists e. split; [right; exact He|auto].
        -- intros Hfb. destruct (Ht Hfb) as (e & s & He & Hfe & ->).
           exists e, s. split; [right; exact He|auto].
    + destruct (alloc_fails o).
      * exists FALSE, (set_cFileName r (str_take MAX_PATH name)), es,
          ERROR_NOT_ENOUGH_MEMORY, (tail o).
        split; [reflexivity|]. split; [|discriminate]. intros _. right. exists name.
        split; [left|]. split; [apply Hm; congruence|reflexivity].
      * destruct (Hnext err (tail o)) as (b & r' & left & err' & o' & E & Hb & Ht).
        exists b, r', left, err', o'. split; [exact E|]. split.
        -- intros Hfb. destruct (Hb Hfb) as [->|(e & He & Hme & ->)].
           ++ right. exists name. split; [left|].
              split; [apply Hm; congruence|reflexivity].
           ++ right. exists e. split; [right; exact He|auto].
        -- intros Hfb. destruct (Ht Hfb) as (e & s & He & Hfe & ->).
           exists e, s. split; [right; exact He|auto].
    + destruct (alloc_fails o).
      * exists FALSE, (set_cFileName r (str_take MAX_PATH name)), es,
          ERROR_NOT_ENOUGH_MEMORY, (tail o).
        split; [reflexivity|]. split; [|discriminate]. intros _. right. exists name.
        split; [left|]. split; [apply Hm; congruence|reflexivity].
      * eexists TRUE, _, es, err, (tail o). split; [reflexivity|].
        split; [discriminate|]. intros _. exists name, s.
        split; [left|]. split; [exact Hf|reflexivity].
Qed.
End LoopTotal.

Lemma strlen_app (a b : string) :
  strlen (a ++ b) = (strlen a + strlen b)%nat.
Proof.
  unfold strlen. induction a as [|x a IH]; simpl; [reflexivity|].
  rewrite IH. reflexivity.
Qed.

Lemma str_take_app (a b : string) : str_take (strlen a) (a ++ b) = a.
Proof.
  unfold strlen. induction a as [|x a IH]; simpl.
  - destruct b; reflexivity.
  - rewrite IH. reflexivity.
Qed.

Lemma str_take_all (a : string) : str_take (strlen a) a = a.
Proof.
  unfold strlen. induction a as [|x a IH]; simpl; [reflexivity|].
  rewrite IH. reflexivity.
Qed.

Lemma last_char_app_sep (pre : string) (x : ascii) :
  last_char (pre ++ String x EmptyString) = Some x.
Proof.
  unfold last_char, char_at. rewrite strlen_app. cbn [strlen String.length].
  replace (strlen pre + 1)%nat with (S (strlen pre)) by lia.
  unfold strlen. induction pre as [|y pre IH]; simpl; [reflexivity|].
  destruct pre as [|z pre]; simpl in *; auto.
Qed.

(** The split of a file name at its last separator, as [FindFirstFileA]
    computes it. *)
Lemma split_at_last_separator (name t : string) :
  strrchr name PathGetSeparatorA_native = Some t ->
  exists pre pat,
    name = ((pre ++ "/") ++ pat)%string
    /\ str_next t = pat
    /\ str_take (strlen name - strlen (str_next t)) name = (pre ++ "/")%string
    /\ str_take (strlen (str_next t)) (str_next t) = pat.
Proof.
  unfold PathGetSeparatorA_native.
  intros H. apply strrchr_Some in H as (pre & pat & -> & -> & _).
  exists pre, pat. cbn [str_next].
  assert (E : (pre ++ String "/" pat = (pre ++ "/") ++ pat)%string).
  { clear. induction pre as [|x pre IH]; [reflexivity|].
    change (String x (pre ++ String "/" pat) = String x ((pre ++ "/") ++ pat)).
    rewrite IH. reflexivity. }
  rewrite E. split; [reflexivity|]. split; [reflexivity|]. split.
  - rewrite strlen_app.
    replace (strlen (pre ++ "/") + strlen pat - strlen pat)%nat
      with (strlen (pre ++ "/")) by lia.
    apply str_take_app.
  - apply str_take_all.
Qed.

(** [FindClose] after a search that reported nothing: the object, its
    strings and its stream go, the record stays. *)
Lemma FindClose_after_search (p p1 p2 d rec : positive) (b1 b2 : block)
    (R : WIN32_FIND_DATAA) (hp0 : gmap positive block)
    (ds : gmap positive (list string)) (left es : list string)
    (err : DWORD) (o : list bool) :
  hp0 !! p = None -> hp0 !! p1 = None -> hp0 !! p2 = None ->
  p1 <> p -> p2 <> p -> p1 <> p2 ->
  is_Some (hp0 !! rec) ->
  ds !! d = None ->
  FindClose (Addr p)
    (mk_state
       (<[rec := BFindDataA R]>
          (<[p := BSearch (mk_search file_search_magic (Addr p1) (Addr p2) (Some d))]>
             (<[p2 := b2]> (<[p1 := b1]> hp0))))
       (<[d := left]> (<[d := es]> ds)) err o)
  = Ok TRUE (mk_state (<[rec := BFindDataA R]> hp0) ds err o).
Proof.
  intros Hp H1 H2 N1 N2 N12 [r0 Hr] Hd.
  assert (Nr : rec <> p) by congruence.
  assert (Nr1 : rec <> p1) by congruence.
  assert (Nr2 : rec <> p2) by congruence.
  rewrite (insert_insert_ne _ rec p) by congruence.
  rewrite (insert_insert_ne _ rec p2) by congruence.
  rewrite (insert_insert_ne _ rec p1) by congruence.
  rewrite (FindClose_gives_back p (Addr p1) (Addr p2) (Some d) (<[rec := BFindDataA R]> hp0)).
  - cbn [close_stream]. rewrite insert_insert_eq, delete_insert_eq, (delete_id ds) by exact Hd.
    reflexivity.
  - apply owns_two_strings; auto; rewrite lookup_insert_ne by congruence; assumption.
  - rewrite lookup_insert_eq. eauto.
Qed.

(** [FindNextFileA] when every name left is passed over and no allocation
    fails. *)
Lemma FindNextFileA_none (env : Platform) (h rec p1 p2 d : positive)
    (path pattern : string) (c : ascii) (es : list string)
    (hp : gmap positive block) (ds : gmap positive (list string))
    (err : DWORD) (r : WIN32_FIND_DATAA) :
  last_char path = Some c ->
  hp !! h = Some (BSearch (mk_search file_search_magic (Addr p1) (Addr p2) (Some d))) ->
  hp !! p1 = Some (BString path) ->
  hp !! p2 = Some (BString pattern) ->
  hp !! rec = Some (BFindDataA r) ->
  ds !! d = Some es ->
  Forall (fun n => skipped (entry_fate_of env path pattern n)) es ->
  FindNextFileA env (Addr h) (Addr rec) (mk_state hp ds err [])
  = Ok FALSE
      (mk_state
         (<[rec := BFindDataA
                     (set_cFileName empty_find_data
                        (name_after env path pattern es EmptyString))]> hp)
         (<[d := []]> ds) ERROR_NO_MORE_FILES []).
Proof.
  intros Hc Hh H1 H2 Hr Hd Hall.
  assert (Hrh : rec <> h) by congruence.
  assert (Hr1 : rec <> p1) by congruence.
  assert (Hr2 : rec <> p2) by congruence.
  rewrite (FindNextFileA_enter env h rec d _ _ hp ds err [] r es Hh Hr Hd).
  replace (S (length es)) with (length es + 1)%nat by lia.
  rewrite <- (app_nil_r es) in Hd.
  rewrite (FindNextFileA_loop_skip env h rec p1 p2 d path pattern c es []
             Hc Hall _ _ ds err empty_find_data);
    rewrite ?lookup_insert_eq, ?lookup_insert_ne by congruence; auto.
  rewrite (FindNextFileA_loop_end env h rec d 0 _ _ _ [] (Addr p1) (Addr p2));
    rewrite ?lookup_insert_eq, ?lookup_insert_ne by congruence; auto.
  rewrite !insert_insert_eq. reflexivity.
Qed.

(** [FindNextFileA] when the names left begin with names that are passed
    over, followed by one that is reported, and no allocation fails. *)
Lemma FindNextFileA_reports (env : Platform) (h rec p1 p2 d : positive)
    (path pattern : string) (c : ascii) (pre post : list string) (name : string)
    (s : struct_stat) (hp : gmap positive block) (ds : gmap positive (list string))
    (err : DWORD) (r : WIN32_FIND_DATAA) :
  last_char path = Some c ->
  hp !! h = Some (BSearch (mk_search file_search_magic (Addr p1) (Addr p2) (Some d))) ->
  hp !! p1 = Some (BString path) ->
  hp !! p2 = Some (BString pattern) ->
  hp !! rec = Some (BFindDataA r) ->
  ds !! d = Some (pre ++ name :: post) ->
  Forall (fun n => skipped (entry_fate_of env path pattern n)) pre ->
  entry_fate_of env path pattern name = Reported s ->
  FindNextFileA env (Addr h) (Addr rec) (mk_state hp ds err [])
  = Ok TRUE
      (mk_state (<[rec := BFindDataA (record_of env path name s)]> hp)
         (<[d := post]> ds) (error_after env path pattern pre err) []).
Proof.
  intros Hc Hh H1 H2 Hr Hd Hpre Hf.
  assert (Hrh : rec <> h) by congruence.
  assert (Hr1 : rec <> p1) by congruence.
  assert (Hr2 : rec <> p2) by congruence.
  rewrite (FindNextFileA_enter env h rec d _ _ hp ds err [] r _ Hh Hr Hd).
  replace (S (length (pre ++ name :: post)))
    with (length pre + S (S (length post)))%nat
    by (rewrite length_app; cbn [length]; lia).
  rewrite (FindNextFileA_loop_skip env h rec p1 p2 d path pattern c pre (name :: post)
             Hc Hpre _ _ ds err empty_find_data);
    rewrite ?lookup_insert_eq, ?lookup_insert_ne by congruence; auto.
  erewrite (FindNextFileA_loop_step env h rec p1 p2 d path pattern _ _ _ _ [] _ c name post Hc);
    rewrite ?lookup_insert_eq, ?lookup_insert_ne by congruence; eauto.
  cbn zeta. rewrite Hf. cbn [alloc_fails tail].
  rewrite !insert_insert_eq. reflexivity.
Qed.

Lemma store_find_data_run (rec : positive) (r r' : WIN32_FIND_DATAA)
    (hp : gmap positive block) (ds : gmap positive (list string))
    (err : DWORD) (o : list bool) :
  hp !! rec = Some (BFindDataA r) ->
  store_find_data (Addr rec) r' (mk_state hp ds err o)
  = Ok tt (mk_state (<[rec := BFindDataA r']> hp) ds err o).
Proof. intros H. run_step. rewrite H. run_step. rewrite H. reflexivity. Qed.

Lemma strlen_zero (s : string) : (strlen s =? 0)%nat = true -> s = EmptyString.
Proof. destruct s; [reflexivity|discriminate]. Qed.


(** [FindNextFileA] on a valid search handle always returns, whatever the
    allocator does, and what it reports is an entry that matched, whose
    [stat] succeeded and that is no FIFO. *)
Lemma FindNextFileA_total (env : Platform) (h rec p1 p2 d : positive)
    (path pattern : string) (c : ascii) (es : list string)
    (hp : gmap positive block) (ds : gmap positive (list string))
    (err : DWORD) (o : list bool) (r : WIN32_FIND_DATAA) :
  last_char path = Some c ->
  hp !! h = Some (BSearch (mk_search file_search_magic (Addr p1) (Addr p2) (Some d))) ->
  hp !! p1 = Some (BString path) ->
  hp !! p2 = Some (BString pattern) ->
  hp !! rec = Some (BFindDataA r) ->
  ds !! d = Some es ->
  exists b r' left err' o',
    FindNextFileA env (Addr h) (Addr rec) (mk_state hp ds err o)
    = Ok b (mk_state (<[rec := BFindDataA r']> hp) (<[d := left]> ds) err' o')
    /\ (b = FALSE ->
        r' = empty_find_data
        \/ exists e, e ∈ es /\ FilePatternMatchA env e pattern = true
                     /\ r' = set_cFileName empty_find_data (str_take MAX_PATH e))
    /\ (b = TRUE ->
        exists e s, e ∈ es /\ entry_fate_of env path pattern e = Reported s
                    /\ r' = record_of env path e s).
Proof.
  intros Hc Hh H1 H2 Hr Hd.
  assert (Hrh : rec <> h) by congruence.
  assert (Hr1 : rec <> p1) by congruence.
  assert (Hr2 : rec <> p2) by congruence.
  rewrite (FindNextFileA_enter env h rec d _ _ hp ds err o r es Hh Hr Hd).
  destruct (FindNextFileA_loop_total env h rec p1 p2 d path pattern c Hc es
              (<[rec := BFindDataA empty_find_data]> hp) ds err o empty_find_data)
    as (b & r' & left & err' & o' & E & Hb & Ht);
    rewrite ?lookup_insert_eq, ?lookup_insert_ne by congruence; auto.
  exists b, r', left, err', o'. rewrite E, insert_insert_eq. auto.
Qed.

(** [FindFirstFileA] with a file name and a live record always returns.
    When it returns the sentinel, the heap and the streams are the ones
    before the call but for the record, whose fields are zero except,
    possibly, the name; when it returns a handle, an entry of the opened
    directory is reported. *)
Lemma FindFirstFileA_run (env : Platform) (rec : positive) (r : WIN32_FIND_DATAA)
    (hp : gmap positive block) (ds : gmap positive (list string))
    (err : DWORD) (o : list bool) (name : string) :
  hp !! rec = Some (BFindDataA r) ->
  exists h st',
    FindFirstFileA env (Some name) (Addr rec) (mk_state hp ds err o) = Ok h st'
    /\ (h = INVALID_HANDLE_VALUE ->
        exists n,
          heap st' = <[rec := BFindDataA (set_cFileName empty_find_data n)]> hp
          /\ dirs st' = ds
          /\ (n = EmptyString
              \/ exists path pat es e,
                   search_of env name path pat
                   /\ opendir_fs env path = Some es /\ e ∈ es
                   /\ FilePatternMatchA env e pat = true
                   /\ n = str_take MAX_PATH e))
    /\ (h <> INVALID_HANDLE_VALUE ->
        exists path pat es e s,
          search_of env name path pat
          /\ opendir_fs env path = Some es /\ e ∈ es
          /\ entry_fate_of env path pat e = Reported s).
Proof.
  intros Hr.
  unfold FindFirstFileA. cbn [is_null]. bind_step.
  rewrite (store_find_data_run rec r _ hp ds err o Hr).
  set (hp0 := <[rec := BFindDataA empty_find_data]> hp).
  assert (Hr0 : hp0 !! rec = Some (BFindDataA empty_find_data)) by apply lookup_insert_eq.
  set (Post h st' :=
         (h = INVALID_HANDLE_VALUE ->
          exists n,
            heap st' = <[rec := BFindDataA (set_cFileName empty_find_data n)]> hp
            /\ dirs st' = ds
            /\ (n = EmptyString
                \/ exists path pat es e,
                     search_of env name path pat
                     /\ opendir_fs env path = Some es /\ e ∈ es
                     /\ FilePatternMatchA env e pat = true
                     /\ n = str_take MAX_PATH e))
         /\ (h <> INVALID_HANDLE_VALUE ->
             exists path pat es e s,
               search_of env name path pat
               /\ opendir_fs env path = Some es /\ e ∈ es
               /\ entry_fate_of env path pat e = Reported s)).
  assert (Hearly : forall err' o',
             exists h st',
               @Ok pointer INVALID_HANDLE_VALUE (mk_state hp0 ds err' o') = Ok h st'
               /\ Post h st').
  { intros err' o'. do 2 eexists. split; [reflexivity|]. split; [|congruence].
    intros _. exists EmptyString. cbn [heap dirs]. auto. }
  destruct (strrchr name PathGetSeparatorA_native) as [t|] eqn:Hs; [|apply Hearly].
  destruct (strlen (str_next t) =? 0)%nat; [apply Hearly|].
  destruct (split_at_last_separator name t Hs) as (pre & pat0 & Hname & Hnext & Hdir & Hpat).
  destruct (file_search_new_run env name (strlen name - strlen (str_next t))
              (str_next t) (strlen (str_next t)) hp0 ds err o)
    as (res & st1 & E & Herr & Ho & Hcases).
  rewrite E. destruct st1 as [hp1 ds1 err1 o1]. cbn [heap dirs last_error oom] in *.
  subst err1.
  destruct Hcases as [(-> & -> & -> & _)
                     |(p & p1 & p2 & d & path & pat & es & -> & Hp & H1 & H2
                       & N1 & N2 & N12 & Hd & -> & -> & Hop & Hwhich)].
  { cbn [is_null]. apply Hearly. }
  cbn [is_null].
  assert (Nr : rec <> p) by congruence.
  assert (Nr1 : rec <> p1) by congruence.
  assert (Nr2 : rec <> p2) by congruence.
  assert (Hc : exists c, last_char path = Some c).
  { destruct Hwhich as [[-> _]|(-> & _)].
    - rewrite Hdir. exists "/"%char. apply last_char_app_sep.
    - apply last_char_nonempty. rewrite Hname. destruct pre; discriminate. }
  destruct Hc as [c Hc].
  assert (Hso : search_of env name path pat).
  { exists t. split; [exact Hs|]. rewrite str_take_all in Hwhich. exact Hwhich. }
  set (hp2 := <[p := BSearch (mk_search file_search_magic (Addr p1) (Addr p2) (Some d))]>
                (<[p2 := BString pat]> (<[p1 := BString path]> hp0))).
  assert (Hh2 : hp2 !! p = Some (BSearch (mk_search file_search_magic (Addr p1) (Addr p2) (Some d))))
    by apply lookup_insert_eq.
  assert (Hp1 : hp2 !! p1 = Some (BString path))
    by (subst hp2; rewrite !lookup_insert_ne by congruence; apply lookup_insert_eq).
  assert (Hp2 : hp2 !! p2 = Some (BString pat))
    by (subst hp2; rewrite lookup_insert_ne by congruence; apply lookup_insert_eq).
  assert (Hr2 : hp2 !! rec = Some (BFindDataA empty_find_data))
    by (subst hp2; rewrite !lookup_insert_ne by congruence; exact Hr0).
  destruct (FindNextFileA_total env p rec p1 p2 d path pat c es hp2 (<[d := es]> ds)
              err o1 empty_find_data Hc Hh2 Hp1 Hp2 Hr2 (lookup_insert_eq _ _ _))
    as (b & r' & left & err' & o' & El & Hb & Ht).
  rewrite El. destruct b.
  { do 2 eexists. split; [reflexivity|]. split; [discriminate|]. intros _.
    destruct (Ht eq_refl) as (e & s & He & Hfe & _).
    exists path, pat, es, e, s. auto. }
  cbv beta iota. subst hp2.
  rewrite (FindClose_after_search p p1 p2 d rec); eauto.
  do 2 eexists. split; [reflexivity|]. split; [|congruence]. intros _.
  cbn [heap dirs]. subst hp0. rewrite insert_insert_eq.
  destruct (Hb eq_refl) as [->|(e & He & Hm & ->)].
  - exists EmptyString. auto.
  - exists (str_take MAX_PATH e). split; [reflexivity|]. split; [reflexivity|].
    right. exists path, pat, es, e. auto.
Qed.

(** [FindFirstFileA] when the directory part opens, every entry is passed
    over and no allocation fails. *)
Lemma FindFirstFileA_no_entry_run (env : Platform) (rec : positive)
    (r : WIN32_FIND_DATAA) (hp : gmap positive block)
    (ds : gmap positive (list string)) (err : DWORD)
    (dir pattern : string) (es : list string) :
  hp !! rec = Some (BFindDataA r) ->
  pattern <> EmptyString ->
  has_char "/" pattern = false ->
  opendir_fs env (dir ++ "/") = Some es ->
  Forall (fun n => skipped (entry_fate_of env (dir ++ "/") pattern n)) es ->
  FindFirstFileA env (Some ((dir ++ "/") ++ pattern)%string) (Addr rec)
    (mk_state hp ds err [])
  = Ok INVALID_HANDLE_VALUE
      (mk_state
         (<[rec := BFindDataA
                     (set_cFileName empty_find_data
                        (name_after env (dir ++ "/") pattern es EmptyString))]> hp)
         ds ERROR_NO_MORE_FILES []).
Proof.
  intros Hr Hpat Hsep Hop Hall.
  assert (Hs : strrchr ((dir ++ "/") ++ pattern) PathGetSeparatorA_native
               = Some (String "/" pattern)).
  { apply strrchr_Some. exists dir, pattern. repeat split; auto.
    clear. induction dir as [|x dir IH]; [reflexivity|].
    change (String x ((dir ++ "/") ++ pattern) = String x (dir ++ String "/" pattern)).
    rewrite IH. reflexivity. }
  unfold FindFirstFileA. cbn [is_null]. bind_step.
  rewrite (store_find_data_run rec r _ hp ds err [] Hr).
  rewrite Hs. cbn [str_next].
  destruct (strlen pattern =? 0)%nat eqn:Hlen;
    [apply strlen_zero in Hlen; congruence|].
  rewrite strlen_app.
  replace (strlen (dir ++ "/") + strlen pattern - strlen pattern)%nat
    with (strlen (dir ++ "/")) by lia.
  set (hp0 := <[rec := BFindDataA empty_find_data]> hp).
  assert (Hr0 : hp0 !! rec = Some (BFindDataA empty_find_data)) by apply lookup_insert_eq.
  destruct (file_search_new_run env ((dir ++ "/") ++ pattern) (strlen (dir ++ "/"))
              pattern (strlen pattern) hp0 ds err [])
    as (res & st1 & E & Herr & Ho & Hcases).
  rewrite E. rewrite str_take_app, str_take_all in Hcases.
  destruct st1 as [hp1 ds1 err1 o1]. cbn [heap dirs last_error oom] in *.
  subst err1. rewrite (Ho eq_refl).
  destruct Hcases as [(-> & _ & _ & [Hne|Hno])
                     |(p & p1 & p2 & d & path & pat & es' & -> & Hp & H1 & H2
                       & N1 & N2 & N12 & Hd & -> & -> & Hop' & Hwhich)];
    [congruence|congruence|].
  destruct Hwhich as [[-> ->]|(_ & _ & Hno)]; [|congruence].
  assert (es' = es) by congruence. subst es'.
  cbn [is_null].
  assert (Nr : rec <> p) by congruence.
  assert (Nr1 : rec <> p1) by congruence.
  assert (Nr2 : rec <> p2) by congruence.
  set (hp2 := <[p := BSearch (mk_search file_search_magic (Addr p1) (Addr p2) (Some d))]>
                (<[p2 := BString pattern]> (<[p1 := BString (dir ++ "/")]> hp0))).
  assert (Hh2 : hp2 !! p = Some (BSearch (mk_search file_search_magic (Addr p1) (Addr p2) (Some d))))
    by apply lookup_insert_eq.
  assert (Hp1 : hp2 !! p1 = Some (BString (dir ++ "/")))
    by (subst hp2; rewrite !lookup_insert_ne by congruence; apply lookup_insert_eq).
  assert (Hp2 : hp2 !! p2 = Some (BString pattern))
    by (subst hp2; rewrite lookup_insert_ne by congruence; apply lookup_insert_eq).
  assert (Hr2 : hp2 !! rec = Some (BFindDataA empty_find_data))
    by (subst hp2; rewrite !lookup_insert_ne by congruence; exact Hr0).
  rewrite (FindNextFileA_none env p rec p1 p2 d (dir ++ "/") pattern "/" es hp2
             (<[d := es]> ds) err empty_find_data (last_char_app_sep dir "/")
             Hh2 Hp1 Hp2 Hr2 (lookup_insert_eq _ _ _) Hall).
  unfold FALSE. cbv beta iota. subst hp2.
  rewrite (FindClose_after_search p p1 p2 d rec); eauto.
  subst hp0. rewrite insert_insert_eq. reflexivity.
Qed.

Lemma strrchr_dir_pattern (dir pattern : string) :
  has_char "/" pattern = false ->
  strrchr ((dir ++ "/") ++ pattern) PathGetSeparatorA_native
  = Some (String "/" pattern).
Proof.
  intros Hsep. apply strrchr_Some. exists dir, pattern. repeat split; auto.
  clear. induction dir as [|x dir IH]; [reflexivity|].
  change (String x ((dir ++ "/") ++ pattern) = String x (dir ++ String "/" pattern)).
  rewrite IH. reflexivity.
Qed.

(** C10: when the directory part of the name opens and every entry is
    passed over (no match, a failing [stat] or a FIFO), [FindFirstFileA]
    returns the sentinel, whatever the allocator does, and the search
    object, its two strings and its stream have been released: the heap is
    the one before the call but for the caller's record, and the open
    streams are the ones before the call. The last error is
    [ERROR_NO_MORE_FILES] when no allocation failed. *)
Theorem FindFirstFileA_no_entry_releases (env : Platform) (st : State)
    (rec : positive) (dir pattern : string) (es : list string) :
  find_record st rec ->
  pattern <> EmptyString ->
  has_char "/" pattern = false ->
  opendir_fs env (dir ++ "/") = Some es ->
  Forall (fun n => skipped (entry_fate_of env (dir ++ "/") pattern n)) es ->
  exists st' n,
    FindFirstFileA env (Some ((dir ++ "/") ++ pattern)%string) (Addr rec) st
    = Ok INVALID_HANDLE_VALUE st'
    /\ heap st' = <[rec := BFindDataA (set_cFileName empty_find_data n)]> (heap st)
    /\ dirs st' = dirs st
    /\ (oom st = [] -> last_error st' = ERROR_NO_MORE_FILES).
Proof.
  intros [r Hr] Hpat Hsep Hop Hall.
  destruct st as [hp ds err o]. cbn [heap dirs oom] in *.
  destruct o as [|x o].
  - rewrite (FindFirstFileA_no_entry_run env rec r hp ds err dir pattern es
               Hr Hpat Hsep Hop Hall).
    do 2 eexists. split; [reflexivity|]. cbn [heap dirs last_error]. auto.
  - destruct (FindFirstFileA_run env rec r hp ds err (x :: o)
                ((dir ++ "/") ++ pattern) Hr) as (h & st' & E & Hinv & Hval).
    assert (Hdec : h = INVALID_HANDLE_VALUE \/ h <> INVALID_HANDLE_VALUE)
      by (destruct h; [right|left|right]; congruence).
    destruct Hdec as [->|Hne].
    + destruct (Hinv eq_refl) as (n & Hheap & Hdirs & _).
      exists st', n. split; [exact E|]. split; [exact Hheap|].
      split; [exact Hdirs|discriminate].
    + exfalso.
      destruct (Hval Hne) as (path & pat & es' & e & s & (t & Ht & Hwhich) & Hop' & He & Hf).
      rewrite (strrchr_dir_pattern dir pattern Hsep) in Ht. injection Ht as <-.
      cbn [str_next] in Hwhich.
      rewrite strlen_app in Hwhich.
      replace (strlen (dir ++ "/") + strlen pattern - strlen pattern)%nat
        with (strlen (dir ++ "/")) in Hwhich by lia.
      rewrite str_take_app in Hwhich.
      destruct Hwhich as [[-> ->]|(_ & _ & Hno)]; [|congruence].
      assert (es' = es) by congruence. subst es'.
      rewrite List.Forall_forall in Hall. apply list_elem_of_In in He.
      specialize (Hall e He).
      rewrite Hf in Hall. exact Hall.
Qed.

(** C3, as the code has it. With a null file name [FindFirstFileA]
    returns the sentinel with [ERROR_BAD_ARGUMENTS] and does not write the
    record. With a file name and a live record it always returns, and
    when it returns the sentinel nothing it allocated or opened is left
    and every field of the record but the name is zero; the name field is
    zero as well unless an entry of the directory searched matched the
    pattern searched for, whose name it then may hold. *)
Theorem FindFirstFileA_failure_record (env : Platform) (st : State) (rec : positive) :
  find_record st rec ->
  FindFirstFileA env None (Addr rec) st
  = Ok INVALID_HANDLE_VALUE (set_last_error ERROR_BAD_ARGUMENTS st)
  /\ forall name,
       exists h st',
         FindFirstFileA env (Some name) (Addr rec) st = Ok h st'
         /\ (h = INVALID_HANDLE_VALUE ->
             exists n,
               heap st' = <[rec := BFindDataA (set_cFileName empty_find_data n)]> (heap st)
               /\ dirs st' = dirs st
               /\ (n = EmptyString
                   \/ exists path pat es e,
                        search_of env name path pat
                        /\ opendir_fs env path = Some es /\ e ∈ es
                        /\ FilePatternMatchA env e pat = true
                        /\ n = str_take MAX_PATH e)).
Proof.
  intros [r Hr]. split; [reflexivity|]. intros name.
  destruct st as [hp ds err o]. cbn [heap dirs] in *.
  destruct (FindFirstFileA_run env rec r hp ds err o name Hr) as (h & st' & E & Hinv & _).
  exists h, st'. auto.
Qed.

(** C4: on a valid search handle [FindNextFileA] always returns, and what
    it reports is an entry whose name matched, whose [stat] succeeded and
    that is no FIFO. While no allocation fails it passes over the names
    that do not match, the matching names whose [stat] fails (recording
    the mapped error as the last error) and the matching FIFOs, and
    reports the first entry that is none of these, leaving the stream
    after it; when every name left is passed over it returns [FALSE] at
    the end of the stream. *)
Theorem FindNextFileA_skips_fifo_and_failed_stat (env : Platform) (st : State)
    (h rec d : positive) (path pattern : string) (es : list string) :
  search_object st h path pattern d es ->
  find_record st rec ->
  path <> EmptyString ->
  (exists b st',
      FindNextFileA env (Addr h) (Addr rec) st = Ok b st'
      /\ (b = TRUE ->
          exists e s,
            e ∈ es
            /\ FilePatternMatchA env e pattern = true
            /\ stat env (entry_fullpath path e) = StatOk s
            /\ S_ISFIFO (st_mode s) = false
            /\ heap st' !! rec = Some (BFindDataA (record_of env path e s))))
  /\ (oom st = [] ->
      forall pre name post s,
        es = pre ++ name :: post ->
        Forall (fun n => skipped (entry_fate_of env path pattern n)) pre ->
        entry_fate_of env path pattern name = Reported s ->
        FindNextFileA env (Addr h) (Addr rec) st
        = Ok TRUE
            (mk_state (<[rec := BFindDataA (record_of env path name s)]> (heap st))
               (<[d := post]> (dirs st))
               (error_after env path pattern pre (last_error st)) []))
  /\ (oom st = [] ->
      Forall (fun n => skipped (entry_fate_of env path pattern n)) es ->
      FindNextFileA env (Addr h) (Addr rec) st
      = Ok FALSE
          (mk_state
             (<[rec := BFindDataA
                         (set_cFileName empty_find_data
                            (name_after env path pattern es EmptyString))]> (heap st))
             (<[d := []]> (dirs st)) ERROR_NO_MORE_FILES [])).
Proof.
  intros (p1 & p2 & Hh & H1 & H2 & Hp & Hd) [r Hr] Hne.
  destruct (last_char_nonempty path Hne) as [c Hc].
  destruct st as [hp ds err o]. cbn [heap dirs last_error oom] in *.
  split; [|split].
  - destruct (FindNextFileA_total env h rec p1 p2 d path pattern c es hp ds err o r
                Hc Hh H1 H2 Hr Hd) as (b & r' & left & err' & o' & E & _ & Ht).
    do 2 eexists. split; [exact E|]. intros Hb.
    destruct (Ht Hb) as (e & s & He & Hf & ->).
    destruct (entry_fate_reported env path pattern e s Hf) as (Hm & Hs & Hfifo).
    exists e, s. cbn [heap]. rewrite lookup_insert_eq. auto.
  - intros -> pre name post s -> Hpre Hf.
    apply (FindNextFileA_reports env h rec p1 p2 d path pattern c pre post name s
             hp ds err r Hc Hh H1 H2 Hr Hd Hpre Hf).
  - intros -> Hall.
    apply (FindNextFileA_none env h rec p1 p2 d path pattern c es hp ds err r
             Hc Hh H1 H2 Hr Hd Hall).
Qed.

(** C3 as stated fails: with a null file name the sentinel comes back and
    the record still holds what it held before the call. *)
Lemma FindFirstFileA_null_name_not_zeroed :
  ~ zeroed_on_failure demo_platform None 1 demo_state.
Proof.
  intros H. specialize (H (set_last_error ERROR_BAD_ARGUMENTS demo_state) eq_refl).
  vm_compute in H. discriminate.
Qed.

(** ** The statements at work on the small host *)

Lemma demo_search_object (es : list string) :
  search_object (mk_state demo_search_heap {[ 1%positive := es ]} 0 [])
    2 "/d/" "*" 1 es.
Proof.
  exists 3%positive, 4%positive. cbn [heap dirs].
  repeat split; try reflexivity. discriminate.
Defined.

Lemma demo_find_record (ds : gmap positive (list string)) :
  find_record (mk_state demo_search_heap ds 0 []) 1.
Proof. exists stale_find_data. reflexivity. Defined.

Lemma FindFirstFileA_failure_record_demo :
  find_record demo_state 1
  /\ FindFirstFileA demo_platform None (Addr 1) demo_state
     = Ok INVALID_HANDLE_VALUE (set_last_error ERROR_BAD_ARGUMENTS demo_state).
Proof.
  assert (H : find_record demo_state 1) by (exists stale_find_data; reflexivity).
  split; [exact H|].
  exact (proj1 (FindFirstFileA_failure_record demo_platform demo_state 1 H)).
Defined.

Lemma FindNextFileA_skips_demo :
  FindNextFileA demo_platform (Addr 2) (Addr 1) demo_listing_state
  = Ok TRUE
      (mk_state
         (<[1%positive := BFindDataA (record_of demo_platform "/d/" "a.txt" demo_reg)]>
            demo_search_heap)
         (<[1%positive := ["b.log"%string]]> (dirs demo_listing_state)) 2 []).
Proof.
  refine (proj1 (proj2 (FindNextFileA_skips_fifo_and_failed_stat demo_platform
                          demo_listing_state 2 1 1 "/d/" "*"
                          ["gone"; "pipe"; "a.txt"; "b.log"]%string
                          (demo_search_object _) (demo_find_record _) _))
            eq_refl ["gone"; "pipe"]%string "a.txt"%string ["b.log"%string] demo_reg
            eq_refl _ eq_refl).
  - discriminate.
  - repeat constructor.
Defined.

Lemma FindNextFileA_exhausted_demo :
  FindNextFileA_repeat demo_platform 3 (Addr 2) (Addr 1)
    (mk_state (<[1%positive := BFindDataA empty_find_data]> demo_search_heap)
       {[ 1%positive := [] ]} ERROR_NO_MORE_FILES [])
  = Ok [FALSE; FALSE; FALSE]
      (mk_state (<[1%positive := BFindDataA empty_find_data]> demo_search_heap)
         {[ 1%positive := [] ]} ERROR_NO_MORE_FILES []).
Proof.
  exact (proj2 (proj2 (FindNextFileA_exhausted_idempotent demo_platform
                         demo_exhausted_state 2 1 1 "/d/" "*"
                         (demo_search_object []) (demo_find_record _))) 3%nat).
Defined.

Lemma MoveFileExA_rules_demo :
  MoveFileExA demo_platform "/d/a.txt" "/d/b.log" 0 demo_state
  = Ok FALSE (set_last_error ERROR_ALREADY_EXISTS demo_state).
Proof.
  apply (proj1 (MoveFileExA_rules demo_platform "/d/a.txt" "/d/b.log" 0 demo_state)).
  - reflexivity.
  - exists demo_readonly. reflexivity.
Defined.

Lemma FindClose_rules_demo :
  (exists st',
     FindClose (Addr 2) demo_listing_state = Ok TRUE st'
     /\ heap st' = delete 2%positive (delete 4%positive (delete 3%positive demo_search_heap))
     /\ dirs st' = delete 1%positive (dirs demo_listing_state)
     /\ last_error st' = 0
     /\ heap st' !! 2%positive = None /\ heap st' !! 3%positive = None
     /\ heap st' !! 4%positive = None
     /\ dirs st' !! 1%positive = None)
  /\ FindClose (Addr 1) demo_listing_state = Ok FALSE demo_listing_state
  /\ FindClose (Addr 3) demo_listing_state = Ok FALSE demo_listing_state.
Proof.
  destruct (FindClose_rules demo_listing_state) as (_ & _ & _ & _ & Hany & Hrec & Hvalid).
  split; [|split].
  - apply (Hvalid 2%positive 3%positive 4%positive 1%positive "/d/"%string "*"%string
             ["gone"; "pipe"; "a.txt"; "b.log"]%string);
      try reflexivity.
    discriminate.
  - apply (Hrec 1%positive (BFindDataA stale_find_data)); [reflexivity|].
    left. exists stale_find_data. split; [reflexivity|]. vm_compute. discriminate.
  - apply (Hany 3%positive (BString "/d/")); [reflexivity|].
    vm_compute. discriminate.
Defined.

Lemma FindFirstFileA_no_entry_releases_demo :
  exists st' n,
    FindFirstFileA demo_platform (Some (("/d" ++ "/") ++ "pi*")%string) (Addr 1) demo_state
    = Ok INVALID_HANDLE_VALUE st'
    /\ heap st' = <[1%positive := BFindDataA (set_cFileName empty_find_data n)]> (heap demo_state)
    /\ dirs st' = dirs demo_state
    /\ (oom demo_state = [] -> last_error st' = ERROR_NO_MORE_FILES).
Proof.
  apply (FindFirstFileA_no_entry_releases demo_platform demo_state 1 "/d" "pi*"
           ["."; "gone"; "pipe"; "a.txt"; "b.log"; ".env"; "sub"]%string).
  - exists stale_find_data. reflexivity.
  - discriminate.
  - reflexivity.
  - reflexivity.
  - repeat constructor.
Defined.

(** The name field after a failure of [FindFirstFileA]: the only match of
    [/d/pi*] is a FIFO, the sentinel comes back and the record holds the
    name of the FIFO. *)
Example FindFirstFileA_failure_keeps_skipped_name :
  exists st',
    FindFirstFileA demo_platform (Some "/d/pi*"%string) (Addr 1) demo_state
    = Ok INVALID_HANDLE_VALUE st'
    /\ heap st' !! 1%positive
       = Some (BFindDataA (set_cFileName empty_find_data "pipe")).
Proof. eexists. split; vm_compute; reflexivity. Qed.

(** [FindFirstFileW] writes the caller's record only after a successful
    search: on a failure the record is as it was. *)
Example FindFirstFileW_failure_leaves_record :
  exists st',
    FindFirstFileW demo_platform (Some (wide_of_string "/e/x")) (Addr 1) demo_state_w
    = Ok INVALID_HANDLE_VALUE st'
    /\ heap st' !! 1%positive = Some (BFindDataW stale_find_data_w).
Proof. eexists. split; vm_compute; reflexivity. Qed.

(** * Further properties *)

(** ** Sizes and times *)

Lemma halves_of_split (x : Z) :
  halves_of (to_DWORD (Z.shiftr (to_UINT64 x) 32)) (to_DWORD (Z.land x 0xFFFFFFFF)) x.
Proof.
  unfold halves_of, to_DWORD, to_UINT64.
  change 0xFFFFFFFF with (Z.ones 32).
  rewrite Z.land_ones, Z.shiftr_div_pow2 by lia.
  rewrite Z.mod_mod by lia.
  assert (H64 : 0 <= x mod 2 ^ 64 < 2 ^ 64) by (apply Z.mod_pos_bound; lia).
  assert (Hlo : 0 <= x mod 2 ^ 32 < 2 ^ 32) by (apply Z.mod_pos_bound; lia).
  assert (Hhi : 0 <= x mod 2 ^ 64 / 2 ^ 32 < 2 ^ 32).
  { split; [apply Z.div_pos; lia|].
    apply Z.div_lt_upper_bound; [lia|]. change (2 ^ 32 * 2 ^ 32) with (2 ^ 64). lia. }
  rewrite (Z.mod_small (x mod 2 ^ 64 / 2 ^ 32)) by exact Hhi.
  split; [|split; assumption].
  assert (E : x mod 2 ^ 32 = (x mod 2 ^ 64) mod 2 ^ 32).
  { change (2 ^ 64) with (2 ^ 32 * 2 ^ 32).
    rewrite Z.rem_mul_r by lia.
    rewrite (Z.mul_comm (2 ^ 32)), Z.mod_add by lia.
    rewrite Z.mod_mod by lia. reflexivity. }
  rewrite E.
  pose proof (Z.div_mod (x mod 2 ^ 64) (2 ^ 32)) as D. lia.
Qed.

Lemma filetime_of_halves (v : Z) :
  filetime_halves_of (filetime_of (to_UINT64 v)) v.
Proof.
  unfold filetime_halves_of, filetime_of. cbn [dwHighDateTime dwLowDateTime].
  pose proof (halves_of_split (to_UINT64 v)) as H.
  unfold halves_of in *. unfold to_UINT64 in *.
  rewrite !Z.mod_mod in H by lia. exact H.
Qed.

(** X1: the size and the three times [FindDataFromStat] stores are the
    exact 32-bit halves of the 64-bit values it was given (the size of
    the [stat] result, and what [STAT_TIME_TO_FILETIME] gives for the
    change, access and modification times): high half times 2^32 plus
    low half is the value again, nothing being lost; the two name fields
    and the reserved fields are left as they were and the result is
    [TRUE]. *)
Theorem FindDataFromStat_size_and_times (conv : Z -> Z) (path : string)
    (s : struct_stat) (r : WIN32_FIND_DATAA) :
  let r' := snd (FindDataFromStat conv path s r) in
  fst (FindDataFromStat conv path s r) = TRUE
  /\ halves_of (nFileSizeHigh r') (nFileSizeLow r') (st_size s)
  /\ filetime_halves_of (ftCreationTime r') (conv (st_ctime s))
  /\ filetime_halves_of (ftLastAccessTime r') (conv (st_atime s))
  /\ filetime_halves_of (ftLastWriteTime r') (conv (st_mtime s))
  /\ cFileName r' = cFileName r
  /\ cAlternateFileName r' = cAlternateFileName r
  /\ dwReserved0 r' = dwReserved0 r
  /\ dwReserved1 r' = dwReserved1 r.
Proof.
  cbn. repeat split; try reflexivity;
    try apply halves_of_split; try apply filetime_of_halves.
Qed.

(** ** Moving without flags *)

(** X2: [MoveFileA] never replaces: when the destination exists it
    returns [FALSE] with [ERROR_ALREADY_EXISTS] and nothing else changed,
    whatever the mode of the destination, and when the destination does
    not exist it returns what the native rename gives, recording the
    mapped error of a failing rename. *)
Theorem MoveFileA_never_replaces (env : Platform) (existing new : string)
    (st : State) :
  (destination_exists env new ->
   MoveFileA env existing new st
   = Ok FALSE (set_last_error ERROR_ALREADY_EXISTS st))
  /\ (~ destination_exists env new ->
      MoveFileA env existing new st
      = match rename_fs env existing new with
        | None => Ok TRUE st
        | Some errno => Ok FALSE (set_last_error (map_posix_err env errno) st)
        end).
Proof.
  unfold MoveFileA, MoveFileExA, destination_exists, MoveFileExA_rename.
  cbn [Z.land Z.eqb]. split.
  - intros [s ->]. reflexivity.
  - intros Hno. destruct (stat env new) as [s|e]; [exfalso; eauto|].
    destruct (rename_fs env existing new); reflexivity.
Qed.

Lemma MoveFileA_never_replaces_demo :
  MoveFileA demo_platform "/d/b.log" "/d/a.txt" demo_state
  = Ok FALSE (set_last_error ERROR_ALREADY_EXISTS demo_state).
Proof.
  apply (proj1 (MoveFileA_never_replaces demo_platform "/d/b.log" "/d/a.txt"
                  demo_state)).
  exists demo_reg. reflexivity.
Defined.

(** ** The two guards of the read and write entry points *)

(** X3: for every handle that resolves to an object whose table has a
    write entry, [WriteFile] with a null transferred-count pointer and a
    null overlapped pointer calls that entry and returns its result,
    while [ReadFile] with the same two null pointers returns [FALSE]
    without touching anything. *)
Theorem WriteFile_dispatches_where_ReadFile_refuses {World : Type}
    (objects : positive -> option (WINPR_HANDLE World))
    (getinfo : pointer -> bool) (hFile lpBuffer : pointer) (n : DWORD)
    (handle : WINPR_HANDLE World) (f : io_operation World) (w : World) :
  is_invalid_handle_value hFile = false ->
  getinfo hFile = true ->
  handle_object World objects hFile = Some handle ->
  ops_WriteFile (ops handle) = Some f ->
  WriteFile objects getinfo hFile lpBuffer n NULL NULL w
  = Some (f hFile lpBuffer n NULL NULL w)
  /\ ReadFile objects getinfo hFile lpBuffer n NULL NULL w = Some (FALSE, w).
Proof.
  intros Hi Hg Ho Hf. split.
  - unfold WriteFile. rewrite Hi, Hg, Ho, Hf. reflexivity.
  - apply ReadFile_rejects_null_outputs.
Qed.

Lemma WriteFile_dispatches_demo :
  WriteFile demo_objects demo_Handle_GetInfo (Addr 1) NULL 7 NULL NULL 5%nat
  = Some (counting_write (Addr 1) NULL 7 NULL NULL 5%nat)
  /\ ReadFile demo_objects demo_Handle_GetInfo (Addr 1) NULL 7 NULL NULL 5%nat
     = Some (FALSE, 5%nat).
Proof.
  apply (WriteFile_dispatches_where_ReadFile_refuses demo_objects
           demo_Handle_GetInfo (Addr 1) NULL 7 demo_handle counting_write 5%nat);
    reflexivity.
Defined.

(** ** A registry that could not be built *)

(** X4: when the list of creators cannot be allocated at the first call,
    [CreateFileA] returns the sentinel with [ERROR_DLL_INIT_FAILED], no
    creator being run, and the failure is permanent: the initialisation
    is marked as done, so every later call, for any name, gives the same
    result and leaves the process exactly as it is. *)
Theorem CreateFileA_failed_init_is_permanent {World : Type}
    (renv : RegistryEnv World) (name : string) (args : create_args)
    (p : Process World) :
  pthread_once_rc World renv = 0 ->
  ArrayList_New_succeeds World renv = false ->
  HandleCreatorsInitialized p = false ->
  HandleCreators p = None ->
  let p' := mk_process true None ERROR_DLL_INIT_FAILED (world p) in
  CreateFileA renv (Some name) args p = Some (INVALID_HANDLE_VALUE, p')
  /\ forall name' args',
       CreateFileA renv (Some name') args' p' = Some (INVALID_HANDLE_VALUE, p').
Proof.
  intros Hrc Hnew Hi Hc. destruct p as [i c e w]. cbn in Hi, Hc. subst i c.
  cbn [world]. split.
  - unfold CreateFileA, pthread_once_HandleCreatorsInit, HandleCreatorsInit.
    rewrite Hrc, Hnew. reflexivity.
  - intros name' args'.
    unfold CreateFileA, pthread_once_HandleCreatorsInit. rewrite Hrc. reflexivity.
Qed.

Lemma CreateFileA_failed_init_demo :
  CreateFileA demo_registry_env_no_list (Some "pipe"%string) demo_create_args
    demo_process
  = Some (INVALID_HANDLE_VALUE, mk_process true None ERROR_DLL_INIT_FAILED 0%nat)
  /\ forall name' args',
       CreateFileA demo_registry_env_no_list (Some name') args'
         (mk_process true None ERROR_DLL_INIT_FAILED 0%nat)
       = Some (INVALID_HANDLE_VALUE, mk_process true None ERROR_DLL_INIT_FAILED 0%nat).
Proof.
  apply (CreateFileA_failed_init_is_permanent demo_registry_env_no_list "pipe"
           demo_create_args demo_process); reflexivity.
Defined.

(** ** File modes *)

Lemma chmod_bits_land (old mode c : Z) :
  Z.land (chmod_bits old mode) c
  = Z.lor (Z.land old (Z.land (Z.lnot 0xFFF) c)) (Z.land mode (Z.land 0xFFF c)).
Proof.
  unfold chmod_bits. rewrite Z.land_lor_distr_l, <- !Z.land_assoc. reflexivity.
Qed.

Lemma chmod_bits_type (old mode : Z) :
  Z.land (chmod_bits old mode) S_IFMT = Z.land old S_IFMT.
Proof.
  rewrite chmod_bits_land.
  change (Z.land (Z.lnot 0xFFF) S_IFMT) with S_IFMT.
  change (Z.land 0xFFF S_IFMT) with 0.
  rewrite Z.land_0_r, Z.lor_0_r. reflexivity.
Qed.

Lemma chmod_bits_permissions (old mode : Z) :
  Z.land (chmod_bits old mode) 0xFFF = Z.land mode 0xFFF.
Proof.
  rewrite chmod_bits_land.
  change (Z.land (Z.lnot 0xFFF) 0xFFF) with 0.
  change (Z.land 0xFFF 0xFFF) with 0xFFF.
  rewrite Z.land_0_r, Z.lor_0_l. reflexivity.
Qed.

Lemma lor_below (n a b : Z) :
  0 <= n -> 0 <= a < 2 ^ n -> 0 <= b < 2 ^ n -> 0 <= Z.lor a b < 2 ^ n.
Proof.
  intros Hn Ha Hb.
  assert (H0 : 0 <= Z.lor a b) by (apply Z.lor_nonneg; lia).
  split; [exact H0|].
  destruct (Z.eq_dec (Z.lor a b) 0) as [E|E]; [rewrite E; lia|].
  assert (0 < n).
  { destruct (Z.eq_dec n 0) as [->|]; [|lia]. exfalso. apply E.
    change (2 ^ 0) with 1 in *. replace a with 0 by lia. replace b with 0 by lia.
    reflexivity. }
  apply Z.log2_lt_pow2; [lia|].
  rewrite Z.log2_lor by lia.
  apply Z.max_lub_lt.
  - destruct (Z.eq_dec a 0) as [->|Na]; [cbn; lia|].
    apply Z.log2_lt_pow2; lia.
  - destruct (Z.eq_dec b 0) as [->|Nb]; [cbn; lia|].
    apply Z.log2_lt_pow2; lia.
Qed.

Lemma UnixChangeFileMode_mode_digits_checked :
  forallb
    (fun s =>
       forallb
         (fun u =>
            forallb
              (fun g =>
                 forallb
                   (fun o =>
                      UnixChangeFileMode_mode (hex_flags s u g o)
                      =? octal_mode s u g o)
                   [0; 1; 2; 3; 4; 5; 6; 7])
              [0; 1; 2; 3; 4; 5; 6; 7])
         [0; 1; 2; 3; 4; 5; 6; 7])
    [0; 1; 2; 3; 4; 5; 6; 7]
  = true.
Proof. vm_compute. reflexivity. Qed.

Lemma octal_digit (d : Z) : 0 <= d <= 7 -> In d [0; 1; 2; 3; 4; 5; 6; 7].
Proof. intros H. cbn. lia. Qed.

(** X5: [UnixChangeFileMode] reads its flags as a mode written in
    hexadecimal with the digits of the octal mode: for digits [s], [u],
    [g] and [o] between 0 and 7 the flags [0xsugo] give the mode [0sugo],
    the one [chmod] is called with. *)
Theorem UnixChangeFileMode_reads_hex_digits_as_octal
    (may_chmod : string -> bool) (name : string) (s u g o : Z) (fs : Files) :
  0 <= s <= 7 -> 0 <= u <= 7 -> 0 <= g <= 7 -> 0 <= o <= 7 ->
  UnixChangeFileMode_mode (hex_flags s u g o) = octal_mode s u g o
  /\ UnixChangeFileMode may_chmod (Some name) (hex_flags s u g o) fs
     = chmod may_chmod name (octal_mode s u g o) fs.
Proof.
  intros Hs Hu Hg Ho.
  assert (E : UnixChangeFileMode_mode (hex_flags s u g o) = octal_mode s u g o).
  { pose proof UnixChangeFileMode_mode_digits_checked as H.
    rewrite List.forallb_forall in H.
    specialize (H s (octal_digit s Hs)). rewrite List.forallb_forall in H.
    specialize (H u (octal_digit u Hu)). rewrite List.forallb_forall in H.
    specialize (H g (octal_digit g Hg)). rewrite List.forallb_forall in H.
    specialize (H o (octal_digit o Ho)). apply Z.eqb_eq in H. exact H. }
  split; [exact E|]. unfold UnixChangeFileMode. rewrite E. reflexivity.
Qed.

Lemma UnixChangeFileMode_reads_hex_digits_demo :
  UnixChangeFileMode_mode 0x0644 = 420
  /\ UnixChangeFileMode permissive (Some "/d/a.txt"%string) 0x0644 demo_files
     = chmod permissive "/d/a.txt" 420 demo_files.
Proof.
  apply (UnixChangeFileMode_reads_hex_digits_as_octal permissive "/d/a.txt"
           0 6 4 4 demo_files); lia.
Defined.

Lemma flag_test_masked (flags c : Z) :
  Z.land 0x7777 c = c ->
  (Z.land (Z.land flags 0x7777) c =? 0) = (Z.land flags c =? 0).
Proof. intros H. rewrite <- Z.land_assoc, H. reflexivity. Qed.

Lemma UnixChangeFileMode_mode_range (flags : Z) :
  0 <= UnixChangeFileMode_mode flags < 2 ^ 12.
Proof.
  unfold UnixChangeFileMode_mode.
  repeat (apply lor_below; [lia| |]);
    try (match goal with |- context [if ?b then _ else _] => destruct b end);
    unfold S_ISUID, S_ISGID, S_ISVTX, S_IRUSR, S_IWUSR, S_IXUSR, S_IRGRP, S_IWGRP,
      S_IXGRP, S_IROTH, S_IWOTH, S_IXOTH; lia.
Qed.

(** X6: whatever the flags, the bit 8 of every hexadecimal digit and the
    bits above the fourth digit are ignored, and the mode built has the
    twelve permission bits only; a successful call leaves the type of the
    file and every other file as they were and sets the permission bits
    of the file to that mode; a failing call and a call without a file
    name change nothing. *)
Theorem UnixChangeFileMode_effect (may_chmod : string -> bool)
    (filename : option string) (flags : Z) (fs : Files) :
  let rc := fst (UnixChangeFileMode may_chmod filename flags fs) in
  let fs' := snd (UnixChangeFileMode may_chmod filename flags fs) in
  UnixChangeFileMode_mode flags = UnixChangeFileMode_mode (Z.land flags 0x7777)
  /\ 0 <= UnixChangeFileMode_mode flags <= 0xFFF
  /\ (rc = 0 \/ rc = -1)
  /\ descriptors fs' = descriptors fs
  /\ (rc = -1 -> fs' = fs)
  /\ (filename = None -> rc = -1)
  /\ (rc = 0 ->
      exists name old new,
        filename = Some name
        /\ file_mode fs !! name = Some old
        /\ file_mode fs' = <[name := new]> (file_mode fs)
        /\ Z.land new S_IFMT = Z.land old S_IFMT
        /\ Z.land new 0xFFF = UnixChangeFileMode_mode flags).
Proof.
  cbv zeta. split.
  { unfold UnixChangeFileMode_mode. rewrite !flag_test_masked by reflexivity.
    reflexivity. }
  split.
  { pose proof (UnixChangeFileMode_mode_range flags).
    change (2 ^ 12) with 4096 in *. lia. }
  unfold UnixChangeFileMode, chmod.
  destruct filename as [name|]; cbn [fst snd];
    [|repeat split; auto; intros; discriminate].
  destruct (file_mode fs !! name) as [old|] eqn:Hm; cbn [fst snd];
    [|repeat split; auto; intros; discriminate].
  destruct (may_chmod name); cbn [fst snd descriptors file_mode];
    [|repeat split; auto; intros; discriminate].
  repeat split; auto; try (intros; discriminate).
  intros _. exists name, old, (chmod_bits old (UnixChangeFileMode_mode flags)).
  repeat split; auto.
  - apply chmod_bits_type.
  - rewrite chmod_bits_permissions.
    pose proof (UnixChangeFileMode_mode_range flags) as R.
    change 0xFFF with (Z.ones 12). rewrite Z.land_ones by lia.
    apply Z.mod_small. exact R.
Qed.

Lemma UnixChangeFileMode_effect_demo :
  exists name old new,
    Some "/d/sub"%string = Some name
    /\ file_mode demo_files !! name = Some old
    /\ file_mode (snd (UnixChangeFileMode permissive (Some "/d/sub"%string) 0x8F750
                         demo_files))
       = <[name := new]> (file_mode demo_files)
    /\ Z.land new S_IFMT = Z.land old S_IFMT
    /\ Z.land new 0xFFF = UnixChangeFileMode_mode 0x8F750.
Proof.
  destruct (UnixChangeFileMode_effect permissive (Some "/d/sub"%string) 0x8F750
              demo_files) as (_ & _ & _ & _ & _ & _ & H).
  apply H. reflexivity.
Defined.

(** ** Setting the read-only attribute *)

(** The mode [SetFileAttributesA] asks for. *)
Lemma requested_mode_write_bits (ro : bool) (m : Z) :
  let m' := chmod_bits m (if ro then Z.land m no_write_mask else Z.lor m S_IWUSR) in
  Z.land m' S_IFMT = Z.land m S_IFMT
  /\ (if ro
      then Z.land m' (Z.lor (Z.lor S_IWUSR S_IWGRP) S_IWOTH) = 0
           /\ Z.land m' (Z.lnot (Z.lor (Z.lor S_IWUSR S_IWGRP) S_IWOTH))
              = Z.land m (Z.lnot (Z.lor (Z.lor S_IWUSR S_IWGRP) S_IWOTH))
      else m' = Z.lor m S_IWUSR).
Proof.
  cbv zeta. split; [apply chmod_bits_type|]. destruct ro.
  - split.
    + rewrite chmod_bits_land, <- Z.land_assoc.
      change (Z.land (Z.lnot 0xFFF) (Z.lor (Z.lor S_IWUSR S_IWGRP) S_IWOTH)) with 0.
      change (Z.land no_write_mask (Z.land 0xFFF (Z.lor (Z.lor S_IWUSR S_IWGRP) S_IWOTH)))
        with 0.
      rewrite !Z.land_0_r. reflexivity.
    + rewrite chmod_bits_land, <- Z.land_assoc, <- Z.land_lor_distr_r.
      reflexivity.
  - unfold chmod_bits. rewrite Z.land_lor_distr_l.
    change (Z.land S_IWUSR 0xFFF) with S_IWUSR.
    rewrite Z.lor_assoc, <- Z.land_lor_distr_r.
    change (Z.lor (Z.lnot 0xFFF) 0xFFF) with (-1).
    rewrite Z.land_m1_r. reflexivity.
Qed.

Section SetAttributes.

Variables may_open fstat_succeeds may_chmod : string -> bool.

(** The run of [SetFileAttributesA] when every step succeeds. *)
Lemma SetFileAttributesA_run (name : string) (attrs : DWORD) (fs : Files) (m : Z) :
  file_mode fs !! name = Some m ->
  may_open name = true -> fstat_succeeds name = true -> may_chmod name = true ->
  SetFileAttributesA may_open fstat_succeeds may_chmod name attrs fs
  = (TRUE,
     mk_files
       (<[name := chmod_bits m
                    (if negb (Z.land attrs FILE_ATTRIBUTE_READONLY =? 0)
                     then Z.land m no_write_mask else Z.lor m S_IWUSR)]>
          (file_mode fs))
       (descriptors fs)).
Proof.
  intros Hm Ho Hs Hc. destruct fs as [modes fds]. cbn [file_mode descriptors] in *.
  unfold SetFileAttributesA, open_rdonly, fstat, fchmod, chmod, close.
  cbn [file_mode descriptors]. rewrite Hm, Ho. cbn [file_mode descriptors].
  rewrite !lookup_insert_eq, Hs, !Hm, Hc. cbn [Z.eqb negb file_mode descriptors].
  rewrite delete_insert_eq, delete_id by (apply not_elem_of_dom, is_fresh).
  reflexivity.
Qed.

(** The run of [SetFileAttributesA] when a step fails. *)
Lemma SetFileAttributesA_fails (name : string) (attrs : DWORD) (fs : Files) :
  file_mode fs !! name = None \/ may_open name = false
  \/ fstat_succeeds name = false \/ may_chmod name = false ->
  SetFileAttributesA may_open fstat_succeeds may_chmod name attrs fs = (FALSE, fs).
Proof.
  intros H. destruct fs as [modes fds]. cbn [file_mode descriptors] in *.
  unfold SetFileAttributesA, open_rdonly, fstat, fchmod, chmod, close.
  cbn [file_mode descriptors].
  destruct (modes !! name) as [m|] eqn:Hm; [|reflexivity].
  destruct (may_open name) eqn:Ho; [|reflexivity].
  cbn [file_mode descriptors]. rewrite !lookup_insert_eq.
  assert (Hback : delete (fresh (dom fds)) (<[fresh (dom fds) := name]> fds) = fds).
  { rewrite delete_insert_eq. apply delete_id, not_elem_of_dom, is_fresh. }
  destruct (fstat_succeeds name) eqn:Hs; [|rewrite Hback; reflexivity].
  rewrite !Hm.
  destruct (may_chmod name) eqn:Hc.
  - exfalso. destruct H as [H|[H|[H|H]]]; discriminate.
  - cbn [Z.eqb negb file_mode descriptors]. rewrite Hback. reflexivity.
Qed.

End SetAttributes.

(** X7: [SetFileAttributesA] closes the descriptor it opened on every
    path, so the open descriptors are the ones before the call; it
    returns [TRUE] exactly when the file exists and opening it, [fstat]
    and [fchmod] all succeed; a failing call changes nothing; no other
    file is ever touched; and every attribute bit but the read-only bit
    is ignored. *)
Theorem SetFileAttributesA_outcome (may_open fstat_succeeds may_chmod : string -> bool)
    (name : string) (attrs : DWORD) (fs : Files) :
  let rc := fst (SetFileAttributesA may_open fstat_succeeds may_chmod name attrs fs) in
  let fs' := snd (SetFileAttributesA may_open fstat_succeeds may_chmod name attrs fs) in
  descriptors fs' = descriptors fs
  /\ (rc = TRUE <->
      is_Some (file_mode fs !! name) /\ may_open name = true
      /\ fstat_succeeds name = true /\ may_chmod name = true)
  /\ (rc = FALSE -> fs' = fs)
  /\ (forall other, other <> name -> file_mode fs' !! other = file_mode fs !! other)
  /\ SetFileAttributesA may_open fstat_succeeds may_chmod name attrs fs
     = SetFileAttributesA may_open fstat_succeeds may_chmod name
         (Z.land attrs FILE_ATTRIBUTE_READONLY) fs.
Proof.
  cbv zeta. split; [|split; [|split; [|split]]].
  5:{ unfold SetFileAttributesA. rewrite <- Z.land_assoc.
      change (Z.land FILE_ATTRIBUTE_READONLY FILE_ATTRIBUTE_READONLY)
        with FILE_ATTRIBUTE_READONLY. reflexivity. }
  all: destruct (file_mode fs !! name) as [m|] eqn:Hm;
    [|rewrite (SetFileAttributesA_fails _ _ _ name attrs fs) by (left; exact Hm);
      cbn [fst snd]; auto; try discriminate;
      try solve [split; [discriminate|intros (H & _); destruct H; discriminate]]].
  all: destruct (may_open name) eqn:Ho;
    [|rewrite (SetFileAttributesA_fails _ _ _ name attrs fs) by auto;
      cbn [fst snd]; auto; try discriminate;
      try solve [split; [discriminate|intros (_ & H & _); discriminate]]].
  all: destruct (fstat_succeeds name) eqn:Hs;
    [|rewrite (SetFileAttributesA_fails _ _ _ name attrs fs) by auto;
      cbn [fst snd]; auto; try discriminate;
      try solve [split; [discriminate|intros (_ & _ & H & _); discriminate]]].
  all: destruct (may_chmod name) eqn:Hc;
    [|rewrite (SetFileAttributesA_fails _ _ _ name attrs fs) by auto;
      cbn [fst snd]; auto; try discriminate;
      try solve [split; [discriminate|intros (_ & _ & _ & H); discriminate]]].
  all: rewrite (SetFileAttributesA_run _ _ _ name attrs fs m Hm Ho Hs Hc);
    cbn [fst snd descriptors file_mode].
  - reflexivity.
  - split; eauto.
  - discriminate.
  - intros other Hne. rewrite lookup_insert_ne by congruence. reflexivity.
Qed.

Lemma SetFileAttributesA_outcome_demo :
  fst (SetFileAttributesA permissive permissive permissive "/d/a.txt"
         FILE_ATTRIBUTE_READONLY demo_files) = TRUE.
Proof.
  destruct (SetFileAttributesA_outcome permissive permissive permissive "/d/a.txt"
              FILE_ATTRIBUTE_READONLY demo_files) as (_ & H & _).
  apply H. repeat split; try reflexivity. eexists. reflexivity.
Defined.

(** X8: after a successful [SetFileAttributesA] the type of the file is
    the one before; with the read-only attribute the three write bits are
    clear and every other bit is as before; without it the mode is the
    one before with the owner-write bit set; and the attributes
    [FindDataFromStat] then reports are the ones it reported before with
    the read-only bit replaced by the requested one. *)
Theorem SetFileAttributesA_mode (may_open fstat_succeeds may_chmod : string -> bool)
    (name : string) (attrs : DWORD) (fs fs' : Files) (m : Z) :
  file_mode fs !! name = Some m ->
  SetFileAttributesA may_open fstat_succeeds may_chmod name attrs fs = (TRUE, fs') ->
  exists m',
    file_mode fs' !! name = Some m'
    /\ Z.land m' S_IFMT = Z.land m S_IFMT
    /\ (has_attr attrs FILE_ATTRIBUTE_READONLY = true ->
        Z.land m' (Z.lor (Z.lor S_IWUSR S_IWGRP) S_IWOTH) = 0
        /\ Z.land m' (Z.lnot (Z.lor (Z.lor S_IWUSR S_IWGRP) S_IWOTH))
           = Z.land m (Z.lnot (Z.lor (Z.lor S_IWUSR S_IWGRP) S_IWOTH)))
    /\ (has_attr attrs FILE_ATTRIBUTE_READONLY = false -> m' = Z.lor m S_IWUSR)
    /\ forall path size ctime mtime atime,
         FindDataFromStat_attributes path (mk_stat m' size ctime mtime atime)
         = Z.lor
             (Z.land (FindDataFromStat_attributes path (mk_stat m size ctime mtime atime))
                (Z.lnot FILE_ATTRIBUTE_READONLY))
             (Z.land attrs FILE_ATTRIBUTE_READONLY).
Proof.
  intros Hm Hrun.
  assert (Hok : may_open name = true /\ fstat_succeeds name = true
                /\ may_chmod name = true).
  { destruct (may_open name) eqn:Ho;
      [|rewrite SetFileAttributesA_fails in Hrun by auto; discriminate].
    destruct (fstat_succeeds name) eqn:Hs;
      [|rewrite SetFileAttributesA_fails in Hrun by auto; discriminate].
    destruct (may_chmod name) eqn:Hc;
      [|rewrite SetFileAttributesA_fails in Hrun by auto; discriminate].
    auto. }
  destruct Hok as (Ho & Hs & Hc).
  rewrite (SetFileAttributesA_run _ _ _ name attrs fs m Hm Ho Hs Hc) in Hrun.
  inversion Hrun; subst fs'; clear Hrun. cbn [file_mode].
  set (ro := negb (Z.land attrs FILE_ATTRIBUTE_READONLY =? 0)).
  pose proof (requested_mode_write_bits ro m) as Hbits. cbv zeta in Hbits.
  set (m' := chmod_bits m (if ro then Z.land m no_write_mask else Z.lor m S_IWUSR)) in *.
  exists m'. rewrite lookup_insert_eq. destruct Hbits as [Htype Hw].
  split; [reflexivity|]. split; [exact Htype|].
  unfold has_attr. fold ro.
  split; [intros Hro; rewrite Hro in Hw; exact Hw|].
  split; [intros Hro; rewrite Hro in Hw; exact Hw|].
  intros path size ctime mtime atime.
  rewrite !attributes_value. cbn [st_mode].
  unfold S_ISDIR. rewrite Htype.
  assert (Hbit : (Z.land m' S_IWUSR =? 0) = ro).
  { destruct ro eqn:Hro.
    - destruct Hw as [Hz _].
      assert (E : Z.land m' S_IWUSR
                  = Z.land (Z.land m' (Z.lor (Z.lor S_IWUSR S_IWGRP) S_IWOTH)) S_IWUSR).
      { rewrite <- Z.land_assoc. reflexivity. }
      rewrite E, Hz. reflexivity.
    - rewrite Hw, Z.land_lor_distr_l.
      change (Z.land S_IWUSR S_IWUSR) with S_IWUSR.
      destruct (Z.eqb_spec (Z.lor (Z.land m S_IWUSR) S_IWUSR) 0) as [E|E]; [|reflexivity].
      apply Z.lor_eq_0_iff in E as [_ E]. discriminate. }
  rewrite Hbit.
  assert (Hattr : Z.land attrs FILE_ATTRIBUTE_READONLY
                  = if ro then FILE_ATTRIBUTE_READONLY else 0).
  { subst ro. unfold FILE_ATTRIBUTE_READONLY.
    change 1 with (Z.ones 1). rewrite Z.land_ones by lia.
    change (Z.ones 1) with 1. change (2 ^ 1) with 2.
    pose proof (Z.mod_pos_bound attrs 2). 
    destruct (Z.eqb_spec (attrs mod 2) 0); cbn [negb]; lia. }
  rewrite Hattr.
  destruct (Z.land m S_IFMT =? S_IFDIR);
    destruct (match strrchr path "/" with
              | Some t => hidden_name (str_next t)
              | None => false
              end);
    destruct (Z.land m S_IWUSR =? 0); destruct ro; reflexivity.
Qed.

Lemma SetFileAttributesA_mode_demo :
  exists m',
    file_mode
      (snd (SetFileAttributesA permissive permissive permissive "/d/a.txt"
              FILE_ATTRIBUTE_READONLY demo_files)) !! "/d/a.txt"%string = Some m'
    /\ Z.land m' S_IFMT = Z.land 0x81B6 S_IFMT
    /\ (has_attr FILE_ATTRIBUTE_READONLY FILE_ATTRIBUTE_READONLY = true ->
        Z.land m' (Z.lor (Z.lor S_IWUSR S_IWGRP) S_IWOTH) = 0
        /\ Z.land m' (Z.lnot (Z.lor (Z.lor S_IWUSR S_IWGRP) S_IWOTH))
           = Z.land 0x81B6 (Z.lnot (Z.lor (Z.lor S_IWUSR S_IWGRP) S_IWOTH)))
    /\ (has_attr FILE_ATTRIBUTE_READONLY FILE_ATTRIBUTE_READONLY = false ->
        m' = Z.lor 0x81B6 S_IWUSR)
    /\ forall path size ctime mtime atime,
         FindDataFromStat_attributes path (mk_stat m' size ctime mtime atime)
         = Z.lor
             (Z.land
                (FindDataFromStat_attributes path (mk_stat 0x81B6 size ctime mtime atime))
                (Z.lnot FILE_ATTRIBUTE_READONLY))
             (Z.land FILE_ATTRIBUTE_READONLY FILE_ATTRIBUTE_READONLY).
Proof.
  apply (SetFileAttributesA_mode permissive permissive permissive "/d/a.txt"
           FILE_ATTRIBUTE_READONLY demo_files).
  - reflexivity.
  - vm_compute. reflexivity.
Defined.

(** X9: making a file read-only and then writable again does not give
    the mode back: of the three write bits only the one of the owner is
    set afterwards, whatever they were, every other bit being as it was;
    no descriptor is left open. *)
Theorem SetFileAttributesA_readonly_then_writable
    (may_open fstat_succeeds may_chmod : string -> bool) (name : string)
    (attrs1 attrs2 : DWORD) (fs fs1 fs2 : Files) (m : Z) :
  file_mode fs !! name = Some m ->
  has_attr attrs1 FILE_ATTRIBUTE_READONLY = true ->
  has_attr attrs2 FILE_ATTRIBUTE_READONLY = false ->
  SetFileAttributesA may_open fstat_succeeds may_chmod name attrs1 fs = (TRUE, fs1) ->
  SetFileAttributesA may_open fstat_succeeds may_chmod name attrs2 fs1 = (TRUE, fs2) ->
  exists m2,
    file_mode fs2 !! name = Some m2
    /\ Z.land m2 (Z.lor (Z.lor S_IWUSR S_IWGRP) S_IWOTH) = S_IWUSR
    /\ Z.land m2 (Z.lnot (Z.lor (Z.lor S_IWUSR S_IWGRP) S_IWOTH))
       = Z.land m (Z.lnot (Z.lor (Z.lor S_IWUSR S_IWGRP) S_IWOTH))
    /\ descriptors fs2 = descriptors fs.
Proof.
  intros Hm Hro1 Hro2 Hrun1 Hrun2. unfold has_attr in Hro1, Hro2.
  assert (Hok : may_open name = true /\ fstat_succeeds name = true
                /\ may_chmod name = true).
  { destruct (may_open name) eqn:Ho;
      [|rewrite SetFileAttributesA_fails in Hrun1 by auto; discriminate].
    destruct (fstat_succeeds name) eqn:Hs;
      [|rewrite SetFileAttributesA_fails in Hrun1 by auto; discriminate].
    destruct (may_chmod name) eqn:Hc;
      [|rewrite SetFileAttributesA_fails in Hrun1 by auto; discriminate].
    auto. }
  destruct Hok as (Ho & Hs & Hc).
  rewrite (SetFileAttributesA_run _ _ _ name attrs1 fs m Hm Ho Hs Hc), Hro1 in Hrun1.
  inversion Hrun1; subst fs1; clear Hrun1.
  set (m1 := chmod_bits m (Z.land m no_write_mask)) in *.
  rewrite (SetFileAttributesA_run _ _ _ name attrs2 _ m1) in Hrun2;
    [|cbn [file_mode]; apply lookup_insert_eq|exact Ho|exact Hs|exact Hc].
  rewrite Hro2 in Hrun2. inversion Hrun2; subst fs2; clear Hrun2.
  cbn [file_mode descriptors].
  destruct (requested_mode_write_bits true m) as [_ [Hz Hrest]]. fold m1 in Hz, Hrest.
  destruct (requested_mode_write_bits false m1) as [_ Hw]. cbv beta iota in Hw.
  exists (Z.lor m1 S_IWUSR). rewrite lookup_insert_eq, Hw.
  split; [reflexivity|]. rewrite !Z.land_lor_distr_l, Hz, Hrest.
  split; [reflexivity|]. split; [|reflexivity].
  change (Z.land S_IWUSR (Z.lnot (Z.lor (Z.lor S_IWUSR S_IWGRP) S_IWOTH))) with 0.
  apply Z.lor_0_r.
Qed.

Lemma SetFileAttributesA_readonly_then_writable_demo :
  exists m2,
    file_mode
      (snd (SetFileAttributesA permissive permissive permissive "/d/a.txt" 0x80
              (snd (SetFileAttributesA permissive permissive permissive "/d/a.txt"
                      FILE_ATTRIBUTE_READONLY demo_files)))) !! "/d/a.txt"%string
    = Some m2
    /\ Z.land m2 (Z.lor (Z.lor S_IWUSR S_IWGRP) S_IWOTH) = S_IWUSR
    /\ Z.land m2 (Z.lnot (Z.lor (Z.lor S_IWUSR S_IWGRP) S_IWOTH))
       = Z.land 0x81B6 (Z.lnot (Z.lor (Z.lor S_IWUSR S_IWGRP) S_IWOTH))
    /\ descriptors
         (snd (SetFileAttributesA permissive permissive permissive "/d/a.txt" 0x80
                 (snd (SetFileAttributesA permissive permissive permissive "/d/a.txt"
                         FILE_ATTRIBUTE_READONLY demo_files))))
       = descriptors demo_files.
Proof.
  apply (SetFileAttributesA_readonly_then_writable permissive permissive permissive
           "/d/a.txt" FILE_ATTRIBUTE_READONLY 0x80 demo_files
           (snd (SetFileAttributesA permissive permissive permissive "/d/a.txt"
                   FILE_ATTRIBUTE_READONLY demo_files))
           _ 0x81B6).
  - reflexivity.
  - reflexivity.
  - reflexivity.
  - vm_compute. reflexivity.
  - vm_compute. reflexivity.
Defined.

(** ** Listing a directory *)

Lemma reported_records_skipped (env : Platform) (path pattern : string)
    (pre rest : list string) :
  Forall (fun n => skipped (entry_fate_of env path pattern n)) pre ->
  reported_records env path pattern (pre ++ rest)
  = reported_records env path pattern rest.
Proof.
  intros H. induction H as [|x pre Hx _ IH]; [reflexivity|].
  unfold reported_records in *. cbn [app flat_map]. rewrite IH.
  destruct (entry_fate_of env path pattern x); try reflexivity. destruct Hx.
Qed.

Lemma reported_records_first (env : Platform) (path pattern name : string)
    (s : struct_stat) (post : list string) :
  entry_fate_of env path pattern name = Reported s ->
  reported_records env path pattern (name :: post)
  = record_of env path name s :: reported_records env path pattern post.
Proof. intros H. unfold reported_records. cbn [flat_map]. rewrite H. reflexivity. Qed.

Lemma first_reported_split (env : Platform) (path pattern : string) (es : list string) :
  Forall (fun n => skipped (entry_fate_of env path pattern n)) es
  \/ exists pre name s post,
       es = pre ++ name :: post
       /\ Forall (fun n => skipped (entry_fate_of env path pattern n)) pre
       /\ entry_fate_of env path pattern name = Reported s.
Proof.
  induction es as [|x es IH]; [left; constructor|].
  destruct (entry_fate_of env path pattern x) as [|e| |s] eqn:Hx.
  4:{ right. exists [], x, s, es. repeat split; auto. }
  all: destruct IH as [IH|(pre & name & s & post & -> & Hpre & Hn)];
    [left; constructor; [rewrite Hx; exact I|exact IH]
    |right; exists (x :: pre), name, s, post; repeat split; auto;
     constructor; [rewrite Hx; exact I|exact Hpre]].
Qed.

(** The calls that list what is left of a stream. *)
Lemma FindNextFileA_all_run (env : Platform) (h rec p1 p2 d : positive)
    (path pattern : string) (c : ascii) :
  last_char path = Some c ->
  forall (n : nat) (es : list string) (hp : gmap positive block)
         (ds : gmap positive (list string)) (err : DWORD) (r : WIN32_FIND_DATAA),
    hp !! h = Some (BSearch (mk_search file_search_magic (Addr p1) (Addr p2) (Some d))) ->
    hp !! p1 = Some (BString path) ->
    hp !! p2 = Some (BString pattern) ->
    hp !! rec = Some (BFindDataA r) ->
    ds !! d = Some es ->
    (length (reported_records env path pattern es) < n)%nat ->
    exists r',
      FindNextFileA_all env n (Addr h) (Addr rec) (mk_state hp ds err [])
      = Ok (reported_records env path pattern es)
          (mk_state (<[rec := BFindDataA r']> hp) (<[d := []]> ds)
             ERROR_NO_MORE_FILES []).
Proof.
  intros Hc n. induction n as [|n IH]; intros es hp ds err r Hh H1 H2 Hr Hd Hn; [lia|].
  assert (Hrh : rec <> h) by congruence.
  assert (Hr1 : rec <> p1) by congruence.
  assert (Hr2 : rec <> p2) by congruence.
  cbn [FindNextFileA_all]. bind_step.
  destruct (first_reported_split env path pattern es)
    as [Hall|(pre & name & s & post & -> & Hpre & Hname)].
  - rewrite (FindNextFileA_none env h rec p1 p2 d path pattern c es hp ds err r
               Hc Hh H1 H2 Hr Hd Hall).
    unfold FALSE. cbv beta iota.
    pose proof (reported_records_skipped env path pattern es [] Hall) as E.
    rewrite app_nil_r in E. rewrite E. eexists. reflexivity.
  - rewrite (FindNextFileA_reports env h rec p1 p2 d path pattern c pre post name s
               hp ds err r Hc Hh H1 H2 Hr Hd Hpre Hname).
    unfold TRUE. cbv beta iota.
    rewrite reported_records_skipped, (reported_records_first _ _ _ _ s) in * by assumption.
    cbn [length] in Hn.
    unfold load_find_data, load. bind_step. cbn [heap]. rewrite lookup_insert_eq.
    destruct (IH post (<[rec := BFindDataA (record_of env path name s)]> hp)
                (<[d := post]> ds) (error_after env path pattern pre err)
                (record_of env path name s)) as [r' E];
      rewrite ?lookup_insert_eq, ?lookup_insert_ne by congruence; auto; [lia|].
    rewrite E. rewrite !insert_insert_eq. exists r'. reflexivity.
Qed.

(** X10: on a valid search handle, while no allocation fails, the calls
    of [FindNextFileA] made until [FALSE] comes back report the entries
    left in the stream that match the pattern, whose [stat] succeeds and
    that are no FIFO: each of them once, in the order of the stream, with
    the record translated from its [stat] result, and nothing else. The
    stream is then at its end, the last error is [ERROR_NO_MORE_FILES],
    the search object is still valid and no block but the record has
    changed. *)
Theorem FindNextFileA_lists_what_is_left (env : Platform) (st : State)
    (h rec d : positive) (path pattern : string) (es : list string) (n : nat) :
  search_object st h path pattern d es ->
  find_record st rec ->
  path <> EmptyString ->
  oom st = [] ->
  (length (reported_records env path pattern es) < n)%nat ->
  exists st',
    FindNextFileA_all env n (Addr h) (Addr rec) st
    = Ok (reported_records env path pattern es) st'
    /\ search_object st' h path pattern d []
    /\ find_record st' rec
    /\ last_error st' = ERROR_NO_MORE_FILES
    /\ oom st' = []
    /\ forall a, a <> rec -> heap st' !! a = heap st !! a.
Proof.
  intros (p1 & p2 & Hh & H1 & H2 & Hp & Hd) [r Hr] Hne Ho Hn.
  destruct (last_char_nonempty path Hne) as [c Hc].
  destruct st as [hp ds err o]. cbn [heap dirs last_error oom] in *. subst o.
  destruct (FindNextFileA_all_run env h rec p1 p2 d path pattern c Hc n es hp ds err r
              Hh H1 H2 Hr Hd Hn) as [r' E].
  eexists. split; [exact E|]. cbn [heap dirs last_error oom].
  assert (Hrh : rec <> h) by congruence.
  assert (Hr1 : rec <> p1) by congruence.
  assert (Hr2 : rec <> p2) by congruence.
  split.
  { exists p1, p2. cbn [heap dirs].
    rewrite !lookup_insert_ne by congruence. rewrite lookup_insert_eq. auto. }
  split; [exists r'; cbn [heap]; apply lookup_insert_eq|].
  repeat split. intros a Ha. rewrite lookup_insert_ne by congruence. reflexivity.
Qed.

Lemma FindNextFileA_lists_what_is_left_demo :
  exists st',
    FindNextFileA_all demo_platform 3 (Addr 2) (Addr 1) demo_listing_state
    = Ok (reported_records demo_platform "/d/" "*"
            ["gone"; "pipe"; "a.txt"; "b.log"]%string) st'
    /\ search_object st' 2 "/d/" "*" 1 []
    /\ find_record st' 1
    /\ last_error st' = ERROR_NO_MORE_FILES
    /\ oom st' = []
    /\ forall a, a <> 1%positive -> heap st' !! a = heap demo_listing_state !! a.
Proof.
  apply (FindNextFileA_lists_what_is_left demo_platform demo_listing_state 2 1 1
           "/d/" "*" ["gone"; "pipe"; "a.txt"; "b.log"]%string 3
           (demo_search_object _) (demo_find_record _)).
  - discriminate.
  - reflexivity.
  - vm_compute. lia.
Defined.

(** ** Handles that are not search handles *)

(** X11: [FindNextFileA] zeroes the caller's record before it looks at
    the handle: for the null handle, for the sentinel and for a pointer
    to a character buffer that does not begin with the search tag it
    returns [FALSE] with the record all zero, the last error and every
    other block being as they were; with a null record it returns
    [FALSE] and changes nothing. *)
Theorem FindNextFileA_rejects_other_handles (env : Platform) (st : State)
    (rec : positive) (h : pointer) :
  find_record st rec ->
  h = NULL \/ h = INVALID_HANDLE_VALUE
  \/ (exists a s, h = Addr a /\ heap st !! a = Some (BString s)
                  /\ strncmp file_search_magic s sizeof_file_search_magic <> 0) ->
  FindNextFileA env h (Addr rec) st
  = Ok FALSE (set_heap (<[rec := BFindDataA empty_find_data]> (heap st)) st)
  /\ FindNextFileA env h NULL st = Ok FALSE st.
Proof.
  intros [r Hr] Hh. split; [|reflexivity].
  destruct st as [hp ds err o]. cbn [heap] in *.
  unfold FindNextFileA. cbn [is_null]. bind_step.
  rewrite (store_find_data_run rec r _ hp ds err o Hr).
  destruct Hh as [->|[->|(a & s & -> & Ha & Hs)]]; try reflexivity.
  assert (Hne : a <> rec) by congruence.
  unfold is_valid_file_search_handle, load. bind_step. cbn [heap].
  rewrite lookup_insert_ne by congruence. rewrite Ha. cbn [leading_bytes].
  destruct (Z.eqb_spec (strncmp file_search_magic s sizeof_file_search_magic) 0);
    [contradiction|reflexivity].
Qed.

Lemma FindNextFileA_rejects_other_handles_demo :
  FindNextFileA demo_platform (Addr 3) (Addr 1) demo_listing_state
  = Ok FALSE
      (set_heap (<[1%positive := BFindDataA empty_find_data]> (heap demo_listing_state))
         demo_listing_state)
  /\ FindNextFileA demo_platform (Addr 3) NULL demo_listing_state
     = Ok FALSE demo_listing_state.
Proof.
  apply (FindNextFileA_rejects_other_handles demo_platform demo_listing_state 1
           (Addr 3) (demo_find_record _)).
  right. right. exists 3%positive, "/d/"%string.
  split; [reflexivity|]. split; [reflexivity|]. vm_compute. discriminate.
Defined.

(** ** Opening a search *)

(** [file_search_new] when the directory part opens and no allocation
    fails. *)
Lemma file_search_new_opens (env : Platform) (name : string) (namelen : nat)
    (pattern : string) (patternlen : nat) (hp : gmap positive block)
    (ds : gmap positive (list string)) (err : DWORD) (es : list string) :
  opendir_fs env (str_take namelen name) = Some es ->
  exists p p1 p2 d,
    file_search_new env name namelen pattern patternlen (mk_state hp ds err [])
    = Ok (Addr p)
        (mk_state
           (<[p := BSearch (mk_search file_search_magic (Addr p1) (Addr p2) (Some d))]>
              (<[p2 := BString (str_take patternlen pattern)]>
                 (<[p1 := BString (str_take namelen name)]> hp)))
           (<[d := es]> ds) err [])
    /\ hp !! p = None /\ hp !! p1 = None /\ hp !! p2 = None
    /\ p1 <> p /\ p2 <> p /\ p1 <> p2 /\ ds !! d = None.
Proof.
  intros Hop.
  destruct (file_search_new_run env name namelen pattern patternlen hp ds err [])
    as (res & st1 & E & Herr & Ho & Hcases).
  destruct st1 as [hp1 ds1 err1 o1]. cbn [heap dirs last_error oom] in *.
  subst err1. rewrite (Ho eq_refl) in E.
  destruct Hcases as [(_ & _ & _ & [Hne|Hno])
                     |(p & p1 & p2 & d & path & pat & es' & -> & Hp & H1 & H2
                       & N1 & N2 & N12 & Hd & -> & -> & Hop' & Hwhich)];
    [congruence|congruence|].
  destruct Hwhich as [[-> ->]|(_ & _ & Hno)]; [|congruence].
  assert (es' = es) by congruence. subst es'.
  exists p, p1, p2, d. split; [exact E|]. auto 10.
Qed.

(** The retry of [file_search_new] when the whole name is a directory
    that opens and no allocation fails. *)
Lemma file_search_new_fallback_opens (env : Platform) (name path pat : string)
    (p p1 p2 : positive) (hp : gmap positive block)
    (ds : gmap positive (list string)) (err : DWORD) (s : struct_stat)
    (es : list string) :
  hp !! p = None -> hp !! p1 = None -> hp !! p2 = None ->
  p1 <> p -> p2 <> p -> p1 <> p2 ->
  stat env name = StatOk s -> S_ISDIR (st_mode s) = true ->
  opendir_fs env name = Some es ->
  exists q1 q2 d,
    file_search_new_fallback env (Addr p) name
      (mk_state
         (<[p := BSearch (mk_search file_search_magic (Addr p1) (Addr p2) None)]>
            (<[p2 := BString pat]> (<[p1 := BString path]> hp)))
         ds err [])
    = Ok tt
        (mk_state
           (<[p := BSearch (mk_search file_search_magic (Addr q1) (Addr q2) (Some d))]>
              (<[q2 := BString "*"]> (<[q1 := BString name]> hp)))
           (<[d := es]> ds) err [])
    /\ ds !! d = None /\ hp !! q1 = None /\ hp !! q2 = None
    /\ q1 <> p /\ q2 <> p /\ q1 <> q2.
Proof.
  intros Hp H1 H2 N1 N2 N12 Hst Hdir Hop.
  pose proof (owns_two_strings hp p p1 p2 (BString path) (BString pat)
                Hp H1 H2 N1 N2 N12) as Hown.
  unfold file_search_new_fallback. rewrite Hst, Hdir.
  bind_step. rewrite opendir_run, Hop.
  set (d := fresh (dom ds)).
  assert (Hd : ds !! d = None) by apply fresh_dirs_None.
  rewrite update_search_run. fields. rewrite load_search_run. fields.
  rewrite free_under; [|congruence|rewrite lookup_insert_ne, lookup_insert_eq by congruence; eauto].
  rewrite free_under; [|congruence|rewrite lookup_delete_ne, lookup_insert_eq by congruence; eauto].
  assert (Hbase : delete p2 (delete p1 (<[p2 := BString pat]> (<[p1 := BString path]> hp))) = hp).
  { destruct Hown as (_ & _ & _ & E). exact E. }
  rewrite Hbase.
  destruct (alloc_under p (BSearch (mk_search file_search_magic (Addr p1) (Addr p2) (Some d)))
              (BString name) hp (<[d := es]> ds) err []) as (q1 & E1 & F1).
  rewrite E1. rewrite update_search_run. fields.
  destruct q1 as [| |a1]; [exfalso; apply F1; reflexivity|destruct F1|].
  cbn [tail] in *.
  destruct (alloc_under p (BSearch (mk_search file_search_magic (Addr a1) (Addr p2) (Some d)))
              (BString "*") (<[a1 := BString name]> hp) (<[d := es]> ds) err [])
    as (q2 & E2 & F2).
  rewrite E2. rewrite update_search_run. fields.
  destruct q2 as [| |a2]; [exfalso; apply F2; reflexivity|destruct F2|].
  cbn [tail]. cbv beta iota.
  destruct F1 as [Na1 Ha1]. destruct F2 as [Na2 Ha2].
  apply lookup_insert_None in Ha2 as [Ha2 Na12].
  exists a1, a2, d. split; [reflexivity|]. auto 10.
Qed.

(** [file_search_new] when the directory part does not open, the whole
    name is a directory that opens and no allocation fails. *)
Lemma file_search_new_falls_back (env : Platform) (name : string) (namelen : nat)
    (pattern : string) (patternlen : nat) (hp : gmap positive block)
    (ds : gmap positive (list string)) (err : DWORD) (s : struct_stat)
    (es : list string) :
  opendir_fs env (str_take namelen name) = None ->
  stat env name = StatOk s -> S_ISDIR (st_mode s) = true ->
  opendir_fs env name = Some es ->
  exists p p1 p2 d,
    file_search_new env name namelen pattern patternlen (mk_state hp ds err [])
    = Ok (Addr p)
        (mk_state
           (<[p := BSearch (mk_search file_search_magic (Addr p1) (Addr p2) (Some d))]>
              (<[p2 := BString "*"]> (<[p1 := BString name]> hp)))
           (<[d := es]> ds) err [])
    /\ hp !! p = None /\ hp !! p1 = None /\ hp !! p2 = None
    /\ p1 <> p /\ p2 <> p /\ p1 <> p2 /\ ds !! d = None.
Proof.
  intros Hno Hst Hdir Hop.
  unfold file_search_new. bind_step. rewrite alloc_run.
  cbn [alloc_fails tail]. cbv beta iota. fields.
  set (p := fresh (dom hp)).
  assert (Hp : hp !! p = None) by apply fresh_heap_None.
  rewrite update_search_run. fields.
  destruct (alloc_under p (BSearch (mk_search file_search_magic NULL NULL None))
              (BString (str_take namelen name)) hp ds err []) as (q1 & E1 & F1).
  rewrite E1. rewrite update_search_run. fields.
  destruct q1 as [| |p1]; [exfalso; apply F1; reflexivity|destruct F1|].
  cbn [tail] in *.
  destruct (alloc_under p (BSearch (mk_search file_search_magic (Addr p1) NULL None))
              (BString (str_take patternlen pattern))
              (<[p1 := BString (str_take namelen name)]> hp) ds err [])
    as (q2 & E2 & F2).
  rewrite E2. rewrite update_search_run. fields.
  destruct q2 as [| |p2]; [exfalso; apply F2; reflexivity|destruct F2|].
  cbn [tail]. cbv beta iota.
  destruct F1 as [N1 H1]. destruct F2 as [N2 H2].
  apply lookup_insert_None in H2 as [H2 N12].
  rewrite (load_string_run p1 (str_take namelen name))
    by (rewrite lookup_insert_ne, lookup_insert_ne, lookup_insert_eq by congruence;
        reflexivity).
  rewrite opendir_run, Hno.
  rewrite update_search_run. fields.
  destruct (file_search_new_fallback_opens env name (str_take namelen name)
              (str_take patternlen pattern) p p1 p2 hp ds err s es
              Hp H1 H2 N1 N2 N12 Hst Hdir Hop)
    as (q1 & q2 & d & Ef & Hd & Hq1 & Hq2 & Nq1 & Nq2 & Nq).
  rewrite Ef. rewrite load_search_run. fields.
  exists p, q1, q2, d. split; [reflexivity|]. auto 10.
Qed.

(** [FindFirstFileA] from the search object on, when the first names of
    the stream are passed over and the next one is reported. *)
Lemma FindFirstFileA_from_object (env : Platform) (rec p p1 p2 d : positive)
    (path pat : string) (c : ascii) (pre post : list string) (e : string)
    (s : struct_stat) (hp : gmap positive block) (ds : gmap positive (list string))
    (err : DWORD) (r0 : WIN32_FIND_DATAA) :
  last_char path = Some c ->
  hp !! rec = Some (BFindDataA r0) ->
  hp !! p = None -> hp !! p1 = None -> hp !! p2 = None ->
  p1 <> p -> p2 <> p -> p1 <> p2 ->
  Forall (fun n => skipped (entry_fate_of env path pat n)) pre ->
  entry_fate_of env path pat e = Reported s ->
  FindNextFileA env (Addr p) (Addr rec)
    (mk_state
       (<[p := BSearch (mk_search file_search_magic (Addr p1) (Addr p2) (Some d))]>
          (<[p2 := BString pat]>
             (<[p1 := BString path]> (<[rec := BFindDataA empty_find_data]> hp))))
       (<[d := pre ++ e :: post]> ds) err [])
  = Ok TRUE
      (mk_state
         (<[rec := BFindDataA (record_of env path e s)]>
            (<[p := BSearch (mk_search file_search_magic (Addr p1) (Addr p2) (Some d))]>
               (<[p2 := BString pat]> (<[p1 := BString path]> hp))))
         (<[d := post]> ds) (error_after env path pat pre err) []).
Proof.
  intros Hc Hr Hp H1 H2 N1 N2 N12 Hpre He.
  assert (Nr : rec <> p) by congruence.
  assert (Nr1 : rec <> p1) by congruence.
  assert (Nr2 : rec <> p2) by congruence.
  rewrite (FindNextFileA_reports env p rec p1 p2 d path pat c pre post e s _
             (<[d := pre ++ e :: post]> ds) err empty_find_data Hc);
    rewrite ?lookup_insert_eq, ?lookup_insert_ne by congruence;
    rewrite ?lookup_insert_eq; auto.
  rewrite insert_insert_eq.
  rewrite (insert_insert_ne _ rec p) by congruence.
  rewrite (insert_insert_ne _ rec p2) by congruence.
  rewrite (insert_insert_ne _ rec p1) by congruence.
  rewrite insert_insert_eq.
  rewrite <- (insert_insert_ne _ rec p1) by congruence.
  rewrite <- (insert_insert_ne _ rec p2) by congruence.
  rewrite <- (insert_insert_ne _ rec p) by congruence.
  reflexivity.
Qed.

(** The head of [FindFirstFileA] for a name [dir/pattern]. *)
Lemma FindFirstFileA_head (env : Platform) (rec : positive) (r : WIN32_FIND_DATAA)
    (hp : gmap positive block) (ds : gmap positive (list string)) (err : DWORD)
    (o : list bool) (dir pattern : string) :
  hp !! rec = Some (BFindDataA r) ->
  pattern <> EmptyString ->
  has_char "/" pattern = false ->
  FindFirstFileA env (Some ((dir ++ "/") ++ pattern)%string) (Addr rec)
    (mk_state hp ds err o)
  = match file_search_new env ((dir ++ "/") ++ pattern) (strlen (dir ++ "/"))
            pattern (strlen pattern)
            (mk_state (<[rec := BFindDataA empty_find_data]> hp) ds err o) with
    | Ok pFileSearch st1 =>
        if is_null pFileSearch then
          Ok INVALID_HANDLE_VALUE (set_last_error ERROR_NOT_ENOUGH_MEMORY st1)
        else
          match FindNextFileA env pFileSearch (Addr rec) st1 with
          | Ok found st2 =>
              if (found : BOOL) then Ok pFileSearch st2
              else
                match FindClose pFileSearch st2 with
                | Ok _ st3 => Ok INVALID_HANDLE_VALUE st3
                | Fault => Fault
                end
          | Fault => Fault
          end
    | Fault => Fault
    end.
Proof.
  intros Hr Hpat Hsep.
  unfold FindFirstFileA. cbn [is_null]. bind_step.
  rewrite (store_find_data_run rec r _ hp ds err o Hr).
  rewrite (strrchr_dir_pattern dir pattern Hsep). cbn [str_next].
  destruct (strlen pattern =? 0)%nat eqn:Hlen;
    [apply strlen_zero in Hlen; congruence|].
  rewrite strlen_app.
  replace (strlen (dir ++ "/") + strlen pattern - strlen pattern)%nat
    with (strlen (dir ++ "/")) by lia.
  destruct (file_search_new env ((dir ++ "/") ++ pattern) (strlen (dir ++ "/"))
              pattern (strlen pattern)
              (mk_state (<[rec := BFindDataA empty_find_data]> hp) ds err o))
    as [q st1|]; [|reflexivity].
  destruct (is_null q); [reflexivity|].
  destruct (FindNextFileA env q (Addr rec) st1) as [found st2|]; [|reflexivity].
  destruct found; reflexivity.
Qed.

(** [FindFirstFileA] when the directory part opens, the first names are
    passed over, the next one is reported and no allocation fails. *)
Lemma FindFirstFileA_first_run (env : Platform) (rec : positive)
    (r : WIN32_FIND_DATAA) (hp : gmap positive block)
    (ds : gmap positive (list string)) (err : DWORD)
    (dir pattern : string) (pre post : list string) (e : string) (s : struct_stat) :
  hp !! rec = Some (BFindDataA r) ->
  pattern <> EmptyString ->
  has_char "/" pattern = false ->
  opendir_fs env (dir ++ "/") = Some (pre ++ e :: post) ->
  Forall (fun n => skipped (entry_fate_of env (dir ++ "/") pattern n)) pre ->
  entry_fate_of env (dir ++ "/") pattern e = Reported s ->
  exists p p1 p2 d,
    FindFirstFileA env (Some ((dir ++ "/") ++ pattern)%string) (Addr rec)
      (mk_state hp ds err [])
    = Ok (Addr p)
        (mk_state
           (<[rec := BFindDataA (record_of env (dir ++ "/") e s)]>
              (<[p := BSearch (mk_search file_search_magic (Addr p1) (Addr p2) (Some d))]>
                 (<[p2 := BString pattern]> (<[p1 := BString (dir ++ "/")]> hp))))
           (<[d := post]> ds) (error_after env (dir ++ "/") pattern pre err) [])
    /\ hp !! p = None /\ hp !! p1 = None /\ hp !! p2 = None
    /\ p1 <> p /\ p2 <> p /\ p1 <> p2 /\ ds !! d = None.
Proof.
  intros Hr Hpat Hsep Hop Hpre He.
  rewrite (FindFirstFileA_head env rec r hp ds err [] dir pattern Hr Hpat Hsep).
  destruct (file_search_new_opens env ((dir ++ "/") ++ pattern) (strlen (dir ++ "/"))
              pattern (strlen pattern) (<[rec := BFindDataA empty_find_data]> hp)
              ds err (pre ++ e :: post))
    as (p & p1 & p2 & d & E & Hp & H1 & H2 & N1 & N2 & N12 & Hd).
  { rewrite str_take_app. exact Hop. }
  rewrite E, str_take_app, str_take_all. cbn [is_null].
  apply lookup_insert_None in Hp as [Hp Np].
  apply lookup_insert_None in H1 as [H1 Np1].
  apply lookup_insert_None in H2 as [H2 Np2].
  rewrite (FindFirstFileA_from_object env rec p p1 p2 d (dir ++ "/") pattern "/"
             pre post e s hp ds err r (last_char_app_sep dir "/") Hr Hp H1 H2
             N1 N2 N12 Hpre He).
  unfold TRUE. cbv beta iota.
  exists p, p1, p2, d. split; [reflexivity|]. auto 10.
Qed.

(** [FindFirstFileA] when the directory part does not open but the whole
    name is a directory that does, and no allocation fails. *)
Lemma FindFirstFileA_fallback_run (env : Platform) (rec : positive)
    (r : WIN32_FIND_DATAA) (hp : gmap positive block)
    (ds : gmap positive (list string)) (err : DWORD)
    (dir pattern : string) (sd : struct_stat) (pre post : list string)
    (e : string) (s : struct_stat) :
  let name := ((dir ++ "/") ++ pattern)%string in
  hp !! rec = Some (BFindDataA r) ->
  pattern <> EmptyString ->
  has_char "/" pattern = false ->
  opendir_fs env (dir ++ "/") = None ->
  stat env name = StatOk sd -> S_ISDIR (st_mode sd) = true ->
  opendir_fs env name = Some (pre ++ e :: post) ->
  Forall (fun n => skipped (entry_fate_of env name "*" n)) pre ->
  entry_fate_of env name "*" e = Reported s ->
  exists p p1 p2 d,
    FindFirstFileA env (Some name) (Addr rec) (mk_state hp ds err [])
    = Ok (Addr p)
        (mk_state
           (<[rec := BFindDataA (record_of env name e s)]>
              (<[p := BSearch (mk_search file_search_magic (Addr p1) (Addr p2) (Some d))]>
                 (<[p2 := BString "*"]> (<[p1 := BString name]> hp))))
           (<[d := post]> ds) (error_after env name "*" pre err) [])
    /\ hp !! p = None /\ hp !! p1 = None /\ hp !! p2 = None
    /\ p1 <> p /\ p2 <> p /\ p1 <> p2 /\ ds !! d = None.
Proof.
  intros name Hr Hpat Hsep Hno Hst Hdir Hop Hpre He.
  subst name.
  rewrite (FindFirstFileA_head env rec r hp ds err [] dir pattern Hr Hpat Hsep).
  destruct (file_search_new_falls_back env ((dir ++ "/") ++ pattern)
              (strlen (dir ++ "/")) pattern (strlen pattern)
              (<[rec := BFindDataA empty_find_data]> hp) ds err sd (pre ++ e :: post))
    as (p & p1 & p2 & d & E & Hp & H1 & H2 & N1 & N2 & N12 & Hd); auto.
  { rewrite str_take_app. exact Hno. }
  rewrite E. cbn [is_null].
  apply lookup_insert_None in Hp as [Hp Np].
  apply lookup_insert_None in H1 as [H1 Np1].
  apply lookup_insert_None in H2 as [H2 Np2].
  assert (Hc : exists c, last_char ((dir ++ "/") ++ pattern) = Some c).
  { apply last_char_nonempty. destruct dir; discriminate. }
  destruct Hc as [c Hc].
  rewrite (FindFirstFileA_from_object env rec p p1 p2 d ((dir ++ "/") ++ pattern) "*" c
             pre post e s hp ds err r Hc Hr Hp H1 H2 N1 N2 N12 Hpre He).
  unfold TRUE. cbv beta iota.
  exists p, p1, p2, d. split; [reflexivity|]. auto 10.
Qed.

(** [FindFirstFileA] when neither the directory part nor the whole name
    opens. *)
Lemma FindFirstFileA_no_directory_run (env : Platform) (rec : positive)
    (r : WIN32_FIND_DATAA) (hp : gmap positive block)
    (ds : gmap positive (list string)) (err : DWORD) (o : list bool)
    (dir pattern : string) :
  hp !! rec = Some (BFindDataA r) ->
  pattern <> EmptyString ->
  has_char "/" pattern = false ->
  opendir_fs env (dir ++ "/") = None ->
  opendir_fs env ((dir ++ "/") ++ pattern) = None ->
  exists o',
    FindFirstFileA env (Some ((dir ++ "/") ++ pattern)%string) (Addr rec)
      (mk_state hp ds err o)
    = Ok INVALID_HANDLE_VALUE
        (mk_state (<[rec := BFindDataA empty_find_data]> hp) ds
           ERROR_NOT_ENOUGH_MEMORY o').
Proof.
  intros Hr Hpat Hsep Hno Hno2.
  rewrite (FindFirstFileA_head env rec r hp ds err o dir pattern Hr Hpat Hsep).
  destruct (file_search_new_run env ((dir ++ "/") ++ pattern) (strlen (dir ++ "/"))
              pattern (strlen pattern) (<[rec := BFindDataA empty_find_data]> hp)
              ds err o)
    as (res & st1 & E & Herr & Ho & Hcases).
  rewrite E. rewrite str_take_app in Hcases.
  destruct st1 as [hp1 ds1 err1 o1]. cbn [heap dirs last_error oom] in *.
  destruct Hcases as [(-> & -> & -> & _)
                     |(p & p1 & p2 & d & path & pat & es' & -> & Hp & H1 & H2
                       & N1 & N2 & N12 & Hd & -> & -> & Hop' & Hwhich)].
  - cbn [is_null]. exists o1. reflexivity.
  - exfalso. destruct Hwhich as [[-> _]|(-> & _ & _)]; congruence.
Qed.

(** X12: when the directory part of the name opens and no allocation
    fails, [FindFirstFileA] passes over the names that do not match, whose
    [stat] fails or that are FIFOs, and returns a new, valid search
    handle for the first entry that is none of these: the record holds
    its translation, the stream of the handle is just after it, the last
    error is the mapped error of the last failing [stat] passed (the one
    before the call when there is none), and no block that existed
    before, but the record, has changed. *)
Theorem FindFirstFileA_reports_first_match (env : Platform) (st : State)
    (rec : positive) (dir pattern : string) (pre post : list string)
    (e : string) (s : struct_stat) :
  find_record st rec ->
  oom st = [] ->
  pattern <> EmptyString ->
  has_char "/" pattern = false ->
  opendir_fs env (dir ++ "/") = Some (pre ++ e :: post) ->
  Forall (fun n => skipped (entry_fate_of env (dir ++ "/") pattern n)) pre ->
  entry_fate_of env (dir ++ "/") pattern e = Reported s ->
  exists p d st',
    FindFirstFileA env (Some ((dir ++ "/") ++ pattern)%string) (Addr rec) st
    = Ok (Addr p) st'
    /\ heap st !! p = None /\ dirs st !! d = None
    /\ search_object st' p (dir ++ "/") pattern d post
    /\ heap st' !! rec = Some (BFindDataA (record_of env (dir ++ "/") e s))
    /\ last_error st' = error_after env (dir ++ "/") pattern pre (last_error st)
    /\ oom st' = []
    /\ forall a b, a <> rec -> heap st !! a = Some b -> heap st' !! a = Some b.
Proof.
  intros [r Hr] Ho Hpat Hsep Hop Hpre He.
  destruct st as [hp ds err o]. cbn [heap dirs last_error oom] in *. subst o.
  destruct (FindFirstFileA_first_run env rec r hp ds err dir pattern pre post e s
              Hr Hpat Hsep Hop Hpre He)
    as (p & p1 & p2 & d & E & Hp & H1 & H2 & N1 & N2 & N12 & Hd).
  assert (Nr : rec <> p) by congruence.
  assert (Nr1 : rec <> p1) by congruence.
  assert (Nr2 : rec <> p2) by congruence.
  exists p, d. eexists. split; [exact E|]. cbn [heap dirs last_error oom].
  split; [exact Hp|]. split; [exact Hd|]. split.
  { exists p1, p2. cbn [heap dirs].
    rewrite (lookup_insert_ne _ rec p), lookup_insert_eq by congruence.
    rewrite (lookup_insert_ne _ rec p1), (lookup_insert_ne _ p p1),
      (lookup_insert_ne _ p2 p1), lookup_insert_eq by congruence.
    rewrite (lookup_insert_ne _ rec p2), (lookup_insert_ne _ p p2),
      lookup_insert_eq by congruence.
    rewrite lookup_insert_eq. auto. }
  split; [apply lookup_insert_eq|]. repeat split.
  intros a b Ha Hb.
  rewrite !lookup_insert_ne by congruence. exact Hb.
Qed.

Lemma FindFirstFileA_reports_first_match_demo :
  exists p d st',
    FindFirstFileA demo_platform (Some (("/d" ++ "/") ++ "*.txt")%string) (Addr 1)
      demo_state
    = Ok (Addr p) st'
    /\ heap demo_state !! p = None /\ dirs demo_state !! d = None
    /\ search_object st' p ("/d" ++ "/") "*.txt" d ["b.log"; ".env"; "sub"]%string
    /\ heap st' !! 1%positive
       = Some (BFindDataA (record_of demo_platform ("/d" ++ "/") "a.txt" demo_reg))
    /\ last_error st'
       = error_after demo_platform ("/d" ++ "/") "*.txt" ["."; "gone"; "pipe"]%string
           (last_error demo_state)
    /\ oom st' = []
    /\ forall a b, a <> 1%positive -> heap demo_state !! a = Some b ->
                   heap st' !! a = Some b.
Proof.
  apply (FindFirstFileA_reports_first_match demo_platform demo_state 1 "/d" "*.txt"
           ["."; "gone"; "pipe"]%string ["b.log"; ".env"; "sub"]%string "a.txt"
           demo_reg).
  - exists stale_find_data. reflexivity.
  - reflexivity.
  - discriminate.
  - reflexivity.
  - reflexivity.
  - repeat constructor.
  - reflexivity.
Defined.

(** X13: when the directory part of the name does not open but the whole
    name is a directory that does, and no allocation fails,
    [FindFirstFileA] searches that directory with the pattern ["*"], the
    last component of the name no longer being a pattern: the handle
    returned is a valid search handle over the whole name and the record
    is the translation of the first entry of that directory that is
    reported. *)
Theorem FindFirstFileA_falls_back_to_directory (env : Platform) (st : State)
    (rec : positive) (dir pattern : string) (sd : struct_stat)
    (pre post : list string) (e : string) (s : struct_stat) :
  let name := ((dir ++ "/") ++ pattern)%string in
  find_record st rec ->
  oom st = [] ->
  pattern <> EmptyString ->
  has_char "/" pattern = false ->
  opendir_fs env (dir ++ "/") = None ->
  stat env name = StatOk sd -> S_ISDIR (st_mode sd) = true ->
  opendir_fs env name = Some (pre ++ e :: post) ->
  Forall (fun n => skipped (entry_fate_of env name "*" n)) pre ->
  entry_fate_of env name "*" e = Reported s ->
  exists p d st',
    FindFirstFileA env (Some name) (Addr rec) st = Ok (Addr p) st'
    /\ heap st !! p = None /\ dirs st !! d = None
    /\ search_object st' p name "*" d post
    /\ heap st' !! rec = Some (BFindDataA (record_of env name e s))
    /\ last_error st' = error_after env name "*" pre (last_error st)
    /\ oom st' = []
    /\ forall a b, a <> rec -> heap st !! a = Some b -> heap st' !! a = Some b.
Proof.
  intros name [r Hr] Ho Hpat Hsep Hno Hst Hdir Hop Hpre He.
  destruct st as [hp ds err o]. cbn [heap dirs last_error oom] in *. subst o.
  destruct (FindFirstFileA_fallback_run env rec r hp ds err dir pattern sd pre post e s
              Hr Hpat Hsep Hno Hst Hdir Hop Hpre He)
    as (p & p1 & p2 & d & E & Hp & H1 & H2 & N1 & N2 & N12 & Hd).
  assert (Nr : rec <> p) by congruence.
  assert (Nr1 : rec <> p1) by congruence.
  assert (Nr2 : rec <> p2) by congruence.
  exists p, d. eexists. split; [exact E|]. cbn [heap dirs last_error oom].
  split; [exact Hp|]. split; [exact Hd|]. split.
  { exists p1, p2. cbn [heap dirs].
    rewrite (lookup_insert_ne _ rec p), lookup_insert_eq by congruence.
    rewrite (lookup_insert_ne _ rec p1), (lookup_insert_ne _ p p1),
      (lookup_insert_ne _ p2 p1), lookup_insert_eq by congruence.
    rewrite (lookup_insert_ne _ rec p2), (lookup_insert_ne _ p p2),
      lookup_insert_eq by congruence.
    rewrite lookup_insert_eq. auto. }
  split; [apply lookup_insert_eq|]. repeat split.
  intros a b Ha Hb.
  rewrite !lookup_insert_ne by congruence. exact Hb.
Qed.

Lemma FindFirstFileA_falls_back_demo :
  exists p d st',
    FindFirstFileA demo_platform (Some (("" ++ "/") ++ "d")%string) (Addr 1) demo_state
    = Ok (Addr p) st'
    /\ heap demo_state !! p = None /\ dirs demo_state !! d = None
    /\ search_object st' p (("" ++ "/") ++ "d") "*" d
         ["gone"; "pipe"; "a.txt"; "b.log"; ".env"; "sub"]%string
    /\ heap st' !! 1%positive
       = Some (BFindDataA (record_of demo_platform (("" ++ "/") ++ "d") "." demo_dir))
    /\ last_error st'
       = error_after demo_platform (("" ++ "/") ++ "d") "*" [] (last_error demo_state)
    /\ oom st' = []
    /\ forall a b, a <> 1%positive -> heap demo_state !! a = Some b ->
                   heap st' !! a = Some b.
Proof.
  apply (FindFirstFileA_falls_back_to_directory demo_platform demo_state 1 "" "d"
           demo_dir [] ["gone"; "pipe"; "a.txt"; "b.log"; ".env"; "sub"]%string "."
           demo_dir).
  - exists stale_find_data. reflexivity.
  - reflexivity.
  - discriminate.
  - reflexivity.
  - reflexivity.
  - reflexivity.
  - reflexivity.
  - reflexivity.
  - constructor.
  - reflexivity.
Defined.

(** X14: when neither the directory part of the name nor the whole name
    opens, [FindFirstFileA] returns the sentinel, whatever the allocator
    does, with the last error [ERROR_NOT_ENOUGH_MEMORY] (the error of the
    system call is not reported), the record all zero, and every block
    and stream it took released. *)
Theorem FindFirstFileA_no_directory (env : Platform) (st : State) (rec : positive)
    (dir pattern : string) :
  find_record st rec ->
  pattern <> EmptyString ->
  has_char "/" pattern = false ->
  opendir_fs env (dir ++ "/") = None ->
  opendir_fs env ((dir ++ "/") ++ pattern) = None ->
  exists st',
    FindFirstFileA env (Some ((dir ++ "/") ++ pattern)%string) (Addr rec) st
    = Ok INVALID_HANDLE_VALUE st'
    /\ heap st' = <[rec := BFindDataA empty_find_data]> (heap st)
    /\ dirs st' = dirs st
    /\ last_error st' = ERROR_NOT_ENOUGH_MEMORY.
Proof.
  intros [r Hr] Hpat Hsep Hno Hno2.
  destruct st as [hp ds err o]. cbn [heap dirs] in *.
  destruct (FindFirstFileA_no_directory_run env rec r hp ds err o dir pattern
              Hr Hpat Hsep Hno Hno2) as [o' E].
  eexists. split; [exact E|]. auto.
Qed.

Lemma FindFirstFileA_no_directory_demo :
  exists st',
    FindFirstFileA demo_platform (Some (("/e" ++ "/") ++ "x")%string) (Addr 1) demo_state
    = Ok INVALID_HANDLE_VALUE st'
    /\ heap st' = <[1%positive := BFindDataA empty_find_data]> (heap demo_state)
    /\ dirs st' = dirs demo_state
    /\ last_error st' = ERROR_NOT_ENOUGH_MEMORY.
Proof.
  apply (FindFirstFileA_no_directory demo_platform demo_state 1 "/e" "x").
  - exists stale_find_data. reflexivity.
  - discriminate.
  - reflexivity.
  - reflexivity.
  - reflexivity.
Defined.

Lemma strrchr_trailing_separator (dir : string) :
  strrchr (dir ++ "/") PathGetSeparatorA_native = Some "/"%string.
Proof.
  unfold PathGetSeparatorA_native. apply strrchr_Some.
  exists dir, EmptyString. auto.
Qed.

(** X15: a name without a separator, and a name that ends with a
    separator, are refused before anything is allocated or opened:
    [FindFirstFileA] returns the sentinel with the record all zero, and
    the last error is left as it was. *)
Theorem FindFirstFileA_needs_directory_and_pattern (env : Platform) (st : State)
    (rec : positive) (name : string) :
  find_record st rec ->
  has_char "/" name = false \/ (exists dir, name = (dir ++ "/")%string) ->
  FindFirstFileA env (Some name) (Addr rec) st
  = Ok INVALID_HANDLE_VALUE
      (set_heap (<[rec := BFindDataA empty_find_data]> (heap st)) st).
Proof.
  intros [r Hr] Hname.
  destruct st as [hp ds err o]. cbn [heap] in *.
  unfold FindFirstFileA. cbn [is_null]. bind_step.
  rewrite (store_find_data_run rec r _ hp ds err o Hr).
  destruct Hname as [Hno|[dir ->]].
  - apply (strrchr_None name PathGetSeparatorA_native) in Hno. rewrite Hno. reflexivity.
  - rewrite strrchr_trailing_separator. reflexivity.
Qed.

Lemma FindFirstFileA_needs_directory_and_pattern_demo :
  FindFirstFileA demo_platform (Some "/d/"%string) (Addr 1) demo_state
  = Ok INVALID_HANDLE_VALUE
      (set_heap (<[1%positive := BFindDataA empty_find_data]> (heap demo_state))
         demo_state).
Proof.
  apply (FindFirstFileA_needs_directory_and_pattern demo_platform demo_state 1 "/d/").
  - exists stale_find_data. reflexivity.
  - right. exists "/d"%string. reflexivity.
Defined.

(** ** A whole listing *)

(** X16: listing [dir/pattern] as a caller does, with [FindFirstFileA],
    [FindNextFileA] until it returns [FALSE] and [FindClose], gives,
    while no allocation fails, the records of exactly the entries of the
    directory that match the pattern, whose [stat] succeeds and that are
    no FIFO, in the order of the directory; afterwards no stream is left
    open and the heap is the one before but for the caller's record. *)
Theorem list_directory_reports_all (env : Platform) (st : State) (rec : positive)
    (dir pattern : string) (es : list string) (n : nat) :
  find_record st rec ->
  oom st = [] ->
  pattern <> EmptyString ->
  has_char "/" pattern = false ->
  opendir_fs env (dir ++ "/") = Some es ->
  (length (reported_records env (dir ++ "/") pattern es) <= n)%nat ->
  exists st' r',
    list_directory env ((dir ++ "/") ++ pattern) (Addr rec) n st
    = Ok (reported_records env (dir ++ "/") pattern es) st'
    /\ heap st' = <[rec := BFindDataA r']> (heap st)
    /\ dirs st' = dirs st
    /\ oom st' = [].
Proof.
  intros [r Hr] Ho Hpat Hsep Hop Hn.
  destruct st as [hp ds err o]. cbn [heap dirs last_error oom] in *. subst o.
  unfold list_directory. bind_step.
  destruct (first_reported_split env (dir ++ "/") pattern es)
    as [Hall|(pre & e & s & post & -> & Hpre & He)].
  - rewrite (FindFirstFileA_no_entry_run env rec r hp ds err dir pattern es
               Hr Hpat Hsep Hop Hall).
    cbn [is_invalid_handle_value].
    pose proof (reported_records_skipped env (dir ++ "/") pattern es [] Hall) as E.
    rewrite app_nil_r in E. rewrite E.
    do 2 eexists. split; [reflexivity|]. cbn [heap dirs oom]. auto.
  - destruct (FindFirstFileA_first_run env rec r hp ds err dir pattern pre post e s
                Hr Hpat Hsep Hop Hpre He)
      as (p & p1 & p2 & d & E & Hp & H1 & H2 & N1 & N2 & N12 & Hd).
    assert (Nr : rec <> p) by congruence.
    assert (Nr1 : rec <> p1) by congruence.
    assert (Nr2 : rec <> p2) by congruence.
    rewrite E. cbn [is_invalid_handle_value].
    unfold load_find_data, load. bind_step. cbn [heap]. rewrite lookup_insert_eq.
    rewrite reported_records_skipped, (reported_records_first _ _ _ _ s) in *
      by assumption.
    cbn [length] in Hn.
    set (big := <[rec := BFindDataA (record_of env (dir ++ "/") e s)]>
                  (<[p := BSearch (mk_search file_search_magic (Addr p1) (Addr p2) (Some d))]>
                     (<[p2 := BString pattern]> (<[p1 := BString (dir ++ "/")]> hp)))).
    destruct (FindNextFileA_all_run env p rec p1 p2 d (dir ++ "/") pattern "/"
                (last_char_app_sep dir "/") n post big (<[d := post]> ds)
                (error_after env (dir ++ "/") pattern pre err)
                (record_of env (dir ++ "/") e s)) as [r' Eall].
    { subst big. rewrite (lookup_insert_ne _ rec p), lookup_insert_eq by congruence.
      reflexivity. }
    { subst big. rewrite (lookup_insert_ne _ rec p1), (lookup_insert_ne _ p p1),
        (lookup_insert_ne _ p2 p1), lookup_insert_eq by congruence. reflexivity. }
    { subst big. rewrite (lookup_insert_ne _ rec p2), (lookup_insert_ne _ p p2),
        lookup_insert_eq by congruence. reflexivity. }
    { subst big. apply lookup_insert_eq. }
    { apply lookup_insert_eq. }
    { lia. }
    rewrite Eall. subst big. rewrite insert_insert_eq.
    rewrite (FindClose_after_search p p1 p2 d rec); eauto.
    do 2 eexists. split; [reflexivity|]. cbn [heap dirs oom]. auto.
Qed.

Lemma list_directory_reports_all_demo :
  exists st' r',
    list_directory demo_platform (("/d" ++ "/") ++ "*") (Addr 1) 7 demo_state
    = Ok (reported_records demo_platform ("/d" ++ "/") "*"
            ["."; "gone"; "pipe"; "a.txt"; "b.log"; ".env"; "sub"]%string) st'
    /\ heap st' = <[1%positive := BFindDataA r']> (heap demo_state)
    /\ dirs st' = dirs demo_state
    /\ oom st' = [].
Proof.
  apply (list_directory_reports_all demo_platform demo_state 1 "/d" "*"
           ["."; "gone"; "pipe"; "a.txt"; "b.log"; ".env"; "sub"]%string 7).
  - exists stale_find_data. reflexivity.
  - reflexivity.
  - discriminate.
  - reflexivity.
  - reflexivity.
  - vm_compute. lia.
Defined.

(** ** Whatever the allocator does *)

Lemma record_over_object (rec p p1 p2 : positive) (R R0 S b1 b2 : block)
    (hp : gmap positive block) :
  rec <> p -> rec <> p1 -> rec <> p2 ->
  <[rec := R]> (<[p := S]> (<[p2 := b2]> (<[p1 := b1]> (<[rec := R0]> hp))))
  = <[rec := R]> (<[p := S]> (<[p2 := b2]> (<[p1 := b1]> hp))).
Proof.
  intros Np N1 N2.
  rewrite (insert_insert_ne _ rec p) by congruence.
  rewrite (insert_insert_ne _ rec p2) by congruence.
  rewrite (insert_insert_ne _ rec p1) by congruence.
  rewrite insert_insert_eq.
  rewrite <- (insert_insert_ne _ rec p1) by congruence.
  rewrite <- (insert_insert_ne _ rec p2) by congruence.
  rewrite <- (insert_insert_ne _ rec p) by congruence.
  reflexivity.
Qed.

Lemma FindFirstFileA_outcome (env : Platform) (rec : positive) (r : WIN32_FIND_DATAA)
    (hp : gmap positive block) (ds : gmap positive (list string))
    (err : DWORD) (o : list bool) (name : string) :
  hp !! rec = Some (BFindDataA r) ->
  exists h st',
    FindFirstFileA env (Some name) (Addr rec) (mk_state hp ds err o) = Ok h st'
    /\ (h = INVALID_HANDLE_VALUE
        /\ (exists n, heap st' = <[rec := BFindDataA (set_cFileName empty_find_data n)]> hp)
        /\ dirs st' = ds
        \/ opened_search env name rec hp ds h st').
Proof.
  intros Hr.
  unfold FindFirstFileA. cbn [is_null]. bind_step.
  rewrite (store_find_data_run rec r _ hp ds err o Hr).
  set (hp0 := <[rec := BFindDataA empty_find_data]> hp).
  assert (Hr0 : hp0 !! rec = Some (BFindDataA empty_find_data)) by apply lookup_insert_eq.
  assert (Hearly : forall err' o',
             exists h st',
               @Ok pointer INVALID_HANDLE_VALUE (mk_state hp0 ds err' o') = Ok h st'
               /\ (h = INVALID_HANDLE_VALUE
                   /\ (exists n, heap st'
                                 = <[rec := BFindDataA (set_cFileName empty_find_data n)]> hp)
                   /\ dirs st' = ds
                   \/ opened_search env name rec hp ds h st')).
  { intros err' o'. do 2 eexists. split; [reflexivity|]. left.
    split; [reflexivity|]. split; [exists EmptyString; reflexivity|reflexivity]. }
  destruct (strrchr name PathGetSeparatorA_native) as [t|] eqn:Hs; [|apply Hearly].
  destruct (strlen (str_next t) =? 0)%nat; [apply Hearly|].
  destruct (split_at_last_separator name t Hs) as (pre & pat0 & Hname & Hnext & Hdir & Hpat).
  destruct (file_search_new_run env name (strlen name - strlen (str_next t))
              (str_next t) (strlen (str_next t)) hp0 ds err o)
    as (res & st1 & E & Herr & Ho & Hcases).
  rewrite E. destruct st1 as [hp1 ds1 err1 o1]. cbn [heap dirs last_error oom] in *.
  subst err1.
  destruct Hcases as [(-> & -> & -> & _)
                     |(p & p1 & p2 & d & path & pat & es & -> & Hp & H1 & H2
                       & N1 & N2 & N12 & Hd & -> & -> & Hop & Hwhich)].
  { cbn [is_null]. apply Hearly. }
  cbn [is_null].
  assert (Nr : rec <> p) by congruence.
  assert (Nr1 : rec <> p1) by congruence.
  assert (Nr2 : rec <> p2) by congruence.
  assert (Hc : exists c, last_char path = Some c).
  { destruct Hwhich as [[-> _]|(-> & _)].
    - rewrite Hdir. exists "/"%char. apply last_char_app_sep.
    - apply last_char_nonempty. rewrite Hname. destruct pre; discriminate. }
  destruct Hc as [c Hc].
  assert (Hso : search_of env name path pat).
  { exists t. split; [exact Hs|]. rewrite str_take_all in Hwhich. exact Hwhich. }
  set (hp2 := <[p := BSearch (mk_search file_search_magic (Addr p1) (Addr p2) (Some d))]>
                (<[p2 := BString pat]> (<[p1 := BString path]> hp0))).
  assert (Hh2 : hp2 !! p = Some (BSearch (mk_search file_search_magic (Addr p1) (Addr p2) (Some d))))
    by apply lookup_insert_eq.
  assert (Hp1 : hp2 !! p1 = Some (BString path))
    by (subst hp2; rewrite !lookup_insert_ne by congruence; apply lookup_insert_eq).
  assert (Hp2 : hp2 !! p2 = Some (BString pat))
    by (subst hp2; rewrite lookup_insert_ne by congruence; apply lookup_insert_eq).
  assert (Hr2 : hp2 !! rec = Some (BFindDataA empty_find_data))
    by (subst hp2; rewrite !lookup_insert_ne by congruence; exact Hr0).
  destruct (FindNextFileA_total env p rec p1 p2 d path pat c es hp2 (<[d := es]> ds)
              err o1 empty_find_data Hc Hh2 Hp1 Hp2 Hr2 (lookup_insert_eq _ _ _))
    as (b & r' & left & err' & o' & El & Hb & Ht).
  rewrite El. destruct b.
  { do 2 eexists. split; [reflexivity|]. right.
    destruct (Ht eq_refl) as (e & s & He & Hfe & ->).
    subst hp0. apply lookup_insert_None in Hp as [Hp _].
    apply lookup_insert_None in H1 as [H1 _].
    apply lookup_insert_None in H2 as [H2 _].
    exists p, p1, p2, d, path, pat, es, left, e, s. cbn [heap dirs].
    subst hp2. rewrite record_over_object by congruence.
    rewrite insert_insert_eq. auto 15. }
  cbv beta iota. subst hp2.
  rewrite (FindClose_after_search p p1 p2 d rec); eauto.
  do 2 eexists. split; [reflexivity|]. left. split; [reflexivity|].
  cbn [heap dirs]. subst hp0. rewrite insert_insert_eq.
  split; [|reflexivity].
  destruct (Hb eq_refl) as [->|(e & He & Hm & ->)]; eexists; reflexivity.
Qed.

(** [FindClose] on the handle of a search just opened. *)
Lemma FindClose_opened_search (env : Platform) (name : string) (rec : positive)
    (r : WIN32_FIND_DATAA) (hp : gmap positive block)
    (ds : gmap positive (list string)) (h : pointer) (st' : State) :
  hp !! rec = Some (BFindDataA r) ->
  opened_search env name rec hp ds h st' ->
  exists path pat es e s,
    search_of env name path pat
    /\ opendir_fs env path = Some es /\ e ∈ es
    /\ entry_fate_of env path pat e = Reported s
    /\ heap st' !! rec = Some (BFindDataA (record_of env path e s))
    /\ is_invalid_handle_value h = false
    /\ FindClose h st'
       = Ok TRUE
           (mk_state (<[rec := BFindDataA (record_of env path e s)]> hp) ds
              (last_error st') (oom st')).
Proof.
  intros Hr (p & p1 & p2 & d & path & pat & es & left & e & s & -> & Hp & H1 & H2
             & N1 & N2 & N12 & Hd & Hso & Hop & He & Hf & Hheap & Hdirs).
  exists path, pat, es, e, s.
  destruct st' as [hp' ds' err' o']. cbn [heap dirs last_error oom] in *. subst hp' ds'.
  repeat (split; [assumption|]).
  split; [apply lookup_insert_eq|]. split; [reflexivity|].
  rewrite <- (insert_insert_eq ds d left left).
  apply (FindClose_after_search p p1 p2 d rec); eauto.
Qed.

(** X17: opening a search and closing the handle that comes back leaves
    no block and no stream behind, whatever the file name and whatever
    the allocator does: the heap afterwards is the one before but for
    the caller's record and the open streams are the ones before. The
    close returns [TRUE] exactly when the open returned a handle. *)
Theorem open_and_close_leaves_nothing (env : Platform) (st : State) (rec : positive)
    (name : string) :
  find_record st rec ->
  exists h b st' r',
    open_and_close env name (Addr rec) st = Ok (h, b) st'
    /\ heap st' = <[rec := BFindDataA r']> (heap st)
    /\ dirs st' = dirs st
    /\ (b = TRUE <-> h <> INVALID_HANDLE_VALUE).
Proof.
  intros [r Hr]. destruct st as [hp ds err o]. cbn [heap dirs] in *.
  unfold open_and_close. bind_step.
  destruct (FindFirstFileA_outcome env rec r hp ds err o name Hr)
    as (h & st1 & E & [(-> & [n Hheap] & Hdirs)|Hopen]).
  - rewrite E. cbn.
    exists INVALID_HANDLE_VALUE, FALSE, st1. eexists.
    split; [reflexivity|]. split; [exact Hheap|]. split; [exact Hdirs|].
    split; [discriminate|congruence].
  - rewrite E.
    destruct (FindClose_opened_search env name rec r hp ds h st1 Hr Hopen)
      as (path & pat & es & e & s & _ & _ & _ & _ & _ & Hinv & Ec).
    rewrite Ec. do 4 eexists. split; [reflexivity|]. cbn [heap dirs].
    split; [reflexivity|]. split; [reflexivity|]. split; [|reflexivity].
    intros _ ->. discriminate.
Qed.

Lemma open_and_close_leaves_nothing_demo :
  exists h b st' r',
    open_and_close demo_platform "/d/*.txt" (Addr 1) demo_state = Ok (h, b) st'
    /\ heap st' = <[1%positive := BFindDataA r']> (heap demo_state)
    /\ dirs st' = dirs demo_state
    /\ (b = TRUE <-> h <> INVALID_HANDLE_VALUE).
Proof.
  apply (open_and_close_leaves_nothing demo_platform demo_state 1 "/d/*.txt").
  exists stale_find_data. reflexivity.
Defined.

(** ** Attribute queries *)

Lemma local_gone {B : Type} (a : positive) (x y : B) (hp : gmap positive B) :
  hp !! a = None -> delete a (<[a := x]> (<[a := y]> hp)) = hp.
Proof. intros H. rewrite insert_insert_eq, delete_insert_eq. apply delete_id, H. Qed.

Lemma local_gone_single {B : Type} (a : positive) (x : B) (hp : gmap positive B) :
  hp !! a = None -> delete a (<[a := x]> hp) = hp.
Proof. intros H. rewrite delete_insert_eq. apply delete_id, H. Qed.

Lemma attributes_not_invalid (path : string) (s : struct_stat) :
  FindDataFromStat_attributes path s <> INVALID_FILE_ATTRIBUTES.
Proof.
  rewrite attributes_value.
  destruct (S_ISDIR (st_mode s));
    destruct (match strrchr path "/" with
              | Some t => hidden_name (str_next t)
              | None => false
              end);
    destruct (Z.land (st_mode s) S_IWUSR =? 0); discriminate.
Qed.

Lemma record_of_attributes (env : Platform) (path e : string) (s : struct_stat) :
  dwFileAttributes (record_of env path e s)
  = FindDataFromStat_attributes (entry_fullpath path e) s.
Proof. reflexivity. Qed.

(** What the search behind an attribute query found. *)
Lemma GetFileAttributesA_run (env : Platform) (name : string)
    (hp : gmap positive block) (ds : gmap positive (list string))
    (err : DWORD) (o : list bool) :
  exists a err' o',
    GetFileAttributesA env (Some name) (mk_state hp ds err o)
    = Ok a (mk_state hp ds err' o')
    /\ (a = INVALID_FILE_ATTRIBUTES
        \/ exists path pat es e s,
             search_of env name path pat
             /\ opendir_fs env path = Some es /\ e ∈ es
             /\ entry_fate_of env path pat e = Reported s
             /\ a = FindDataFromStat_attributes (entry_fullpath path e) s).
Proof.
  unfold GetFileAttributesA, with_local. cbn [heap]. unfold set_heap at 1.
  cbn [heap dirs last_error oom]. bind_step.
  set (a := fresh (dom hp)).
  assert (Ha : hp !! a = None) by apply fresh_heap_None.
  destruct (FindFirstFileA_outcome env a empty_find_data
              (<[a := BFindDataA empty_find_data]> hp) ds err o name
              (lookup_insert_eq _ _ _))
    as (h & st1 & E & [(-> & [n Hheap] & Hdirs)|Hopen]).
  - rewrite E. cbn [is_invalid_handle_value].
    destruct st1 as [hp1 ds1 err1 o1]. cbn [heap dirs] in *. subst hp1 ds1.
    unfold set_heap. cbn [heap dirs last_error oom].
    rewrite local_gone by exact Ha.
    do 3 eexists. split; [reflexivity|]. left. reflexivity.
  - rewrite E.
    destruct (FindClose_opened_search env name a empty_find_data _ ds h st1
                (lookup_insert_eq _ _ _) Hopen)
      as (path & pat & es & e & s & Hso & Hop & He & Hf & _ & Hinv & Ec).
    rewrite Hinv, Ec.
    unfold load_find_data, load. bind_step. cbn [heap]. rewrite lookup_insert_eq.
    unfold set_heap. cbn [heap dirs last_error oom].
    rewrite local_gone by exact Ha.
    do 3 eexists. split; [reflexivity|]. right.
    exists path, pat, es, e, s. auto 10.
Qed.

(** X18: [GetFileAttributesA] leaves the heap and the open streams
    exactly as they were, whatever the file name and whatever the
    allocator does. Without a file name it gives
    [INVALID_FILE_ATTRIBUTES] with [ERROR_BAD_ARGUMENTS]; with one it
    gives either [INVALID_FILE_ATTRIBUTES] or the attributes translated
    from the [stat] result of an entry of the directory searched that
    matches the pattern and is no FIFO, a value that never is
    [INVALID_FILE_ATTRIBUTES]. *)
Theorem GetFileAttributesA_outcome (env : Platform) (st : State)
    (lpFileName : option string) :
  exists a st',
    GetFileAttributesA env lpFileName st = Ok a st'
    /\ heap st' = heap st
    /\ dirs st' = dirs st
    /\ (lpFileName = None ->
        a = INVALID_FILE_ATTRIBUTES /\ last_error st' = ERROR_BAD_ARGUMENTS)
    /\ (a <> INVALID_FILE_ATTRIBUTES ->
        exists name path pat es e s,
          lpFileName = Some name
          /\ search_of env name path pat
          /\ opendir_fs env path = Some es /\ e ∈ es
          /\ FilePatternMatchA env e pat = true
          /\ stat env (entry_fullpath path e) = StatOk s
          /\ S_ISFIFO (st_mode s) = false
          /\ a = FindDataFromStat_attributes (entry_fullpath path e) s)
    /\ (forall path s, FindDataFromStat_attributes path s <> INVALID_FILE_ATTRIBUTES).
Proof.
  destruct st as [hp ds err o]. destruct lpFileName as [name|].
  - destruct (GetFileAttributesA_run env name hp ds err o)
      as (a & err' & o' & E & Ha).
    exists a. eexists. split; [exact E|]. cbn [heap dirs].
    split; [reflexivity|]. split; [reflexivity|]. split; [discriminate|].
    split.
    + intros Hne. destruct Ha as [->|(path & pat & es & e & s & Hso & Hop & He & Hf & ->)];
        [congruence|].
      destruct (entry_fate_reported env path pat e s Hf) as (Hm & Hs & Hfifo).
      exists name, path, pat, es, e, s. auto 10.
    + apply attributes_not_invalid.
  - unfold GetFileAttributesA, with_local, FindFirstFileA. bind_step.
    unfold SetLastError, set_last_error, set_heap. cbn [heap dirs last_error oom].
    cbn [is_invalid_handle_value].
    do 2 eexists. split; [reflexivity|]. cbn [heap dirs last_error].
    split.
    { rewrite delete_insert_eq. apply delete_id, fresh_heap_None. }
    split; [reflexivity|]. split; [auto|].
    split; [congruence|]. apply attributes_not_invalid.
Qed.

(** X19: for a name [dir/pattern] whose directory opens, while no
    allocation fails, [GetFileAttributesA] gives the attributes of the
    first entry in directory order that matches the pattern, whose
    [stat] succeeds and that is no FIFO, and [INVALID_FILE_ATTRIBUTES]
    with [ERROR_NO_MORE_FILES] when there is no such entry; the state is
    otherwise as before. *)
Theorem GetFileAttributesA_first_match (env : Platform) (st : State)
    (dir pattern : string) (es : list string) :
  oom st = [] ->
  pattern <> EmptyString ->
  has_char "/" pattern = false ->
  opendir_fs env (dir ++ "/") = Some es ->
  (forall pre e post s,
     es = pre ++ e :: post ->
     Forall (fun n => skipped (entry_fate_of env (dir ++ "/") pattern n)) pre ->
     entry_fate_of env (dir ++ "/") pattern e = Reported s ->
     GetFileAttributesA env (Some ((dir ++ "/") ++ pattern)%string) st
     = Ok (FindDataFromStat_attributes (entry_fullpath (dir ++ "/") e) s)
         (set_last_error (error_after env (dir ++ "/") pattern pre (last_error st)) st))
  /\ (Forall (fun n => skipped (entry_fate_of env (dir ++ "/") pattern n)) es ->
      GetFileAttributesA env (Some ((dir ++ "/") ++ pattern)%string) st
      = Ok INVALID_FILE_ATTRIBUTES (set_last_error ERROR_NO_MORE_FILES st)).
Proof.
  intros Ho Hpat Hsep Hop.
  destruct st as [hp ds err o]. cbn [oom last_error] in *. subst o.
  set (a := fresh (dom hp)).
  assert (Ha : hp !! a = None) by apply fresh_heap_None.
  split.
  - intros pre e post s -> Hpre He.
    unfold GetFileAttributesA, with_local. cbn [heap]. unfold set_heap at 1.
    cbn [heap dirs last_error oom]. bind_step. fold a.
    destruct (FindFirstFileA_first_run env a empty_find_data
                (<[a := BFindDataA empty_find_data]> hp) ds err dir pattern pre post e s
                (lookup_insert_eq _ _ _) Hpat Hsep Hop Hpre He)
      as (p & p1 & p2 & d & E & Hp & H1 & H2 & N1 & N2 & N12 & Hd).
    rewrite E. cbn [is_invalid_handle_value].
    rewrite <- (insert_insert_eq ds d post post).
    rewrite (FindClose_after_search p p1 p2 d a); eauto;
      [|rewrite lookup_insert_eq; eauto].
    unfold load_find_data, load. bind_step. cbn [heap]. rewrite lookup_insert_eq.
    unfold set_heap, set_last_error. cbn [heap dirs last_error oom].
    rewrite local_gone by exact Ha. reflexivity.
  - intros Hall.
    unfold GetFileAttributesA, with_local. cbn [heap]. unfold set_heap at 1.
    cbn [heap dirs last_error oom]. bind_step. fold a.
    rewrite (FindFirstFileA_no_entry_run env a empty_find_data
               (<[a := BFindDataA empty_find_data]> hp) ds err dir pattern es
               (lookup_insert_eq _ _ _) Hpat Hsep Hop Hall).
    cbn [is_invalid_handle_value].
    unfold set_heap, set_last_error. cbn [heap dirs last_error oom].
    rewrite local_gone by exact Ha. reflexivity.
Qed.

Lemma GetFileAttributesA_first_match_demo :
  GetFileAttributesA demo_platform (Some (("/d" ++ "/") ++ "b.log")%string) demo_state
  = Ok (Z.lor FILE_ATTRIBUTE_ARCHIVE FILE_ATTRIBUTE_READONLY)
      (set_last_error 0 demo_state).
Proof.
  refine (proj1 (GetFileAttributesA_first_match demo_platform demo_state "/d" "b.log"
                   ["."; "gone"; "pipe"; "a.txt"; "b.log"; ".env"; "sub"]%string
                   eq_refl _ eq_refl eq_refl)
            ["."; "gone"; "pipe"; "a.txt"]%string "b.log"%string
            [".env"; "sub"]%string demo_readonly eq_refl _ eq_refl).
  - discriminate.
  - repeat constructor.
Defined.

Lemma record_of_halves (env : Platform) (path e : string) (s : struct_stat) :
  let r := record_of env path e s in
  halves_of (nFileSizeHigh r) (nFileSizeLow r) (st_size s)
  /\ filetime_halves_of (ftCreationTime r) (STAT_TIME_TO_FILETIME env (st_ctime s))
  /\ filetime_halves_of (ftLastAccessTime r) (STAT_TIME_TO_FILETIME env (st_atime s))
  /\ filetime_halves_of (ftLastWriteTime r) (STAT_TIME_TO_FILETIME env (st_mtime s)).
Proof.
  cbn. repeat split; try apply halves_of_split; try apply filetime_of_halves.
Qed.

(** X20: [GetFileAttributesExA] leaves the heap and the open streams as
    they were, whatever the allocator does. With a null information
    pointer it returns [FALSE] at once, the state being untouched; when
    it returns [FALSE] nothing has been written through the pointer;
    when it returns [TRUE] the structure written holds the attributes,
    the size and the three times translated from the [stat] result of an
    entry of the directory searched that matches the pattern and is no
    FIFO. *)
Theorem GetFileAttributesExA_outcome (env : Platform) (st : State)
    (lpFileName : option string) (has_info : bool) :
  exists b d st',
    GetFileAttributesExA env lpFileName has_info st = Ok (b, d) st'
    /\ heap st' = heap st
    /\ dirs st' = dirs st
    /\ (has_info = false -> b = FALSE /\ st' = st)
    /\ (b = FALSE -> d = None)
    /\ (b = TRUE ->
        exists name path pat es e s data,
          lpFileName = Some name
          /\ has_info = true
          /\ search_of env name path pat
          /\ opendir_fs env path = Some es /\ e ∈ es
          /\ entry_fate_of env path pat e = Reported s
          /\ d = Some data
          /\ fad_dwFileAttributes data
             = FindDataFromStat_attributes (entry_fullpath path e) s
          /\ halves_of (fad_nFileSizeHigh data) (fad_nFileSizeLow data) (st_size s)
          /\ filetime_halves_of (fad_ftCreationTime data)
               (STAT_TIME_TO_FILETIME env (st_ctime s))
          /\ filetime_halves_of (fad_ftLastAccessTime data)
               (STAT_TIME_TO_FILETIME env (st_atime s))
          /\ filetime_halves_of (fad_ftLastWriteTime data)
               (STAT_TIME_TO_FILETIME env (st_mtime s))).
Proof.
  destruct st as [hp ds err o].
  set (a := fresh (dom hp)).
  assert (Ha : hp !! a = None) by apply fresh_heap_None.
  unfold GetFileAttributesExA, with_local. cbn [heap]. unfold set_heap at 1.
  cbn [heap dirs last_error oom]. fold a.
  destruct has_info; cbn [negb].
  2:{ unfold ret, set_heap. cbn [heap dirs last_error oom].
      do 3 eexists. split; [reflexivity|]. cbn [heap dirs].
      rewrite (local_gone_single a _ hp Ha).
      repeat split; auto; discriminate. }
  destruct lpFileName as [name|].
  2:{ unfold FindFirstFileA. bind_step.
      unfold SetLastError, set_last_error, set_heap. cbn [heap dirs last_error oom].
      cbn [is_invalid_handle_value].
      do 3 eexists. split; [reflexivity|]. cbn [heap dirs].
      rewrite (local_gone_single a _ hp Ha).
      repeat split; auto; discriminate. }
  bind_step.
  destruct (FindFirstFileA_outcome env a empty_find_data
              (<[a := BFindDataA empty_find_data]> hp) ds err o name
              (lookup_insert_eq _ _ _))
    as (h & st1 & E & [(-> & [n Hheap] & Hdirs)|Hopen]).
  - rewrite E. cbn [is_invalid_handle_value].
    destruct st1 as [hp1 ds1 err1 o1]. cbn [heap dirs] in *. subst hp1 ds1.
    unfold set_heap. cbn [heap dirs last_error oom].
    rewrite local_gone by exact Ha.
    do 3 eexists. split; [reflexivity|]. cbn [heap dirs].
    repeat split; auto; discriminate.
  - rewrite E.
    destruct (FindClose_opened_search env name a empty_find_data _ ds h st1
                (lookup_insert_eq _ _ _) Hopen)
      as (path & pat & es & e & s & Hso & Hop & He & Hf & _ & Hinv & Ec).
    rewrite Hinv, Ec.
    unfold load_find_data, load. bind_step. cbn [heap]. rewrite lookup_insert_eq.
    unfold set_heap. cbn [heap dirs last_error oom].
    rewrite local_gone by exact Ha.
    do 3 eexists. split; [reflexivity|]. cbn [heap dirs].
    split; [reflexivity|]. split; [reflexivity|]. split; [discriminate|].
    split; [discriminate|]. intros _.
    destruct (record_of_halves env path e s) as (Hsz & Hc & Hat & Hmt).
    exists name, path, pat, es, e, s. eexists.
    repeat (split; [first [assumption|reflexivity]|]).
    cbn [fad_dwFileAttributes fad_nFileSizeHigh fad_nFileSizeLow fad_ftCreationTime
           fad_ftLastAccessTime fad_ftLastWriteTime].
    auto 10.
Qed.

(** ** The wide variants *)

Lemma ConvertFindDataAToW_run (env : Platform) (fd recw : positive)
    (R : WIN32_FIND_DATAA) (w : WIN32_FIND_DATAW) (hp : gmap positive block)
    (ds : gmap positive (list string)) (err : DWORD) (o : list bool) :
  hp !! fd = Some (BFindDataA R) ->
  hp !! recw = Some (BFindDataW w) ->
  exists b w',
    ConvertFindDataAToW env (Addr fd) (Addr recw) (mk_state hp ds err o)
    = Ok b (mk_state (<[recw := BFindDataW w']> hp) ds err o)
    /\ w_dwFileAttributes w' = dwFileAttributes R
    /\ w_nFileSizeHigh w' = nFileSizeHigh R
    /\ w_nFileSizeLow w' = nFileSizeLow R
    /\ w_ftCreationTime w' = ftCreationTime R
    /\ w_ftLastAccessTime w' = ftLastAccessTime R
    /\ w_ftLastWriteTime w' = ftLastWriteTime R
    /\ (b = TRUE ->
        ConvertUtf8NToWChar env (cFileName R) MAX_PATH MAX_PATH = Some (w_cFileName w')
        /\ ConvertUtf8NToWChar env (cAlternateFileName R) 14 14
           = Some (w_cAlternateFileName w'))
    /\ (b = FALSE ->
        ConvertUtf8NToWChar env (cFileName R) MAX_PATH MAX_PATH = None
        \/ ConvertUtf8NToWChar env (cAlternateFileName R) 14 14 = None).
Proof.
  intros Hfd Hw.
  unfold ConvertFindDataAToW, load_find_data_w. cbn [is_null orb].
  run_step. rewrite Hfd, Hw. cbv beta iota. rewrite Hw.
  destruct (ConvertUtf8NToWChar env (cFileName R) MAX_PATH MAX_PATH) as [wname|] eqn:E1.
  2:{ do 2 eexists. split; [reflexivity|]. cbn.
      repeat split; auto; discriminate. }
  rewrite lookup_insert_eq, insert_insert_eq.
  destruct (ConvertUtf8NToWChar env (cAlternateFileName R) 14 14) as [walt|] eqn:E2.
  2:{ do 2 eexists. split; [reflexivity|]. cbn.
      repeat split; auto; discriminate. }
  rewrite lookup_insert_eq, insert_insert_eq.
  do 2 eexists. split; [reflexivity|]. cbn.
  repeat split; auto; discriminate.
Qed.

Lemma temporary_gone {B : Type} (fd recw : positive) (x y z : B)
    (hp : gmap positive B) :
  hp !! fd = None -> recw <> fd ->
  delete fd (<[recw := x]> (<[fd := y]> (<[fd := z]> hp))) = <[recw := x]> hp.
Proof.
  intros H N. rewrite delete_insert_ne by congruence.
  rewrite local_gone by exact H. reflexivity.
Qed.

Lemma temporary_gone' {B : Type} (fd recw : positive) (x y z : B)
    (hp : gmap positive B) :
  hp !! fd = None -> recw <> fd ->
  delete fd (<[fd := x]> (<[recw := y]> (<[fd := z]> hp))) = <[recw := y]> hp.
Proof.
  intros H N. rewrite delete_insert_eq, delete_insert_ne by congruence.
  rewrite delete_insert_eq, delete_id by exact H. reflexivity.
Qed.

(** X21: [FindNextFileW] on a valid search handle always returns and
    releases the temporary record it works on: the heap afterwards is
    the one before but for the caller's record. When the temporary
    record cannot be allocated it returns [FALSE] with
    [ERROR_NOT_ENOUGH_MEMORY] and neither the stream nor the caller's
    record has moved. When it returns [TRUE] the caller's record holds
    the attributes, size and times of an entry that is reported and the
    converted name of that entry. *)
Theorem FindNextFileW_outcome (env : Platform) (st : State) (h recw d : positive)
    (w : WIN32_FIND_DATAW) (path pattern : string) (es : list string) :
  search_object st h path pattern d es ->
  heap st !! recw = Some (BFindDataW w) ->
  path <> EmptyString ->
  exists b st' w' left,
    FindNextFileW env (Addr h) (Addr recw) st = Ok b st'
    /\ heap st' = <[recw := BFindDataW w']> (heap st)
    /\ dirs st' = <[d := left]> (dirs st)
    /\ (alloc_fails (oom st) = true ->
        b = FALSE /\ w' = w /\ left = es /\ last_error st' = ERROR_NOT_ENOUGH_MEMORY)
    /\ (b = TRUE ->
        exists e s,
          e ∈ es
          /\ entry_fate_of env path pattern e = Reported s
          /\ w_dwFileAttributes w'
             = FindDataFromStat_attributes (entry_fullpath path e) s
          /\ halves_of (w_nFileSizeHigh w') (w_nFileSizeLow w') (st_size s)
          /\ ConvertUtf8NToWChar env (str_take MAX_PATH e) MAX_PATH MAX_PATH
             = Some (w_cFileName w')).
Proof.
  intros (p1 & p2 & Hh & H1 & H2 & Hp & Hd) Hw Hne.
  destruct (last_char_nonempty path Hne) as [c Hc].
  destruct st as [hp ds err o]. cbn [heap dirs last_error oom] in *.
  unfold FindNextFileW. bind_step. rewrite alloc_run.
  destruct (alloc_fails o) eqn:Ao.
  { cbn [is_null]. unfold SetLastError, set_last_error.
    cbn [heap dirs last_error oom].
    exists FALSE. eexists. exists w, es. split; [reflexivity|]. cbn [heap dirs last_error].
    split; [symmetry; apply insert_id, Hw|].
    split; [symmetry; apply insert_id, Hd|].
    split; [auto|discriminate]. }
  cbn [is_null].
  set (fd := fresh (dom hp)).
  assert (Hfd : hp !! fd = None) by apply fresh_heap_None.
  assert (Nh : h <> fd) by congruence.
  assert (N1 : p1 <> fd) by congruence.
  assert (N2 : p2 <> fd) by congruence.
  assert (Nw : recw <> fd) by congruence.
  destruct (FindNextFileA_total env h fd p1 p2 d path pattern c es
              (<[fd := BFindDataA empty_find_data]> hp) ds err (tail o) empty_find_data
              Hc)
    as (b & r' & left & err' & o' & E & _ & Ht);
    rewrite ?lookup_insert_eq, ?lookup_insert_ne by congruence; auto.
  rewrite E. destruct b.
  - destruct (Ht eq_refl) as (e & s & He & Hf & ->).
    destruct (ConvertFindDataAToW_run env fd recw (record_of env path e s) w
                (<[fd := BFindDataA (record_of env path e s)]>
                   (<[fd := BFindDataA empty_find_data]> hp))
                (<[d := left]> ds) err' o')
      as (cv & w' & Ec & Hattr & Hhi & Hlo & _ & _ & _ & Htrue & _).
    { apply lookup_insert_eq. }
    { rewrite !lookup_insert_ne by congruence. exact Hw. }
    rewrite Ec.
    assert (Hfree : forall err'',
               free (Addr fd)
                 (mk_state
                    (<[recw := BFindDataW w']>
                       (<[fd := BFindDataA (record_of env path e s)]>
                          (<[fd := BFindDataA empty_find_data]> hp)))
                    (<[d := left]> ds) err'' o')
               = Ok tt (mk_state (<[recw := BFindDataW w']> hp) (<[d := left]> ds) err'' o')).
    { intros err''. run_step.
      rewrite lookup_insert_ne, lookup_insert_eq by congruence.
      rewrite temporary_gone by auto. reflexivity. }
    destruct cv; cbn [negb].
    + rewrite Hfree.
      exists TRUE. eexists. exists w', left. split; [reflexivity|].
      cbn [heap dirs last_error].
      split; [reflexivity|]. split; [reflexivity|]. split; [discriminate|].
      intros _. exists e, s. destruct (Htrue eq_refl) as [Hn _].
      destruct (record_of_halves env path e s) as (Hsz & _).
      cbv zeta in Hsz. rewrite <- Hhi, <- Hlo in Hsz.
      split; [exact He|]. split; [exact Hf|]. split; [exact Hattr|].
      split; [exact Hsz|exact Hn].
    + unfold SetLastError, set_last_error. cbn [heap dirs last_error oom].
      rewrite Hfree.
      exists FALSE. eexists. exists w', left. split; [reflexivity|].
      cbn [heap dirs last_error].
      split; [reflexivity|]. split; [reflexivity|]. split; discriminate.
  - run_step. rewrite lookup_insert_eq.
    rewrite local_gone by exact Hfd.
    exists FALSE. eexists. exists w, left. split; [reflexivity|].
    cbn [heap dirs last_error].
    split; [symmetry; apply insert_id, Hw|].
    split; [reflexivity|]. split; discriminate.
Qed.

Lemma FindNextFileW_outcome_demo :
  exists b st' w' left,
    FindNextFileW demo_platform (Addr 2) (Addr 5) demo_listing_state_w = Ok b st'
    /\ heap st' = <[5%positive := BFindDataW w']> (heap demo_listing_state_w)
    /\ dirs st' = <[1%positive := left]> (dirs demo_listing_state_w)
    /\ (alloc_fails (oom demo_listing_state_w) = true ->
        b = FALSE /\ w' = stale_find_data_w
        /\ left = ["gone"; "pipe"; "a.txt"; "b.log"]%string
        /\ last_error st' = ERROR_NOT_ENOUGH_MEMORY)
    /\ (b = TRUE ->
        exists e s,
          e ∈ ["gone"; "pipe"; "a.txt"; "b.log"]%string
          /\ entry_fate_of demo_platform "/d/" "*" e = Reported s
          /\ w_dwFileAttributes w'
             = FindDataFromStat_attributes (entry_fullpath "/d/" e) s
          /\ halves_of (w_nFileSizeHigh w') (w_nFileSizeLow w') (st_size s)
          /\ ConvertUtf8NToWChar demo_platform (str_take MAX_PATH e) MAX_PATH MAX_PATH
             = Some (w_cFileName w')).
Proof.
  apply (FindNextFileW_outcome demo_platform demo_listing_state_w 2 5 1
           stale_find_data_w "/d/" "*" ["gone"; "pipe"; "a.txt"; "b.log"]%string).
  - exists 3%positive, 4%positive. cbn [heap dirs].
    repeat split; try reflexivity. discriminate.
  - reflexivity.
  - discriminate.
Defined.

(** X22: [FindFirstFileW] with a live record of the caller always
    returns and releases the temporary record it works on. When it
    returns the sentinel nothing it allocated or opened is left: the
    streams are the ones before and the heap is the one before but,
    possibly, for the caller's record, which is written only after a
    successful search. When it returns a handle, the only new blocks are
    the search object and its two strings, with one new stream, and the
    caller's record holds the attributes and the converted name of an
    entry that is reported. *)
Theorem FindFirstFileW_outcome (env : Platform) (st : State) (recw : positive)
    (w : WIN32_FIND_DATAW) (lpFileName : option wstring) :
  heap st !! recw = Some (BFindDataW w) ->
  exists h st' w',
    FindFirstFileW env lpFileName (Addr recw) st = Ok h st'
    /\ (h = INVALID_HANDLE_VALUE ->
        heap st' = <[recw := BFindDataW w']> (heap st)
        /\ dirs st' = dirs st
        /\ (w' = w
            \/ exists wname name path pat es e s,
                 lpFileName = Some wname
                 /\ ConvertWCharToUtf8Alloc env wname = Some name
                 /\ search_of env name path pat
                 /\ opendir_fs env path = Some es /\ e ∈ es
                 /\ entry_fate_of env path pat e = Reported s
                 /\ last_error st' = ERROR_NOT_ENOUGH_MEMORY))
    /\ (h <> INVALID_HANDLE_VALUE ->
        exists p p1 p2 d wname name path pat es left e s,
          h = Addr p
          /\ lpFileName = Some wname
          /\ ConvertWCharToUtf8Alloc env wname = Some name
          /\ heap st !! p = None /\ heap st !! p1 = None /\ heap st !! p2 = None
          /\ p1 <> p /\ p2 <> p /\ p1 <> p2 /\ dirs st !! d = None
          /\ search_of env name path pat
          /\ opendir_fs env path = Some es /\ e ∈ es
          /\ entry_fate_of env path pat e = Reported s
          /\ heap st'
             = <[recw := BFindDataW w']>
                 (<[p := BSearch (mk_search file_search_magic (Addr p1) (Addr p2) (Some d))]>
                    (<[p2 := BString pat]> (<[p1 := BString path]> (heap st))))
          /\ dirs st' = <[d := left]> (dirs st)
          /\ w_dwFileAttributes w'
             = FindDataFromStat_attributes (entry_fullpath path e) s
          /\ ConvertUtf8NToWChar env (str_take MAX_PATH e) MAX_PATH MAX_PATH
             = Some (w_cFileName w')).
Proof.
  intros Hw. destruct st as [hp ds err o]. cbn [heap dirs last_error] in *.
  assert (Hsame : forall err' o',
             exists h st' w',
               @Ok pointer INVALID_HANDLE_VALUE (mk_state hp ds err' o') = Ok h st'
               /\ (h = INVALID_HANDLE_VALUE ->
                   heap st' = <[recw := BFindDataW w']> hp
                   /\ dirs st' = ds
                   /\ (w' = w
                       \/ exists wname name path pat es e s,
                            lpFileName = Some wname
                            /\ ConvertWCharToUtf8Alloc env wname = Some name
                            /\ search_of env name path pat
                            /\ opendir_fs env path = Some es /\ e ∈ es
                            /\ entry_fate_of env path pat e = Reported s
                            /\ last_error st' = ERROR_NOT_ENOUGH_MEMORY))
               /\ (h <> INVALID_HANDLE_VALUE ->
                   exists p p1 p2 d wname name path pat es left e s,
                     h = Addr p
                     /\ lpFileName = Some wname
                     /\ ConvertWCharToUtf8Alloc env wname = Some name
                     /\ hp !! p = None /\ hp !! p1 = None /\ hp !! p2 = None
                     /\ p1 <> p /\ p2 <> p /\ p1 <> p2 /\ ds !! d = None
                     /\ search_of env name path pat
                     /\ opendir_fs env path = Some es /\ e ∈ es
                     /\ entry_fate_of env path pat e = Reported s
                     /\ heap st'
                        = <[recw := BFindDataW w']>
                            (<[p := BSearch (mk_search file_search_magic (Addr p1) (Addr p2) (Some d))]>
                               (<[p2 := BString pat]> (<[p1 := BString path]> hp)))
                     /\ dirs st' = <[d := left]> ds
                     /\ w_dwFileAttributes w'
                        = FindDataFromStat_attributes (entry_fullpath path e) s
                     /\ ConvertUtf8NToWChar env (str_take MAX_PATH e) MAX_PATH MAX_PATH
                        = Some (w_cFileName w'))).
  { intros err' o'. exists INVALID_HANDLE_VALUE. eexists. exists w.
    split; [reflexivity|]. cbn [heap dirs]. split; [|congruence].
    intros _. split; [symmetry; apply insert_id, Hw|]. auto. }
  unfold FindFirstFileW. destruct lpFileName as [wname|]; [|apply Hsame].
  bind_step. rewrite alloc_run.
  destruct (alloc_fails o) eqn:Ao.
  { cbn [is_null]. unfold SetLastError, set_last_error.
    cbn [heap dirs last_error oom]. apply Hsame. }
  cbn [is_null].
  set (fd := fresh (dom hp)).
  assert (Hfd : hp !! fd = None) by apply fresh_heap_None.
  assert (Nw : recw <> fd) by congruence.
  destruct (ConvertWCharToUtf8Alloc env wname) as [name|] eqn:Hconv.
  2:{ run_step. rewrite lookup_insert_eq.
      rewrite (local_gone_single fd _ hp Hfd). apply Hsame. }
  destruct (FindFirstFileA_outcome env fd empty_find_data
              (<[fd := BFindDataA empty_find_data]> hp) ds err (tail o) name
              (lookup_insert_eq _ _ _))
    as (h & st1 & E & [(-> & [n Hheap] & Hdirs)|Hopen]).
  - rewrite E. cbn [is_invalid_handle_value negb].
    destruct st1 as [hp1 ds1 err1 o1]. cbn [heap dirs] in *. subst hp1 ds1.
    run_step. rewrite lookup_insert_eq.
    rewrite local_gone by exact Hfd. apply Hsame.
  - rewrite E.
    destruct (FindClose_opened_search env name fd empty_find_data _ ds h st1
                (lookup_insert_eq _ _ _) Hopen)
      as (path0 & pat0 & es0 & e0 & s0 & _ & _ & _ & _ & _ & Hinv & _).
    rewrite Hinv. cbn [negb].
    destruct Hopen as (p & p1 & p2 & d & path & pat & es & left & e & s & -> & Hp & H1 & H2
                       & N1 & N2 & N12 & Hd & Hso & Hop & He & Hf & Hheap & Hdirs).
    destruct st1 as [hp1 ds1 err1 o1]. cbn [heap dirs last_error oom] in *.
    subst hp1 ds1.
    apply lookup_insert_None in Hp as [Hp Np].
    apply lookup_insert_None in H1 as [H1 Np1].
    apply lookup_insert_None in H2 as [H2 Np2].
    assert (Nwp : recw <> p) by congruence.
    assert (Nw1 : recw <> p1) by congruence.
    assert (Nw2 : recw <> p2) by congruence.
    set (S := BSearch (mk_search file_search_magic (Addr p1) (Addr p2) (Some d))) in *.
    set (R := record_of env path e s) in *.
    set (hpf := <[fd := BFindDataA empty_find_data]> hp).
    destruct (ConvertFindDataAToW_run env fd recw R w
                (<[fd := BFindDataA R]>
                   (<[p := S]> (<[p2 := BString pat]> (<[p1 := BString path]> hpf))))
                (<[d := left]> ds) err1 o1)
      as (cv & w' & Ec & Hattr & _ & _ & _ & _ & _ & Htrue & _).
    { apply lookup_insert_eq. }
    { subst hpf. rewrite !lookup_insert_ne by congruence. exact Hw. }
    rewrite Ec.
    assert (Hmove : <[recw := BFindDataW w']>
                      (<[fd := BFindDataA R]>
                         (<[p := S]> (<[p2 := BString pat]> (<[p1 := BString path]> hpf))))
                    = <[fd := BFindDataA R]>
                        (<[p := S]>
                           (<[p2 := BString pat]>
                              (<[p1 := BString path]> (<[recw := BFindDataW w']> hpf))))).
    { rewrite (insert_insert_ne _ recw fd) by congruence.
      rewrite (insert_insert_ne _ recw p) by congruence.
      rewrite (insert_insert_ne _ recw p2) by congruence.
      rewrite (insert_insert_ne _ recw p1) by congruence. reflexivity. }
    destruct cv; cbn [negb].
    + (* converted: the temporary record is freed, the handle returned *)
      run_step.
      rewrite (lookup_insert_ne _ recw fd), lookup_insert_eq by congruence.
      exists (Addr p). eexists. exists w'. split; [reflexivity|].
      cbn [heap dirs last_error].
      split; [discriminate|]. intros _.
      exists p, p1, p2, d, wname, name, path, pat, es, left, e, s.
      destruct (Htrue eq_refl) as [Hn _].
      repeat (split; [first [assumption|reflexivity]|]).
      split; [|split; [reflexivity|split; [exact Hattr|exact Hn]]].
      rewrite delete_insert_ne by congruence.
      rewrite delete_insert_eq.
      rewrite !(delete_insert_ne _ fd) by congruence.
      subst hpf. rewrite delete_insert_eq, delete_id by exact Hfd. reflexivity.
    + (* the conversion failed: everything is released *)
      unfold SetLastError at 1, set_last_error. cbn [heap dirs last_error oom].
      rewrite Hmove.
      rewrite <- (insert_insert_eq ds d left left).
      rewrite (FindClose_after_search p p1 p2 d fd); eauto.
      2:{ subst hpf. rewrite lookup_insert_ne, lookup_insert_ne by congruence. exact Hp. }
      2:{ subst hpf. rewrite lookup_insert_ne, lookup_insert_ne by congruence. exact H1. }
      2:{ subst hpf. rewrite lookup_insert_ne, lookup_insert_ne by congruence. exact H2. }
      2:{ subst hpf. rewrite lookup_insert_ne, lookup_insert_eq by congruence. eauto. }
      run_step. rewrite lookup_insert_eq.
      subst hpf. rewrite temporary_gone' by auto.
      exists INVALID_HANDLE_VALUE. eexists. exists w'. split; [reflexivity|].
      cbn [heap dirs last_error]. split; [|congruence]. intros _.
      split; [reflexivity|]. split; [reflexivity|]. right.
      exists wname, name, path, pat, es, e, s. auto 10.
Qed.

Lemma FindFirstFileW_outcome_demo :
  exists h st' w',
    FindFirstFileW demo_platform (Some (wide_of_string "/d/*.txt")) (Addr 1) demo_state_w
    = Ok h st'
    /\ (h = INVALID_HANDLE_VALUE ->
        heap st' = <[1%positive := BFindDataW w']> (heap demo_state_w)
        /\ dirs st' = dirs demo_state_w
        /\ (w' = stale_find_data_w
            \/ exists wname name path pat es e s,
                 Some (wide_of_string "/d/*.txt") = Some wname
                 /\ ConvertWCharToUtf8Alloc demo_platform wname = Some name
                 /\ search_of demo_platform name path pat
                 /\ opendir_fs demo_platform path = Some es /\ e ∈ es
                 /\ entry_fate_of demo_platform path pat e = Reported s
                 /\ last_error st' = ERROR_NOT_ENOUGH_MEMORY))
    /\ (h <> INVALID_HANDLE_VALUE ->
        exists p p1 p2 d wname name path pat es left e s,
          h = Addr p
          /\ Some (wide_of_string "/d/*.txt") = Some wname
          /\ ConvertWCharToUtf8Alloc demo_platform wname = Some name
          /\ heap demo_state_w !! p = None /\ heap demo_state_w !! p1 = None
          /\ heap demo_state_w !! p2 = None
          /\ p1 <> p /\ p2 <> p /\ p1 <> p2 /\ dirs demo_state_w !! d = None
          /\ search_of demo_platform name path pat
          /\ opendir_fs demo_platform path = Some es /\ e ∈ es
          /\ entry_fate_of demo_platform path pat e = Reported s
          /\ heap st'
             = <[1%positive := BFindDataW w']>
                 (<[p := BSearch (mk_search file_search_magic (Addr p1) (Addr p2) (Some d))]>
                    (<[p2 := BString pat]>
                       (<[p1 := BString path]> (heap demo_state_w))))
          /\ dirs st' = <[d := left]> (dirs demo_state_w)
          /\ w_dwFileAttributes w'
             = FindDataFromStat_attributes (entry_fullpath path e) s
          /\ ConvertUtf8NToWChar demo_platform (str_take MAX_PATH e) MAX_PATH MAX_PATH
             = Some (w_cFileName w')).
Proof.
  apply (FindFirstFileW_outcome demo_platform demo_state_w 1 stale_find_data_w
           (Some (wide_of_string "/d/*.txt"))).
  reflexivity.
Defined.

(** ** Failure values of the wide entry points *)

Lemma attributes_not_zero (path : string) (s : struct_stat) :
  FindDataFromStat_attributes path s <> 0.
Proof.
  rewrite attributes_value.
  destruct (S_ISDIR (st_mode s));
    destruct (match strrchr path "/" with
              | Some t => hidden_name (str_next t)
              | None => false
              end);
    destruct (Z.land (st_mode s) S_IWUSR =? 0); discriminate.
Qed.

(** X23: [GetFileAttributesW] leaves the heap and the open streams as
    they were. For a null name and for a name that cannot be converted
    it returns 0, which is not [INVALID_FILE_ATTRIBUTES], the value
    [GetFileAttributesA] returns for a null name, and which is not the
    attributes of any file either; for a name that converts it is
    [GetFileAttributesA] on the converted name. *)
Theorem GetFileAttributesW_failure_value (env : Platform) (st : State)
    (lpFileName : option wstring) :
  exists a st',
    GetFileAttributesW env lpFileName st = Ok a st'
    /\ heap st' = heap st
    /\ dirs st' = dirs st
    /\ (lpFileName = None
        \/ (exists wname, lpFileName = Some wname
                          /\ ConvertWCharToUtf8Alloc env wname = None) ->
        a = 0 /\ a <> INVALID_FILE_ATTRIBUTES
        /\ exists a0 st0,
             GetFileAttributesA env None st = Ok a0 st0
             /\ a0 = INVALID_FILE_ATTRIBUTES)
    /\ (forall wname name,
          lpFileName = Some wname ->
          ConvertWCharToUtf8Alloc env wname = Some name ->
          GetFileAttributesW env lpFileName st = GetFileAttributesA env (Some name) st)
    /\ (forall path s, FindDataFromStat_attributes path s <> 0).
Proof.
  assert (Hnull : exists a0 st0,
             GetFileAttributesA env None st = Ok a0 st0
             /\ a0 = INVALID_FILE_ATTRIBUTES).
  { unfold GetFileAttributesA, with_local, FindFirstFileA. bind_step.
    cbn [is_invalid_handle_value]. do 2 eexists. split; reflexivity. }
  destruct st as [hp ds err o]. unfold GetFileAttributesW.
  destruct lpFileName as [wname|].
  - destruct (ConvertWCharToUtf8Alloc env wname) as [name|] eqn:Hc.
    + destruct (GetFileAttributesA_run env name hp ds err o)
        as (a & err' & o' & E & _).
      exists a. eexists. split; [exact E|]. cbn [heap dirs].
      split; [reflexivity|]. split; [reflexivity|]. split.
      { intros [H|(w' & H & Hn)]; [discriminate|]. congruence. }
      split; [|apply attributes_not_zero].
      intros w' name' Hw Hn. congruence.
    + bind_step. unfold SetLastError, set_last_error. cbn [heap dirs last_error oom].
      do 2 eexists. split; [reflexivity|]. cbn [heap dirs].
      split; [reflexivity|]. split; [reflexivity|]. split.
      { intros _. split; [reflexivity|]. split; [discriminate|exact Hnull]. }
      split; [|apply attributes_not_zero].
      intros w' name' Hw Hn. congruence.
  - do 2 eexists. split; [reflexivity|]. cbn [heap dirs].
    split; [reflexivity|]. split; [reflexivity|]. split.
    { intros _. split; [reflexivity|]. split; [discriminate|exact Hnull]. }
    split; [|apply attributes_not_zero].
    intros w' name' Hw Hn. discriminate.
Qed.

(** X24: [CreateFileW] reports its own failures, a null name and a name
    that cannot be converted, with the null handle, not with
    [INVALID_HANDLE_VALUE] as [CreateFileA] does, and does so before the
    registry of creators is looked at: the registry and the world of the
    creators are untouched. For a name that converts it is [CreateFileA]
    on the converted name. *)
Theorem CreateFileW_own_failures_are_null {World : Type} (renv : RegistryEnv World)
    (env : Platform) (lpFileName : option wstring) (args : create_args)
    (p : Process World) :
  (lpFileName = None
   \/ (exists wname, lpFileName = Some wname
                     /\ ConvertWCharToUtf8Alloc env wname = None) ->
   exists p',
     CreateFileW renv env lpFileName args p = Some (NULL, p')
     /\ HandleCreatorsInitialized p' = HandleCreatorsInitialized p
     /\ HandleCreators p' = HandleCreators p
     /\ world p' = world p
     /\ CreateFileA renv None args p = Some (INVALID_HANDLE_VALUE, p))
  /\ (forall wname name,
        lpFileName = Some wname ->
        ConvertWCharToUtf8Alloc env wname = Some name ->
        CreateFileW renv env lpFileName args p = CreateFileA renv (Some name) args p).
Proof.
  split.
  - intros [->|(wname & -> & Hc)]; unfold CreateFileW.
    + exists p. auto.
    + rewrite Hc. eexists. split; [reflexivity|]. auto.
  - intros wname name -> Hc. unfold CreateFileW. rewrite Hc. reflexivity.
Qed.

Lemma CreateFileW_own_failures_demo :
  exists p',
    CreateFileW demo_registry_env demo_platform None demo_create_args demo_process
    = Some (NULL, p')
    /\ HandleCreatorsInitialized p' = HandleCreatorsInitialized demo_process
    /\ HandleCreators p' = HandleCreators demo_process
    /\ world p' = world demo_process
    /\ CreateFileA demo_registry_env None demo_create_args demo_process
       = Some (INVALID_HANDLE_VALUE, demo_process).
Proof.
  apply (proj1 (CreateFileW_own_failures_are_null demo_registry_env demo_platform
                  None demo_create_args demo_process)).
  left. reflexivity.
Defined.

(** ** The search object *)

(** X25: [file_search_new] always returns, never sets the last error,
    and is all or nothing: when it returns null, every block it
    allocated and every stream it opened has been released again; when
    it returns an object, that object is a valid search handle with a
    path string and a pattern string of its own and a stream that holds
    all the names of its directory, which is the directory part of the
    name or, when that does not open, the whole name with the pattern
    ["*"]. *)
Theorem file_search_new_all_or_nothing (env : Platform) (st : State)
    (name pattern : string) (namelen patternlen : nat) :
  exists res st',
    file_search_new env name namelen pattern patternlen st = Ok res st'
    /\ last_error st' = last_error st
    /\ (res = NULL -> heap st' = heap st /\ dirs st' = dirs st)
    /\ (res <> NULL ->
        exists p d path pat es,
          res = Addr p
          /\ heap st !! p = None /\ dirs st !! d = None
          /\ search_object st' p path pat d es
          /\ opendir_fs env path = Some es
          /\ (path = str_take namelen name /\ pat = str_take patternlen pattern
              \/ path = name /\ pat = "*"%string
                 /\ opendir_fs env (str_take namelen name) = None)
          /\ (forall a b, heap st !! a = Some b -> heap st' !! a = Some b)
          /\ (forall i l, dirs st !! i = Some l -> dirs st' !! i = Some l)).
Proof.
  destruct st as [hp ds err o].
  destruct (file_search_new_run env name namelen pattern patternlen hp ds err o)
    as (res & st' & E & Herr & _ & Hcases).
  exists res, st'. split; [exact E|]. split; [exact Herr|].
  cbn [heap dirs] in *.
  destruct Hcases as [(-> & Hh & Hd & _)
                     |(p & p1 & p2 & d & path & pat & es & -> & Hp & H1 & H2
                       & N1 & N2 & N12 & Hd & Hheap & Hdirs & Hop & Hwhich)].
  - split; [auto|congruence].
  - split; [discriminate|]. intros _.
    exists p, d, path, pat, es.
    split; [reflexivity|]. split; [exact Hp|]. split; [exact Hd|]. split.
    { exists p1, p2. rewrite Hheap, Hdirs.
      rewrite lookup_insert_eq.
      rewrite (lookup_insert_ne _ p p1), (lookup_insert_ne _ p2 p1),
        lookup_insert_eq by congruence.
      rewrite (lookup_insert_ne _ p p2), lookup_insert_eq by congruence.
      rewrite lookup_insert_eq. auto. }
    split; [exact Hop|]. split; [exact Hwhich|]. split.
    + intros a b Ha. rewrite Hheap.
      rewrite !lookup_insert_ne by congruence. exact Ha.
    + intros i l Hi. rewrite Hdirs.
      rewrite lookup_insert_ne by congruence. exact Hi.
Qed.

(** ** The formats of the OSS audio input device *)

(** X26: a format that [audin_oss_format_supported] accepts is one
    [audin_oss_get_format] has a sample format for, the signed 8-bit one
    or the signed 16-bit little-endian one, never the fallback 0 of the
    formats it does not know; it has one or two channels, at most 48000
    samples a second, and the capture buffer computed for it holds whole
    samples: eight times its size is the number of bits of a packet. *)
Theorem audin_oss_supported_format_has_sample_format
    (WAVE_FORMAT_PCM AFMT_S8 AFMT_S16_LE : Z) (format : AUDIO_FORMAT)
    (FramesPerPacket : Z) :
  audin_oss_format_supported WAVE_FORMAT_PCM true (Some format) = TRUE ->
  0 <= FramesPerPacket < 2 ^ 32 ->
  (wBitsPerSample format = 8
   /\ audin_oss_get_format WAVE_FORMAT_PCM AFMT_S8 AFMT_S16_LE format = AFMT_S8
   \/ wBitsPerSample format = 16
      /\ audin_oss_get_format WAVE_FORMAT_PCM AFMT_S8 AFMT_S16_LE format = AFMT_S16_LE)
  /\ (nChannels format = 1 \/ nChannels format = 2)
  /\ nSamplesPerSec format <= 48000
  /\ cbSize format = 0
  /\ 8 * audin_oss_buffer_size FramesPerPacket format
     = FramesPerPacket * nChannels format * wBitsPerSample format.
Proof.
  unfold audin_oss_format_supported, audin_oss_get_format, audin_oss_buffer_size,
    to_UINT64.
  intros H Hf. cbn [negb] in H.
  destruct (Z.eqb_spec (wFormatTag format) WAVE_FORMAT_PCM) as [Ht|]; [|discriminate].
  destruct (Z.eqb_spec (cbSize format) 0) as [Hc|]; [|discriminate].
  destruct (Z.ltb_spec 48000 (nSamplesPerSec format)) as [|Hs]; [discriminate|].
  cbn [negb orb] in H.
  destruct (Z.eqb_spec (wBitsPerSample format) 8) as [Hb|Hb8].
  - cbn [negb andb orb] in H.
    destruct (Z.eqb_spec (nChannels format) 1) as [Hn|Hn1].
    + rewrite Hb, Hn. change (8 / 8) with 1.
      rewrite Z.mod_small by lia. repeat split; auto; lia.
    + destruct (Z.eqb_spec (nChannels format) 2) as [Hn|]; [|discriminate].
      rewrite Hb, Hn. change (8 / 8) with 1.
      rewrite Z.mod_small by lia. repeat split; auto; lia.
  - destruct (Z.eqb_spec (wBitsPerSample format) 16) as [Hb|]; [|discriminate].
    cbn [negb andb orb] in H.
    destruct (Z.eqb_spec (nChannels format) 1) as [Hn|Hn1].
    + rewrite Hb, Hn. change (16 / 8) with 2.
      rewrite Z.mod_small by lia. repeat split; auto; lia.
    + destruct (Z.eqb_spec (nChannels format) 2) as [Hn|]; [|discriminate].
      rewrite Hb, Hn. change (16 / 8) with 2.
      rewrite Z.mod_small by lia. repeat split; auto; lia.
Qed.

Lemma audin_oss_supported_format_demo :
  (wBitsPerSample (mk_audio_format 1 2 44100 176400 4 16 0) = 8
   /\ audin_oss_get_format 1 0x40 0x10 (mk_audio_format 1 2 44100 176400 4 16 0) = 0x40
   \/ wBitsPerSample (mk_audio_format 1 2 44100 176400 4 16 0) = 16
      /\ audin_oss_get_format 1 0x40 0x10 (mk_audio_format 1 2 44100 176400 4 16 0)
         = 0x10)
  /\ (nChannels (mk_audio_format 1 2 44100 176400 4 16 0) = 1
      \/ nChannels (mk_audio_format 1 2 44100 176400 4 16 0) = 2)
  /\ nSamplesPerSec (mk_audio_format 1 2 44100 176400 4 16 0) <= 48000
  /\ cbSize (mk_audio_format 1 2 44100 176400 4 16 0) = 0
  /\ 8 * audin_oss_buffer_size 1024 (mk_audio_format 1 2 44100 176400 4 16 0)
     = 1024 * nChannels (mk_audio_format 1 2 44100 176400 4 16 0)
       * wBitsPerSample (mk_audio_format 1 2 44100 176400 4 16 0).
Proof.
  apply (audin_oss_supported_format_has_sample_format 1 0x40 0x10
           (mk_audio_format 1 2 44100 176400 4 16 0) 1024).
  - reflexivity.
  - lia.
Defined.

(** ** Moving a file named by wide strings *)

Lemma MoveFileExA_state (env : Platform) (existing new : string) (flags : DWORD)
    (hp : gmap positive block) (ds : gmap positive (list string))
    (err : DWORD) (o : list bool) :
  exists b err',
    MoveFileExA env existing new flags (mk_state hp ds err o)
    = Ok b (mk_state hp ds err' o).
Proof.
  unfold MoveFileExA, MoveFileExA_rename.
  destruct (Z.land flags MOVEFILE_REPLACE_EXISTING =? 0);
    destruct (stat env new) as [s|e];
    try destruct (Z.land (st_mode s) S_IWUSR =? 0);
    try destruct (rename_fs env existing new);
    do 2 eexists; reflexivity.
Qed.

(** X27: [MoveFileExW] releases the two converted names on every path:
    the heap and the open streams afterwards are the ones before. With a
    null name it returns [FALSE] and changes nothing; when a name cannot
    be converted or allocated it returns [FALSE] with
    [ERROR_NOT_ENOUGH_MEMORY] and nothing is renamed; when both names
    convert and no allocation fails it returns what [MoveFileExA] returns
    on the converted names, with the last error [MoveFileExA] leaves. *)
Theorem MoveFileExW_releases_names (env : Platform) (st : State)
    (lpExistingFileName lpNewFileName : option wstring) (flags : DWORD) :
  exists b st',
    MoveFileExW env lpExistingFileName lpNewFileName flags st = Ok b st'
    /\ heap st' = heap st
    /\ dirs st' = dirs st
    /\ (lpExistingFileName = None \/ lpNewFileName = None ->
        b = FALSE /\ st' = st)
    /\ (forall wexisting wnew,
          lpExistingFileName = Some wexisting -> lpNewFileName = Some wnew ->
          ConvertWCharToUtf8Alloc env wexisting = None
          \/ ConvertWCharToUtf8Alloc env wnew = None ->
          b = FALSE /\ last_error st' = ERROR_NOT_ENOUGH_MEMORY)
    /\ (forall wexisting wnew existing new,
          lpExistingFileName = Some wexisting -> lpNewFileName = Some wnew ->
          ConvertWCharToUtf8Alloc env wexisting = Some existing ->
          ConvertWCharToUtf8Alloc env wnew = Some new ->
          oom st = [] ->
          exists st0,
            MoveFileExA env existing new flags st = Ok b st0
            /\ last_error st' = last_error st0).
Proof.
  destruct st as [hp ds err o]. cbn [heap dirs last_error oom].
  unfold MoveFileExW.
  destruct lpExistingFileName as [we|].
  2:{ do 2 eexists. split; [reflexivity|]. cbn [heap dirs].
      repeat split; auto; intros; discriminate. }
  destruct lpNewFileName as [wn|].
  2:{ do 2 eexists. split; [reflexivity|]. cbn [heap dirs].
      repeat split; auto; intros; discriminate. }
  bind_step. unfold ConvertWCharToUtf8Alloc_block.
  (* the outcome when a name is missing *)
  assert (Hfail : forall (q1 q2 : pointer) hp' o',
             is_null q1 || is_null q2 = true ->
             releasable q2 hp' ->
             releasable q1 (release q2 hp') ->
             release q1 (release q2 hp') = hp ->
             (ConvertWCharToUtf8Alloc env we <> None ->
              ConvertWCharToUtf8Alloc env wn <> None -> o <> []) ->
             forall k : M BOOL,
             exists b st',
               (if is_null q1 || is_null q2
                then
                  fun st : State =>
                    match SetLastError ERROR_NOT_ENOUGH_MEMORY st with
                    | Ok _ s1 =>
                        match free q2 s1 with
                        | Ok _ s2 =>
                            match free q1 s2 with
                            | Ok _ s3 => Ok FALSE s3
                            | Fault => Fault
                            end
                        | Fault => Fault
                        end
                    | Fault => Fault
                    end
                else k) (mk_state hp' ds err o') = Ok b st'
               /\ heap st' = hp /\ dirs st' = ds
               /\ (Some we = None \/ Some wn = None ->
                   b = FALSE /\ st' = mk_state hp ds err o)
               /\ (forall wexisting wnew,
                     Some we = Some wexisting -> Some wn = Some wnew ->
                     ConvertWCharToUtf8Alloc env wexisting = None
                     \/ ConvertWCharToUtf8Alloc env wnew = None ->
                     b = FALSE /\ last_error st' = ERROR_NOT_ENOUGH_MEMORY)
               /\ (forall wexisting wnew existing new,
                     Some we = Some wexisting -> Some wn = Some wnew ->
                     ConvertWCharToUtf8Alloc env wexisting = Some existing ->
                     ConvertWCharToUtf8Alloc env wnew = Some new ->
                     o = [] ->
                     exists st0,
                       MoveFileExA env existing new flags (mk_state hp ds err o) = Ok b st0
                       /\ last_error st' = last_error st0)).
  { intros q1 q2 hp' o' Hnull R2 R1 Hback Hwhy k. rewrite Hnull. cbv beta.
    unfold SetLastError, set_last_error. cbn [heap dirs last_error oom].
    rewrite (free_run q2 hp') by exact R2.
    rewrite (free_run q1 (release q2 hp')) by exact R1.
    rewrite Hback. do 2 eexists. split; [reflexivity|]. cbn [heap dirs last_error].
    split; [reflexivity|]. split; [reflexivity|].
    split; [intros [H|H]; discriminate|]. split; [auto|].
    intros wexisting wnew existing new Ee En Hce Hcn Ho. exfalso.
    inversion Ee; inversion En; subst. apply Hwhy; congruence. }
  destruct (ConvertWCharToUtf8Alloc env we) as [existing|] eqn:Hce.
  2:{ (* the first name does not convert *)
      unfold ret at 1.
      destruct (ConvertWCharToUtf8Alloc env wn) as [new|] eqn:Hcn.
      - rewrite alloc_run. destruct (alloc_fails o) eqn:Ao.
        + apply Hfail; cbn; auto; congruence.
        + apply Hfail; cbn [is_null orb releasable release]; auto; try congruence.
          * rewrite lookup_insert_eq. eauto.
          * rewrite delete_insert_eq. apply delete_id, fresh_heap_None.
      - unfold ret. apply Hfail; cbn; auto; congruence. }
  rewrite alloc_run. destruct (alloc_fails o) eqn:Ao.
  { (* the first name cannot be allocated *)
    assert (Hne : o <> []) by (intros ->; discriminate).
    destruct (ConvertWCharToUtf8Alloc env wn) as [new|] eqn:Hcn.
    - rewrite alloc_run. destruct (alloc_fails (tail o)) eqn:Ao2.
      + apply Hfail; cbn; auto.
      + apply Hfail; cbn [is_null orb releasable release]; auto.
        * rewrite lookup_insert_eq. eauto.
        * rewrite delete_insert_eq. apply delete_id, fresh_heap_None.
    - unfold ret. apply Hfail; cbn; auto. }
  set (a := fresh (dom hp)).
  assert (Ha : hp !! a = None) by apply fresh_heap_None.
  destruct (ConvertWCharToUtf8Alloc env wn) as [new|] eqn:Hcn.
  2:{ unfold ret. apply Hfail; cbn [is_null orb releasable release]; auto;
        try congruence.
      - rewrite lookup_insert_eq. eauto.
      - rewrite delete_insert_eq. apply delete_id, Ha. }
  rewrite alloc_run. destruct (alloc_fails (tail o)) eqn:Ao2.
  { apply Hfail; cbn [is_null orb releasable release]; auto.
    - rewrite lookup_insert_eq. eauto.
    - rewrite delete_insert_eq. apply delete_id, Ha.
    - intros _ _ ->. discriminate. }
  (* both names are there *)
  cbn [is_null orb].
  set (b0 := fresh (dom (<[a := BString existing]> hp))).
  assert (Hb : <[a := BString existing]> hp !! b0 = None) by apply fresh_heap_None.
  apply lookup_insert_None in Hb as [Hb Nab].
  rewrite (load_string_run a existing)
    by (rewrite lookup_insert_ne by congruence; apply lookup_insert_eq).
  rewrite (load_string_run b0 new) by apply lookup_insert_eq.
  destruct (MoveFileExA_state env existing new flags
              (<[b0 := BString new]> (<[a := BString existing]> hp)) ds err
              (tail (tail o))) as (r & err' & Em).
  rewrite Em.
  rewrite (free_run (Addr b0)) by (cbn; rewrite lookup_insert_eq; eauto).
  cbn [release]. rewrite delete_insert_eq, (delete_id _ b0)
    by (rewrite lookup_insert_ne by congruence; exact Hb).
  rewrite (free_run (Addr a)) by (cbn; rewrite lookup_insert_eq; eauto).
  cbn [release]. rewrite delete_insert_eq, (delete_id _ a) by exact Ha.
  unfold ret. do 2 eexists. split; [reflexivity|]. cbn [heap dirs last_error].
  split; [reflexivity|]. split; [reflexivity|].
  split; [intros [H|H]; discriminate|].
  split.
  { intros wexisting wnew Ee En [H|H]; inversion Ee; inversion En; subst; congruence. }
  intros wexisting wnew existing' new' Ee En Hce' Hcn' Ho.
  inversion Ee; inversion En; subst.
  assert (existing' = existing) by congruence.
  assert (new' = new) by congruence. subst.
  cbn [tail] in Em.
  unfold MoveFileExA, MoveFileExA_rename in *.
  destruct (Z.land flags MOVEFILE_REPLACE_EXISTING =? 0);
    destruct (stat env new) as [s|e];
    try destruct (Z.land (st_mode s) S_IWUSR =? 0);
    try destruct (rename_fs env existing new);
    cbv [mbind M_bind bind ret mret M_ret SetLastError set_last_error
         heap dirs last_error oom] in *;
    inversion Em; subst; eexists; split; reflexivity.
Qed.
